(** * repack-juggler: a shallow embedding of [browser_patches/repack-juggler.mjs]

    The script downloads a prebuilt Firefox, finds the [omni.ja] archive that
    carries Juggler, and replaces its [chrome/juggler] subtree with the files
    listed in [jar.mn].

    Modelling conventions.
    - A JavaScript string is a [string]: a sequence of 8-bit code units, read
      as the Latin-1 range of UTF-16.  White space is the part of the
      ECMAScript [WhiteSpace]/[LineTerminator] set that lies in that range.
    - A JavaScript number that comes out of [parseInt] is a [jsnum]: [NaN] or
      an integer (exact on the safe-integer range).
    - Code that throws returns [Throw]; [process.exit] returns [Exit].
    - Console output is not modelled.
    - The file system, the network and the child processes are explicit state
      and environments; every effect the claims talk about is appended to a
      log of events. *)

From Stdlib Require Import ZArith Ascii String List Bool Lia.
From stdpp Require Import base option list gmap strings.

Set Warnings "-register-all".
Local Open Scope Z_scope.

(** ** JavaScript values used by the script *)

Module Js.

(** [parseInt] yields a number; the script only ever sees [NaN] or the
    double that is nearest to the integer it read.  [Num z] stands for that
    double, named by the integer [z] that was read: up to 2^53 in magnitude
    the double is [z] itself. *)
Inductive jsnum : Set :=
| NaN
| Num (z : Z).

(** Outcome of a piece of script code. *)
Inductive error : Set :=
| TypeError (msg : string)
| Error (msg : string)
| IOError (code : string) (path : string).

(** [Pending] is the one outcome that is not a result: the promise of the
    script has not settled.  It has not settled yet when the model ran out of
    fuel while the script was still following redirects, and it never settles
    when the body of a download breaks off. *)
Inductive result (A : Type) : Type :=
| Ok (a : A)
| Throw (e : error)
| Exit (status : Z)
| Pending.
Arguments Ok {A} a.
Arguments Throw {A} e.
Arguments Exit {A} status.
Arguments Pending {A}.

Definition bind {A B} (m : result A) (k : A -> result B) : result B :=
  match m with
  | Ok a => k a
  | Throw e => Throw e
  | Exit n => Exit n
  | Pending => Pending
  end.

(** The [WhiteSpace] and [LineTerminator] code units below 256: TAB, LF, VT,
    FF, CR, SP and NBSP.  [String.prototype.trim] and the regular expression
    class [\s] use the same set. *)
Definition isWhiteSpace (c : ascii) : bool :=
  match nat_of_ascii c with
  | 9%nat | 10%nat | 11%nat | 12%nat | 13%nat | 32%nat | 160%nat => true
  | _ => false
  end.

(** The double quote. *)
Definition dquote : ascii := "034"%char.

Definition isEmpty (s : string) : bool :=
  match s with
  | EmptyString => true
  | String _ _ => false
  end.

(** [s.trimStart()] *)
Fixpoint trimStart (s : string) : string :=
  match s with
  | EmptyString => EmptyString
  | String c s' => if isWhiteSpace c then trimStart s' else s
  end.

(** [s.trimEnd()] *)
Fixpoint trimEnd (s : string) : string :=
  match s with
  | EmptyString => EmptyString
  | String c s' =>
      let r := trimEnd s' in
      if isEmpty r && isWhiteSpace c then EmptyString else String c r
  end.

(** [s.trim()] *)
Definition trim (s : string) : string := trimEnd (trimStart s).

(** [s.startsWith(p)] *)
Fixpoint startsWith (p s : string) : bool :=
  match p, s with
  | EmptyString, _ => true
  | String _ _, EmptyString => false
  | String a p', String b s' => if ascii_dec a b then startsWith p' s' else false
  end.

(** [s.endsWith(p)]: the last [p.length] code units of [s] are [p]. *)
Definition endsWith (p s : string) : bool :=
  let n := String.length s in
  let k := String.length p in
  (k <=? n)%nat && bool_decide (substring (n - k) k s = p).

(** [s.includes(p)] *)
Fixpoint includes (p s : string) : bool :=
  startsWith p s ||
  match s with
  | EmptyString => false
  | String _ s' => includes p s'
  end.

(** [s.split(sep)] for a one-character separator [sep]. *)
Fixpoint split (sep : ascii) (s : string) : list string :=
  match s with
  | EmptyString => [EmptyString]
  | String c s' =>
      if ascii_dec c sep then EmptyString :: split sep s'
      else match split sep s' with
           | h :: t => String c h :: t
           | [] => [String c EmptyString]
           end
  end.

(** [s.split(/\s+/)].  [inWs] tells that the previous code unit was white
    space, so that a run of white space separates only once. *)
Fixpoint splitWsFrom (inWs : bool) (s : string) : list string :=
  match s with
  | EmptyString => [EmptyString]
  | String c s' =>
      if isWhiteSpace c then
        if inWs then splitWsFrom true s' else EmptyString :: splitWsFrom true s'
      else match splitWsFrom false s' with
           | h :: t => String c h :: t
           | [] => [String c EmptyString]
           end
  end.

Definition splitWs (s : string) : list string := splitWsFrom false s.

(** [parts.join(sep)] *)
Fixpoint join (sep : string) (parts : list string) : string :=
  match parts with
  | [] => EmptyString
  | [p] => p
  | p :: rest => p +:+ sep +:+ join sep rest
  end.

(** Index clamping of [slice]: a negative index counts from the end. *)
Definition sliceIndex (len i : Z) : Z :=
  if i <? 0 then Z.max (len + i) 0 else Z.min i len.

(** [s.slice(from, to)] *)
Definition slice (from to : Z) (s : string) : string :=
  let len := Z.of_nat (String.length s) in
  let a := sliceIndex len from in
  let b := sliceIndex len to in
  substring (Z.to_nat a) (Z.to_nat (Z.max (b - a) 0)) s.

(** [s.substring(from, to)]: both indices are clamped to the string and
    swapped when out of order. *)
Definition jsSubstring (from to : Z) (s : string) : string :=
  let len := Z.of_nat (String.length s) in
  let a := Z.min (Z.max from 0) len in
  let b := Z.min (Z.max to 0) len in
  substring (Z.to_nat (Z.min a b)) (Z.to_nat (Z.max a b - Z.min a b)) s.

(** [s.toLowerCase()] on the Latin-1 range: A-Z and the accented capitals
    other than the multiplication sign move up by 32. *)
Definition lowerChar (c : ascii) : ascii :=
  let n := nat_of_ascii c in
  if ((65 <=? n) && (n <=? 90))%nat then ascii_of_nat (n + 32)
  else if ((192 <=? n) && (n <=? 222) && negb (n =? 215))%nat
       then ascii_of_nat (n + 32)
  else c.

Fixpoint toLowerCase (s : string) : string :=
  match s with
  | EmptyString => EmptyString
  | String c s' => String (lowerChar c) (toLowerCase s')
  end.

(** Decimal digits. *)
Definition digitOf (c : ascii) : option Z :=
  let n := nat_of_ascii c in
  if ((48 <=? n) && (n <=? 57))%nat then Some (Z.of_nat n - 48) else None.

(** The longest run of leading digits of [s], accumulated in base ten;
    [None] when [s] starts with no digit. *)
Fixpoint digitsFrom (acc : option Z) (s : string) : option Z :=
  match s with
  | EmptyString => acc
  | String c s' =>
      match digitOf c with
      | Some d => digitsFrom (Some (10 * default 0 acc + d)) s'
      | None => acc
      end
  end.

(** [parseInt(s, 10)]: leading white space is skipped, one sign is read, then
    the longest run of digits; no digit gives [NaN]. *)
Definition parseInt (s : string) : jsnum :=
  match trimStart s with
  | String "-" r =>
      match digitsFrom None r with Some z => Num (- z) | None => NaN end
  | String "+" r =>
      match digitsFrom None r with Some z => Num z | None => NaN end
  | r =>
      match digitsFrom None r with Some z => Num z | None => NaN end
  end.

(** Decimal rendering of a natural number, most significant digit first. *)
Fixpoint showPos (fuel : nat) (n : Z) (acc : string) : string :=
  match fuel with
  | O => acc
  | S fuel' =>
      let d := ascii_of_nat (Z.to_nat (n mod 10) + 48) in
      if n <? 10 then String d acc else showPos fuel' (n / 10) (String d acc)
  end.

Definition showZ (z : Z) : string :=
  if z <? 0 then String "-" (showPos (Z.to_nat (Z.log2 (- z)) + 1) (- z) "")
  else showPos (Z.to_nat (Z.log2 z) + 1) z "".

(** The integers that a double holds exactly, and prints digit by digit. *)
Definition exact (z : Z) : bool := Z.abs z <=? 2 ^ 53.

(** Template-literal rendering [`${x}`] of a number.  An integer beyond 2^53
    is rounded to a double and printed by the engine with the shortest digits
    that give that double back, in exponent form from 1e21 on: [big] is that
    rendering. *)
Definition showNum (big : Z -> string) (x : jsnum) : string :=
  match x with
  | NaN => "NaN"
  | Num z => if exact z then showZ z else big z
  end.

(** Rendering of a possibly [undefined] number. *)
Definition showOptNum (big : Z -> string) (x : option jsnum) : string :=
  match x with
  | None => "undefined"
  | Some n => showNum big n
  end.

(** Relational operators on numbers: every comparison with [NaN] is false.
    The script compares with 10, 11 and 19 only; rounding to a double is
    monotone and leaves these alone, so that the comparison of the integer
    read is the comparison of the double. *)
Definition numGe (x : jsnum) (k : Z) : bool :=
  match x with NaN => false | Num z => k <=? z end.
Definition numLe (x : jsnum) (k : Z) : bool :=
  match x with NaN => false | Num z => z <=? k end.
Definition numGt (x : jsnum) (k : Z) : bool :=
  match x with NaN => false | Num z => k <? z end.
Definition numEq (x : jsnum) (k : Z) : bool :=
  match x with NaN => false | Num z => z =? k end.

(** Decimal numerals as they are written: the digits, most significant
    first. *)
Definition digitChar (d : nat) : ascii := ascii_of_nat (d + 48).

Fixpoint digitString (ds : list nat) : string :=
  match ds with
  | [] => EmptyString
  | d :: rest => String (digitChar d) (digitString rest)
  end.

Definition digitsValue (ds : list nat) : Z :=
  foldl (fun a d => 10 * a + Z.of_nat d) 0 ds.

(** A numeral without a superfluous leading zero. *)
Definition numeral (ds : list nat) : Prop :=
  ds <> [] /\ Forall (fun d => (d < 10)%nat) ds /\ (head ds = Some 0%nat -> ds = [0%nat]).

(** [s] without its first and its last code unit. *)
Definition withoutEnds (s : string) : string :=
  substring 1 (String.length s - 2) s.

(** The code unit [c] occurs in [s]. *)
Fixpoint occurs (c : ascii) (s : string) : bool :=
  match s with
  | EmptyString => false
  | String a s' => bool_decide (a = c) || occurs c s'
  end.

End Js.

Import Js.

(** ** Paths

    A path is the list of its segments from the root; the script only builds
    absolute paths.  The separator is the slash, and on win32 the backslash
    as well.  File names are compared code unit by code unit. *)

Module Path.

Abbreviation path := (list string).

(** One step of [path.normalize]: empty and [.] segments vanish, [..] drops
    the last segment (and stays at the root). *)
Definition pushSegment (p : path) (seg : string) : path :=
  if bool_decide (seg = "") || bool_decide (seg = ".") then p
  else if bool_decide (seg = "..") then removelast p
  else p ++ [seg].

(** A separator: the slash, and the backslash where [backslash] is set. *)
Definition isSeparator (backslash : bool) (c : ascii) : bool :=
  bool_decide (c = "/"%char) || (bool_decide (c = "\"%char) && backslash).

(** The segments of one argument of [path.join]. *)
Fixpoint segments (backslash : bool) (s : string) : list string :=
  match s with
  | EmptyString => [EmptyString]
  | String c s' =>
      if isSeparator backslash c then EmptyString :: segments backslash s'
      else match segments backslash s' with
           | h :: t => String c h :: t
           | [] => [String c EmptyString]
           end
  end.

(** [path.join(base, part_1, ..., part_n)] for an absolute [base]. *)
Definition join (backslash : bool) (base : path) (parts : list string) : path :=
  foldl pushSegment base (flat_map (segments backslash) parts).

(** A name that [path.normalize] keeps as one segment. *)
Definition plain (seg : string) : Prop :=
  occurs "/" seg = false /\ seg <> "" /\ seg <> "." /\ seg <> "..".

(** The last code unit of [s] is a separator.  [path.join] keeps a trailing
    separator of its last argument, and the file that such a path names
    cannot be opened for reading or writing. *)
Fixpoint trailing (backslash : bool) (s : string) : bool :=
  match s with
  | EmptyString => false
  | String c EmptyString => isSeparator backslash c
  | String _ s' => trailing backslash s'
  end.

(** [path.dirname(p)] *)
Definition dirname (p : path) : path := removelast p.

(** [inside d p]: [p] is [d] or lies below it. *)
Definition inside (d p : path) : bool := bool_decide (d `prefix_of` p).

(** The last segment of [p] ends with [suffix]; on an absolute path string
    this is what [filePath.endsWith(suffix)] tests when [suffix] has no
    slash. *)
Definition nameEndsWith (suffix : string) (p : path) : bool :=
  match last p with
  | Some name => Js.endsWith suffix name
  | None => false
  end.

End Path.

Import Path.

(** ** Files, archives and the file system *)

(** A parsed JSON text. *)
Inductive json : Type :=
| JNull
| JBool (b : bool)
| JNum (z : Z)
| JStr (s : string)
| JArr (items : list json)
| JObj (fields : list (string * json)).

(** What a file holds: its bytes, together with what the two decoders of the
    script make of them.  [Text s] is neither JSON nor a zip archive;
    [Json s v] is read by [JSON.parse] as [v]; [Zip s entries] is read by
    [AdmZip] as [entries].  An entry is its name and its data; a directory
    entry has no data. *)
Inductive content : Type :=
| Text (s : string)
| Json (s : string) (v : json)
| Zip (s : string) (entries : list (string * option content)).

(** [buffer.toString('utf8')] *)
Definition utf8 (c : content) : string :=
  match c with
  | Text s | Json s _ | Zip s _ => s
  end.

Abbreviation zipEntry := (string * option content)%type.

Inductive node : Type :=
| Dir
| File (c : content).

(** Effects of the script, in the order they happen. *)
Inductive event : Type :=
| EvExec (command : string)
| EvHttpRequest (secure : bool) (url : string)
| EvResume (url : string)
| EvCreateWriteStream (p : path)
| EvRm (p : path)
| EvMkdir (p : path)
| EvExtractAll (archive dest : path) (overwrite keepOriginalPermission : bool)
| EvCopyFile (src dst : path)
| EvUnlink (p : path)
| EvWriteFile (p : path)
| EvWriteZip (p : path)
| EvInstallPreferences (p : path).

Record world : Type := World {
  fs : gmap path node;
  log : list event
}.

(** A computation of the script: it reads and changes the world, and returns,
    throws or exits. *)
Definition M (A : Type) : Type := world -> result A * world.

Definition ret {A} (a : A) : M A := fun w => (Ok a, w).
Definition throw {A} (e : error) : M A := fun w => (Throw e, w).
Definition exit {A} (status : Z) : M A := fun w => (Exit status, w).

Definition mbind {A B} (m : M A) (k : A -> M B) : M B :=
  fun w =>
    match m w with
    | (Ok a, w') => k a w'
    | (Throw e, w') => (Throw e, w')
    | (Exit n, w') => (Exit n, w')
    | (Pending, w') => (Pending, w')
    end.

(** [m.catch(e => h)] *)
Definition catch {A} (m : M A) (h : error -> M A) : M A :=
  fun w =>
    match m w with
    | (Throw e, w') => h e w'
    | r => r
    end.

Definition emit (e : event) : M unit :=
  fun w => (Ok tt, World (fs w) (log w ++ [e])).

Definition getFs : M (gmap path node) := fun w => (Ok (fs w), w).
Definition setFs (f : gmap path node) : M unit :=
  fun w => (Ok tt, World f (log w)).

Declare Scope script_scope.
Delimit Scope script_scope with script.
Notation "'let*' x ':=' m 'in' k" := (mbind m (fun x => k))
  (at level 10, x pattern, m at level 100, k at level 200) : script_scope.
Notation "m ';;' k" := (mbind m (fun _ => k))
  (at level 100, k at level 200, right associativity) : script_scope.
Local Open Scope script_scope.

(** Run a list of steps in order, stopping at the first that throws. *)
Fixpoint forEach {A} (f : A -> M unit) (l : list A) : M unit :=
  match l with
  | [] => ret tt
  | a :: l' => f a ;; forEach f l'
  end.

Module Fs.

(** The root directory always exists. *)
Definition lookupNode (f : gmap path node) (p : path) : option node :=
  match p with
  | [] => Some Dir
  | _ => f !! p
  end.

Definition isDir (f : gmap path node) (p : path) : bool :=
  match lookupNode f p with Some Dir => true | _ => false end.

Definition exists_ (f : gmap path node) (p : path) : bool :=
  match lookupNode f p with Some _ => true | None => false end.

(** Everything that is not [p] or below it. *)
Definition removeTree (p : path) (f : gmap path node) : gmap path node :=
  filter (fun kv => ~ p `prefix_of` kv.1) f.

(** [fs.promises.rm(p, { recursive: true })]: fails when [p] does not
    exist. *)
Definition rm (p : path) : M unit :=
  emit (EvRm p) ;;
  let* f := getFs in
  if exists_ f p then setFs (removeTree p f)
  else throw (IOError "ENOENT" (Js.join "/" p)).

(** [fs.promises.mkdir(p)] *)
Definition mkdir (p : path) : M unit :=
  emit (EvMkdir p) ;;
  let* f := getFs in
  if exists_ f p then throw (IOError "EEXIST" (Js.join "/" p))
  else if isDir f (dirname p) then setFs (<[p := Dir]> f)
  else throw (IOError "ENOENT" (Js.join "/" p)).

(** Creation of [p] and of its missing ancestors, outermost first; [None] when
    a file is in the way. *)
Fixpoint mkdirs (ancestors : list path) (f : gmap path node)
  : option (gmap path node) :=
  match ancestors with
  | [] => Some f
  | d :: rest =>
      match lookupNode f d with
      | Some Dir => mkdirs rest f
      | Some (File _) => None
      | None => mkdirs rest (<[d := Dir]> f)
      end
  end.

(** The non-empty prefixes of [p], shortest first. *)
Definition ancestorsOf (p : path) : list path :=
  map (fun n => take n p) (seq 1 (length p)).

(** [fs.promises.mkdir(p, { recursive: true })] *)
Definition mkdirRecursive (p : path) : M unit :=
  emit (EvMkdir p) ;;
  let* f := getFs in
  match mkdirs (ancestorsOf p) f with
  | Some f' => setFs f'
  | None => throw (IOError "EEXIST" (Js.join "/" p))
  end.

(** [fs.promises.readFile(p)] *)
Definition readFile (p : path) : M content :=
  let* f := getFs in
  match lookupNode f p with
  | Some (File c) => ret c
  | Some Dir => throw (IOError "EISDIR" (Js.join "/" p))
  | None => throw (IOError "ENOENT" (Js.join "/" p))
  end.

(** Writing a whole file: the parent must be a directory and [p] must not be
    one. *)
Definition putFile (p : path) (c : content) : M unit :=
  let* f := getFs in
  if isDir f p then throw (IOError "EISDIR" (Js.join "/" p))
  else if isDir f (dirname p) then setFs (<[p := File c]> f)
  else throw (IOError "ENOENT" (Js.join "/" p)).

(** [fs.promises.writeFile(p, data)] *)
Definition writeFile (p : path) (c : content) : M unit :=
  emit (EvWriteFile p) ;; putFile p c.

(** [fs.promises.copyFile(src, dst)] *)
Definition copyFile (src dst : path) : M unit :=
  emit (EvCopyFile src dst) ;;
  let* c := readFile src in
  putFile dst c.

(** [fs.promises.copyFile] on names that may end with a separator: the
    source is opened first, and a name with a trailing separator does not
    open as a file. *)
Definition copyNamed (src dst : path) (srcSlash dstSlash : bool) : M unit :=
  emit (EvCopyFile src dst) ;;
  let* c := readFile src in
  if srcSlash then throw (IOError "ENOTDIR" (Js.join "/" src))
  else if dstSlash then throw (IOError "EISDIR" (Js.join "/" dst))
  else putFile dst c.

(** [fs.promises.unlink(p)] *)
Definition unlink (p : path) : M unit :=
  emit (EvUnlink p) ;;
  let* f := getFs in
  match lookupNode f p with
  | Some (File _) => setFs (delete p f)
  | Some Dir => throw (IOError "EISDIR" (Js.join "/" p))
  | None => throw (IOError "ENOENT" (Js.join "/" p))
  end.

(** [existsAsync(p)]: [fs.stat] succeeds. *)
Definition existsAsync (p : path) : M bool :=
  let* f := getFs in ret (exists_ f p).

(** Every entry but the root has a directory as its parent. *)
Definition wellFormed (f : gmap path node) : Prop :=
  map_Forall (fun p _ => p <> [] /\ isDir f (dirname p) = true) f.

(** The same, as a test. *)
Definition wellFormedb (f : gmap path node) : bool :=
  forallb (fun kv => negb (bool_decide (kv.1 = [])) && isDir f (dirname kv.1))
          (map_to_list f).

End Fs.

(** ** The host the script runs on *)

(** What a server answers to a GET: a response with its status code, its
    [Location] and [Content-Length] headers and its body; the same response
    with a body that breaks off after the part [received]; or no response at
    all. *)
Record response : Type := Response {
  statusCode : Z;
  location : option string;
  contentLength : option string;
  body : content
}.

Inductive reply : Type :=
| Answer (res : response)
| Interrupted (res : response) (received : content)
| NetworkError (msg : string).

(** Everything the script asks its environment: [os.platform()], the output
    of a child process, [__dirname], the answer of the network to a GET, the
    order in which the parallel directory walk of [listFiles] completes, the
    two renderings that belong to [adm-zip] ([zipEntry.toString()] and the
    bytes of a written archive), and the preference installer that the script
    imports.  Three more belong to the JavaScript engine: [showDouble] is
    the rendering of the double nearest to an integer beyond 2^53;
    [inspectMember key] is [util.inspect(Object.prototype[key])]; and
    [builtinUrl name key arg] is what the lookup
    [Object.prototype[name][key]] comes to, for a [name] that
    [Object.prototype] has: it throws, or the value is falsy ([None]), or it
    is truthy and [util.format(value, arg)] is the string given. *)
Record host : Type := Host {
  os_platform : string;
  execSync : string -> result string;
  scriptDir : path;
  httpGet : string -> reply;
  walkOrder : list path -> list path;
  entryToString : string * option content -> string;
  zipBytes : list (string * option content) -> string;
  installFirefoxPreferences : path -> world -> result unit * world;
  showDouble : Z -> string;
  inspectMember : string -> string;
  builtinUrl : string -> string -> string -> result (option string)
}.

(** [os.platform() === 'win32'] *)
Definition win32 (h : host) : bool := bool_decide (os_platform h = "win32").

(** [path.join] on the host. *)
Definition pathJoin (h : host) (base : path) (parts : list string) : path :=
  Path.join (win32 h) base parts.

(** [child_process.execSync(command).toString()] *)
Definition exec (h : host) (command : string) : M string :=
  emit (EvExec command) ;;
  fun w => (execSync h command, w).

(** ** Host platform *)

Module Platform.

(** One line of the release file, entered into [fields]. *)
Definition setField (fields : gmap string string) (line : string)
  : gmap string string :=
  match Js.split "=" line with
  | [] => fields
  | name :: tokens =>
      let value := trim (Js.join "=" tokens) in
      let value :=
        if startsWith (String dquote "") value && endsWith (String dquote "") value
        then jsSubstring 1 (Z.of_nat (String.length value) - 1) value
        else value in
      if isEmpty name then fields
      else <[toLowerCase name := value]> fields
  end.

(** [fields.get(key)] is truthy: present and not empty. *)
Definition truthyField (fields : gmap string string) (key : string)
  : option string :=
  match fields !! key with
  | Some v => if isEmpty v then None else Some v
  | None => None
  end.

(** [fields.get(key) && fields.get(key).toLowerCase() === 'ubuntu'] *)
Definition isUbuntu (fields : gmap string string) (key : string) : bool :=
  match truthyField fields key with
  | Some v => bool_decide (toLowerCase v = "ubuntu")
  | None => false
  end.

Definition getUbuntuVersionInternal (osReleaseText : string) : string :=
  let fields := foldl setField ∅ (Js.split "010" osReleaseText) in
  if isUbuntu fields "distrib_id"
  then default "" (truthyField fields "distrib_release")
  else if negb (isUbuntu fields "name") then ""
  else default "" (truthyField fields "version_id").

(** A release file, as the lines it is made of: a line is a name and, when
    it has an equals sign, the text after the first one. *)
Definition releaseLine (entry : string * option string) : string :=
  match entry.2 with
  | Some raw => entry.1 +:+ String "=" raw
  | None => entry.1
  end.

Definition releaseFile (entries : list (string * option string)) : string :=
  Js.join (String "010" "") (map releaseLine entries).

(** The name of a line has no equals sign, and a line has no line feed. *)
Definition releaseEntry (entry : string * option string) : Prop :=
  occurs "=" entry.1 = false /\ occurs "010" entry.1 = false /\
  match entry.2 with
  | Some raw => occurs "010" raw = false
  | None => True
  end.

(** [raw] gives the value [v], as it is or between double quotes; a value is
    not empty, has no white space around it and does not open with a double
    quote. *)
Definition writes (raw v : string) : Prop :=
  (raw = v \/ raw = String dquote (v +:+ String dquote "")) /\
  v <> "" /\ trim v = v /\ startsWith (String dquote "") v = false.

(** The last line named [key], in whatever case, gives the value [v]. *)
Definition declares (entries : list (string * option string)) (key v : string)
  : Prop :=
  exists before name raw after,
    entries = before ++ (name, Some raw) :: after /\
    toLowerCase name = key /\
    writes raw v /\
    Forall (fun e => toLowerCase e.1 <> key) after.

(** No line is named [key]. *)
Definition silent (entries : list (string * option string)) (key : string) : Prop :=
  Forall (fun e => toLowerCase e.1 <> key) entries.

Definition upstreamRelease : path := ["etc"; "upstream-release"; "lsb-release"].
Definition osRelease : path := ["etc"; "os-release"].

(** [fs.readFileSync(p, 'utf8')] *)
Definition readFileSync (p : path) : M string :=
  let* c := Fs.readFile p in ret (utf8 c).

Definition getUbuntuVersionSync (h : host) : M string :=
  if negb (bool_decide (os_platform h = "linux")) then ret ""
  else
    catch
      (let* present := Fs.existsAsync upstreamRelease in
       let* osReleaseText :=
         (if present then readFileSync upstreamRelease
          else readFileSync osRelease) in
       if isEmpty osReleaseText then ret ""
       else ret (getUbuntuVersionInternal osReleaseText))
      (fun _ => ret "").

(** The text that [getUbuntuVersionSync] gets to read: the upstream release
    file when there is one, the release file otherwise; [None] when the read
    fails. *)
Definition releaseText (f : gmap path node) : option string :=
  let file := if Fs.exists_ f upstreamRelease then upstreamRelease else osRelease in
  match Fs.lookupNode f file with
  | Some (File c) => Some (utf8 c)
  | _ => None
  end.

Definition LAST_STABLE_MAC_MAJOR_VERSION : Z := 11.

(** [out.trim().split('.').map(x => parseInt(x, 10))] *)
Definition productVersion (out : string) : list jsnum :=
  map parseInt (Js.split "." (trim out)).

Definition SW_VERS : string := "sw_vers -productVersion".
Definition SYSCTL_ARM64 : string := "/usr/sbin/sysctl -in hw.optional.arm64".

Definition getHostPlatform (h : host) : M string :=
  let platform := os_platform h in
  if bool_decide (platform = "darwin") then
    let* out := exec h SW_VERS in
    let versions := productVersion out in
    let major := default NaN (versions !! 0%nat) in
    let minor := versions !! 1%nat in
    let* arm64 :=
      (if numGe major 11 then
         let* probe := exec h SYSCTL_ARM64 in
         ret (bool_decide (trim probe = "1"))
       else ret false) in
    let macVersion :=
      if numEq major 10
      then showNum (showDouble h) major +:+ "." +:+ showOptNum (showDouble h) minor
      else if numGt major LAST_STABLE_MAC_MAJOR_VERSION
           then showZ LAST_STABLE_MAC_MAJOR_VERSION
      else showNum (showDouble h) major in
    let archSuffix := if arm64 then "-arm64" else "" in
    ret ("mac" +:+ macVersion +:+ archSuffix)
  else if bool_decide (platform = "linux") then
    let* ubuntuVersion := getUbuntuVersionSync h in
    if numLe (parseInt ubuntuVersion) 19 then ret "ubuntu18.04"
    else ret "ubuntu20.04"
  else if bool_decide (platform = "win32") then ret "win64"
  else ret platform.

End Platform.


(** ** Configuration *)

Section Config.
Variable h : host.

(** [BUILD_DIRECTORY] *)
Definition BUILD_DIRECTORY : path :=
  if bool_decide (os_platform h = "win32")
  then pathJoin h (scriptDir h) ["__repackaged_firefox__"]
  else ["tmp"; "repackaged-firefox"].

Definition BUILD_INFO_PATH : path := pathJoin h BUILD_DIRECTORY ["build-info.json"].
Definition OMNI_BACKUP_PATH : path := pathJoin h BUILD_DIRECTORY ["omni.ja.backup"].
Definition OMNI_EXTRACT_DIR : path := pathJoin h BUILD_DIRECTORY ["omni"].
Definition OMNI_JUGGLER_DIR : path := pathJoin h OMNI_EXTRACT_DIR ["chrome"; "juggler"].

(** [JARMN_PATH] *)
Definition JARMN_PATH (browserName : string) : path :=
  pathJoin h (scriptDir h) [browserName; "juggler"; "jar.mn"].

End Config.

Definition EXECUTABLE_PATHS : list (string * list string) :=
  [ ("ubuntu18.04", ["firefox"; "firefox"]);
    ("ubuntu20.04", ["firefox"; "firefox"]);
    ("mac10.14", ["firefox"; "Nightly.app"; "Contents"; "MacOS"; "firefox"]);
    ("mac10.15", ["firefox"; "Nightly.app"; "Contents"; "MacOS"; "firefox"]);
    ("mac11", ["firefox"; "Nightly.app"; "Contents"; "MacOS"; "firefox"]);
    ("mac11-arm64", ["firefox"; "Nightly.app"; "Contents"; "MacOS"; "firefox"]);
    ("win64", ["firefox"; "firefox.exe"]) ].

Definition DOWNLOAD_URLS : list (string * list (string * string)) :=
  [ ("firefox",
      [ ("ubuntu18.04", "https://playwright.azureedge.net/builds/firefox/%s/firefox-ubuntu-18.04.zip");
        ("ubuntu20.04", "https://playwright.azureedge.net/builds/firefox/%s/firefox-ubuntu-20.04.zip");
        ("mac10.14", "https://playwright.azureedge.net/builds/firefox/%s/firefox-mac-11.zip");
        ("mac10.15", "https://playwright.azureedge.net/builds/firefox/%s/firefox-mac-11.zip");
        ("mac11", "https://playwright.azureedge.net/builds/firefox/%s/firefox-mac-11.zip");
        ("mac11-arm64", "https://playwright.azureedge.net/builds/firefox/%s/firefox-mac-11-arm64.zip");
        ("win64", "https://playwright.azureedge.net/builds/firefox/%s/firefox-win64.zip") ]);
    ("firefox-beta",
      [ ("ubuntu18.04", "https://playwright.azureedge.net/builds/firefox-beta/%s/firefox-beta-ubuntu-18.04.zip");
        ("ubuntu20.04", "https://playwright.azureedge.net/builds/firefox-beta/%s/firefox-beta-ubuntu-20.04.zip");
        ("mac10.14", "https://playwright.azureedge.net/builds/firefox-beta/%s/firefox-beta-mac-11.zip");
        ("mac10.15", "https://playwright.azureedge.net/builds/firefox-beta/%s/firefox-beta-mac-11.zip");
        ("mac11", "https://playwright.azureedge.net/builds/firefox-beta/%s/firefox-beta-mac-11.zip");
        ("mac11-arm64", "https://playwright.azureedge.net/builds/firefox-beta/%s/firefox-beta-mac-11-arm64.zip");
        ("win64", "https://playwright.azureedge.net/builds/firefox-beta/%s/firefox-beta-win64.zip") ]) ].

(** [table[key]] on an object literal: the first own property named [key]. *)
Fixpoint property {A} (table : list (string * A)) (key : string) : option A :=
  match table with
  | [] => None
  | (k, v) :: rest => if bool_decide (k = key) then Some v else property rest key
  end.

(** The names that every object inherits from [Object.prototype]. *)
Definition OBJECT_PROTOTYPE_KEYS : list string :=
  [ "constructor"; "__defineGetter__"; "__defineSetter__"; "hasOwnProperty";
    "__lookupGetter__"; "__lookupSetter__"; "isPrototypeOf";
    "propertyIsEnumerable"; "toString"; "valueOf"; "__proto__";
    "toLocaleString" ].

(** What [table[key]] finds on an object literal: an own property, a member
    of [Object.prototype] (a function, or the prototype itself: truthy, and
    no string), or nothing ([undefined]). *)
Inductive member (A : Type) : Type :=
| Own (v : A)
| Inherited
| Absent.
Arguments Own {A} v.
Arguments Inherited {A}.
Arguments Absent {A}.

Definition get {A} (table : list (string * A)) (key : string) : member A :=
  match property table key with
  | Some v => Own v
  | None => if bool_decide (key ∈ OBJECT_PROTOTYPE_KEYS) then Inherited else Absent
  end.

(** [util.format(template, arg)] for a string [arg]: the first [%s] of the
    template is replaced by [arg]. *)
Fixpoint format (template arg : string) : string :=
  match template with
  | EmptyString => EmptyString
  | String c rest =>
      if startsWith "%s" template then arg +:+ Js.slice 2 (Z.of_nat (String.length template)) template
      else String c (format rest arg)
  end.

(** The tag has a download URL for both browsers and an executable path. *)
Definition supported (tag : string) : bool :=
  match property EXECUTABLE_PATHS tag with Some _ => true | None => false end &&
  forallb (fun name =>
             match property DOWNLOAD_URLS name with
             | Some urls =>
                 match property urls tag with
                 | Some template => negb (isEmpty template)
                 | None => false
                 end
             | None => false
             end)
          ["firefox"; "firefox-beta"].

(** ** Download *)

Module Http.

(** [URL.parse(url).protocol === 'https:'] *)
Definition isHttps (url : string) : bool :=
  startsWith "https:" (toLowerCase (trim url)).

(** [res.statusCode >= 300 && res.statusCode < 400 && res.headers.location]:
    the location to follow, when there is one and it is not empty. *)
Definition redirectTarget (res : response) : option string :=
  if (300 <=? statusCode res) && (statusCode res <? 400) then
    match location res with
    | Some l => if isEmpty l then None else Some l
    | None => None
    end
  else None.

Definition pending {A} : M A := fun w => (Pending, w).

(** [httpRequest(url, 'GET', response)]: the response that is handed to the
    callback, and the part of its body that arrives when the body breaks
    off.  Only the first request has an ['error'] listener (the one
    [downloadFile] attaches); an error of a later request is uncaught and
    ends the process. *)
Fixpoint httpRequest (fuel : nat) (h : host) (first : bool) (url : string)
  : M (response * option content) :=
  match fuel with
  | O => pending
  | S fuel' =>
      emit (EvHttpRequest (isHttps url) url) ;;
      match httpGet h url with
      | NetworkError msg => if first then throw (Error msg) else exit 1
      | Answer res =>
          match redirectTarget res with
          | Some l => httpRequest fuel' h false l
          | None => ret (res, None)
          end
      | Interrupted res received =>
          match redirectTarget res with
          | Some l => httpRequest fuel' h false l
          | None => ret (res, Some received)
          end
      end
  end.

Definition failureMessage (status : Z) (url : string) : string :=
  "Download failed: server returned code " +:+ showZ status +:+ ". URL: " +:+ url.

(** [downloadFile(url, destinationPath, progressCallback)].  The write
    stream creates the file before the body arrives and takes what arrives;
    the promise is fulfilled when the stream finishes, which it does at the
    end of the body.  A body that breaks off leaves the part received in the
    file, and the promise is never settled: the response has no listener for
    that. *)
Definition downloadFile (fuel : nat) (h : host) (url : string)
    (destinationPath : path) : M unit :=
  let* delivery := httpRequest fuel h true url in
  let res := delivery.1 in
  if negb (statusCode res =? 200) then
    emit (EvResume url) ;;
    throw (Error (failureMessage (statusCode res) url))
  else
    emit (EvCreateWriteStream destinationPath) ;;
    match delivery.2 with
    | None => Fs.putFile destinationPath (body res)
    | Some received => Fs.putFile destinationPath received ;; pending
    end.

(** [reaches h url hops res]: the server answers [url] with a chain of
    redirect responses (status in [300,400) with a non-empty [Location]);
    [hops] are the locations in the order they are named, and [res] is the
    response to the last of them (to [url] itself when there is no hop). *)
Inductive reaches (h : host) : string -> list string -> response -> Prop :=
| reaches_here (url : string) (res : response) :
    httpGet h url = Answer res ->
    reaches h url [] res
| reaches_hop (url l : string) (redirect : response) (hops : list string)
    (res : response) :
    httpGet h url = Answer redirect ->
    300 <= statusCode redirect < 400 ->
    location redirect = Some l ->
    l <> "" ->
    reaches h l hops res ->
    reaches h url (l :: hops) res.


(** The requests that are issued for a list of URLs. *)
Definition requests (urls : list string) : list event :=
  map (fun u => EvHttpRequest (isHttps u) u) urls.

End Http.

(** ** Archives ([adm-zip], at its interface) *)

Module Archive.

(** [new AdmZip(p)]: the entries of the archive at [p]; a file that is not a
    zip archive is refused. *)
Definition open (p : path) : M (list zipEntry) :=
  let* c := Fs.readFile p in
  match c with
  | Zip _ entries => ret entries
  | _ => throw (Error "Invalid or unsupported zip format")
  end.

(** Where an entry lands: its name is normalised on its own, so that it
    cannot leave [dest]. *)
Definition entryPath (dest : path) (name : string) : path :=
  dest ++ Path.join false [] [name].

(** Extraction of one entry with [overwrite] disabled: a directory entry
    creates the directory; a file entry creates its parent directories and
    the file, and leaves an existing file alone. *)
Definition extractEntry (dest : path) (entry : zipEntry) : M unit :=
  let p := entryPath dest entry.1 in
  let* f := getFs in
  match entry.2 with
  | None =>
      match Fs.mkdirs (Fs.ancestorsOf p) f with
      | Some f' => setFs f'
      | None => throw (IOError "EEXIST" (Js.join "/" p))
      end
  | Some data =>
      match Fs.mkdirs (Fs.ancestorsOf (dirname p)) f with
      | Some f' =>
          if Fs.exists_ f' p then setFs f' else setFs (<[p := File data]> f')
      | None => throw (IOError "EEXIST" (Js.join "/" p))
      end
  end.

(** [new AdmZip(archive).extractAllTo(dest, false, true)] *)
Definition extractAllTo (archive dest : path) : M unit :=
  let* entries := open archive in
  emit (EvExtractAll archive dest false true) ;;
  forEach (extractEntry dest) entries.

(** The entry of [addLocalFolder(dir)] for the node at [p]: its name is the
    path below [dir]; a directory's name ends with a slash. *)
Definition entryOf (dir : path) (kv : path * node) : zipEntry :=
  let name := Js.join "/" (drop (length dir) kv.1) in
  match kv.2 with
  | Dir => (name +:+ "/", None)
  | File c => (name, Some c)
  end.

(** The nodes that [zip.addLocalFolder(dir)] packs: everything strictly
    below [dir]. *)
Definition packed (dir : path) (f : gmap path node) : list (path * node) :=
  filter (fun kv => dir `prefix_of` kv.1 /\ kv.1 <> dir) (map_to_list f).

(** The entries of [zip.addLocalFolder(dir)]. *)
Definition localFolder (dir : path) (f : gmap path node) : list zipEntry :=
  map (entryOf dir) (packed dir f).

(** [zip = new AdmZip(); zip.addLocalFolder(dir); zip.writeZip(target)] *)
Definition writeFolder (h : host) (dir target : path) : M unit :=
  let* f := getFs in
  if negb (Fs.isDir f dir) then throw (IOError "ENOENT" (Js.join "/" dir))
  else
    let entries := localFolder dir f in
    emit (EvWriteZip target) ;;
    Fs.putFile target (Zip (zipBytes h entries) entries).

(** The file system after a successful extraction of [entries] into
    [dest]. *)
Definition extracted (dest : path) (entries : list zipEntry) (f : gmap path node)
  : option (gmap path node) :=
  match forEach (extractEntry dest) entries (World f []) with
  | (Ok _, w) => Some (fs w)
  | _ => None
  end.

End Archive.

(** ** Build cache *)

Module BuildCache.

(** [value.key] on a parsed JSON value: [null] has no properties; an object
    has its last field of that name; anything else has none of the three
    fields of a descriptor. *)
Definition getProp (v : json) (key : string) : result (option json) :=
  match v with
  | JNull => Throw (TypeError ("Cannot read properties of null (reading '" +:+ key +:+ "')"))
  | JObj fields => Ok (property (reverse fields) key)
  | _ => Ok None
  end.

(** [x === s] for a string [s] *)
Definition strictEqString (x : option json) (s : string) : bool :=
  match x with
  | Some (JStr t) => bool_decide (t = s)
  | _ => false
  end.

(** The object literal [{ buildNumber, buildPlatform, browserName }] *)
Definition descriptor (buildNumber buildPlatform browserName : string) : json :=
  JObj [ ("buildNumber", JStr buildNumber);
         ("buildPlatform", JStr buildPlatform);
         ("browserName", JStr browserName) ].

(** The descriptor that stands for a missing or corrupt file. *)
Definition noBuild : json := descriptor "" "" "".

Definition hexDigit (n : nat) : ascii :=
  if (n <? 10)%nat then ascii_of_nat (48 + n) else ascii_of_nat (87 + n).

(** The escape of one code unit in [JSON.stringify]. *)
Definition escapeChar (c : ascii) : string :=
  let n := nat_of_ascii c in
  if bool_decide (c = dquote) then String "\" (String dquote "")
  else if bool_decide (c = "\"%char) then "\\"
  else if (n =? 8)%nat then "\b"
  else if (n =? 9)%nat then "\t"
  else if (n =? 10)%nat then "\n"
  else if (n =? 12)%nat then "\f"
  else if (n =? 13)%nat then "\r"
  else if (n <? 32)%nat
       then "\u00" +:+ String (hexDigit (n / 16)) (String (hexDigit (n mod 16)) "")
  else String c "".

Fixpoint quoteBody (s : string) : string :=
  match s with
  | EmptyString => EmptyString
  | String c rest => escapeChar c +:+ quoteBody rest
  end.

(** [JSON.stringify] of a string *)
Definition quote (s : string) : string :=
  String dquote (quoteBody s +:+ String dquote "").

(** [JSON.stringify(buildInfo)] *)
Definition stringify (buildNumber buildPlatform browserName : string) : string :=
  "{" +:+ quote "buildNumber" +:+ ":" +:+ quote buildNumber +:+
  "," +:+ quote "buildPlatform" +:+ ":" +:+ quote buildPlatform +:+
  "," +:+ quote "browserName" +:+ ":" +:+ quote browserName +:+ "}".

(** [fs.promises.readFile(BUILD_INFO_PATH).then(text => JSON.parse(text))
      .catch(e => ({ buildPlatform: '', buildNumber: '', browserName: '' }))] *)
Definition readBuildInfo (h : host) : M json :=
  catch
    (let* c := Fs.readFile (BUILD_INFO_PATH h) in
     match c with
     | Json _ v => ret v
     | _ => throw (Error "Unexpected token in JSON")
     end)
    (fun _ => ret noBuild).

(** A truthy optional string argument. *)
Definition given (arg : option string) : option string :=
  match arg with
  | Some s => if isEmpty s then None else Some s
  | None => None
  end.

Definition liftResult {A} (r : result A) : M A := fun w => (r, w).

(** The test of the cache hit, left to right: [&&] stops at the first field
    that differs. *)
Definition sameBuild (current : json) (buildNumber buildPlatform browserName : string)
  : result bool :=
  Js.bind (getProp current "buildPlatform") (fun p =>
  if negb (strictEqString p buildPlatform) then Ok false else
  Js.bind (getProp current "buildNumber") (fun n =>
  if negb (strictEqString n buildNumber) then Ok false else
  Js.bind (getProp current "browserName") (fun b =>
  Ok (strictEqString b browserName)))).

(** Lines 95-98: a missing build number is the first line of the
    [BUILD_NUMBER] file, a missing platform is the host's. *)
Definition resolve (h : host) (browserName : string)
    (buildNumber buildPlatform : option string) : M (string * string) :=
  let* buildNumber :=
    match given buildNumber with
    | Some n => ret n
    | None =>
        let* text := Platform.readFileSync
                       (pathJoin h (scriptDir h) [browserName; "BUILD_NUMBER"]) in
        ret (default "" (head (Js.split "010" text)))
    end in
  let* buildPlatform :=
    match given buildPlatform with
    | Some p => ret p
    | None => Platform.getHostPlatform h
    end in
  ret (buildNumber, buildPlatform).

(** Lines 103-104: the stage directory is removed with all it holds (a
    failure is ignored) and made anew. *)
Definition wipe (h : host) : M unit :=
  catch (Fs.rm (BUILD_DIRECTORY h)) (fun _ => ret tt) ;;
  Fs.mkdir (BUILD_DIRECTORY h).

(** The archive [entries] stages [data] at the path [segs] below [dest]: an
    entry of that name holds it, and no entry before it is at or below that
    path. *)
Definition stages (dest : path) (entries : list zipEntry) (segs : list string)
    (data : content) : Prop :=
  exists before after,
    entries = before ++ (Js.join "/" segs, Some data) :: after /\
    segs <> [] /\ Forall Path.plain segs /\
    forall e, e ∈ before -> ~ (dest ++ segs) `prefix_of` Archive.entryPath dest e.1.

(** The file system that the wipe leaves. *)
Definition wiped (h : host) (f : gmap path node) : gmap path node :=
  <[BUILD_DIRECTORY h := Dir]>
    (if Fs.exists_ f (BUILD_DIRECTORY h)
     then Fs.removeTree (BUILD_DIRECTORY h) f else f).

(** The world that the wipe leaves. *)
Definition emptied (h : host) (w : world) : world :=
  World (wiped h (fs w))
        (log w ++ [EvRm (BUILD_DIRECTORY h); EvMkdir (BUILD_DIRECTORY h)]).

(** Lines 107-110: the address to download from.  The guard of line 108
    lets every truthy value pass: a template of the table, and also what the
    lookup inherits from [Object.prototype], which [util.format] then prints
    with the build number after it. *)
Definition downloadUrl (h : host) (browserName buildNumber buildPlatform : string)
  : result string :=
  let unsupported :=
    Error ("ERROR: repack-juggler does not support " +:+ buildPlatform) in
  match get DOWNLOAD_URLS browserName with
  | Absent => Throw (TypeError "Cannot read properties of undefined")
  | Inherited =>
      Js.bind (builtinUrl h browserName buildPlatform buildNumber) (fun url =>
      match url with
      | Some url => Ok url
      | None => Throw unsupported
      end)
  | Own urls =>
      match get urls buildPlatform with
      | Absent => Throw unsupported
      | Inherited => Ok (inspectMember h buildPlatform +:+ " " +:+ buildNumber)
      | Own urlTemplate =>
          if isEmpty urlTemplate then Throw unsupported
          else Ok (format urlTemplate buildNumber)
      end
  end.

(** Lines 105-126: download, extract, persist the descriptor and return
    it. *)
Definition fetch (fuel : nat) (h : host)
    (browserName buildNumber buildPlatform : string) : M json :=
  let buildZipPath := pathJoin h (BUILD_DIRECTORY h) ["firefox.zip"] in
  let* url := liftResult (downloadUrl h browserName buildNumber buildPlatform) in
  Http.downloadFile fuel h url buildZipPath ;;
  Archive.extractAllTo buildZipPath (BUILD_DIRECTORY h) ;;
  Fs.writeFile (BUILD_INFO_PATH h)
    (Json (stringify buildNumber buildPlatform browserName)
          (descriptor buildNumber buildPlatform browserName)) ;;
  ret (descriptor buildNumber buildPlatform browserName).

(** Lines 99-126, on the resolved request. *)
Definition ensureResolved (fuel : nat) (h : host)
    (browserName buildNumber buildPlatform : string) : M json :=
  let* currentBuildInfo := readBuildInfo h in
  let* hit := liftResult (sameBuild currentBuildInfo buildNumber buildPlatform browserName) in
  if hit then ret currentBuildInfo
  else wipe h ;; fetch fuel h browserName buildNumber buildPlatform.

(** [ensureFirefoxBuild(browserName, buildNumber, buildPlatform)] *)
Definition ensureFirefoxBuild (fuel : nat) (h : host) (browserName : string)
    (buildNumber buildPlatform : option string) : M json :=
  let* request := resolve h browserName buildNumber buildPlatform in
  ensureResolved fuel h browserName request.1 request.2.

(** The persisted descriptor, when the file is there and parses. *)
Definition persisted (h : host) (f : gmap path node) : option json :=
  match Fs.lookupNode f (BUILD_INFO_PATH h) with
  | Some (File (Json _ v)) => Some v
  | _ => None
  end.

(** The three fields of [current] are the strings of the request. *)
Definition fieldsEqual (current : json) (buildNumber buildPlatform browserName : string)
  : Prop :=
  getProp current "buildPlatform" = Ok (Some (JStr buildPlatform)) /\
  getProp current "buildNumber" = Ok (Some (JStr buildNumber)) /\
  getProp current "browserName" = Ok (Some (JStr browserName)).

End BuildCache.

(** ** Resource patcher *)

Module Patcher.

(** The names that [fs.promises.readdir(dir)] returns, as paths. *)
Definition children (f : gmap path node) (dir : path) : list path :=
  filter (fun p => p ≠ [] ∧ dirname p = dir) (map_to_list f).*1.

(** The walk of [listFiles]: the files at or below [p]; [None] when [lstat]
    fails. *)
Fixpoint walk (fuel : nat) (f : gmap path node) (p : path) : option (list path) :=
  match Fs.lookupNode f p with
  | None => None
  | Some (File _) => Some [p]
  | Some Dir =>
      match fuel with
      | O => Some []
      | S fuel' =>
          foldr (fun child acc =>
                   match walk fuel' f child, acc with
                   | Some l, Some r => Some (l ++ r)
                   | _, _ => None
                   end)
                (Some []) (children f p)
      end
  end.

(** [listFiles(aPath)]: the files come in the order in which the parallel
    walk completes. *)
Definition listFiles (h : host) (aPath : path) : M (list path) :=
  let* f := getFs in
  match walk (size f) f aPath with
  | Some files => ret (walkOrder h files)
  | None => throw (IOError "ENOENT" (Js.join "/" aPath))
  end.

(** Some entry of the archive renders to a string that includes
    [chrome/juggler]. *)
Definition hasJuggler (h : host) (entries : list zipEntry) : bool :=
  existsb (fun e => includes "chrome/juggler" (entryToString h e)) entries.

(** The loop over [omniPaths]. *)
Fixpoint findOmniWithJuggler (h : host) (omniPaths : list path) : M (option path) :=
  match omniPaths with
  | [] => ret None
  | omniPath :: rest =>
      let* entries := Archive.open omniPath in
      if hasJuggler h entries then ret (Some omniPath)
      else findOmniWithJuggler h rest
  end.

(** The lines of [jar.mn] that are kept. *)
Definition jarLines (jarmn : string) : list string :=
  filter (fun line => startsWith "content/" line && endsWith ")" line)
         (map trim (Js.split "010" jarmn)).

(** [tokens[0]] and [tokens[1].slice(1, -1)] of a kept line; there is no
    [tokens[1]] to slice when the line has a single token. *)
Definition jarEntry (line : string) : result (string * string) :=
  match splitWs line with
  | to :: from :: _ => Ok (to, Js.slice 1 (-1) from)
  | _ => Throw (TypeError "Cannot read properties of undefined (reading 'slice')")
  end.

(** A manifest line that names a destination and a source: [to], white
    space, the source between two code units (the parentheses), and then
    nothing or white space and anything. *)
Definition copyLine (line to src : string) : Prop :=
  exists gap opening closing more,
    line = to +:+ gap +:+ String opening (src +:+ String closing "") +:+ more /\
    Forall (fun c => isWhiteSpace c = false) (list_ascii_of_string to) /\
    gap <> "" /\
    Forall (fun c => isWhiteSpace c = true) (list_ascii_of_string gap) /\
    isWhiteSpace opening = false /\
    Forall (fun c => isWhiteSpace c = false) (list_ascii_of_string src) /\
    isWhiteSpace closing = false /\
    (more = "" \/ exists c rest, more = String c rest /\ isWhiteSpace c = true).

(** [toPath] and [fromPath] of a kept line. *)
Definition jarCopy (h : host) (browserName : string) (line : string)
  : result (path * path) :=
  Js.bind (jarEntry line) (fun entry =>
  Ok (pathJoin h (OMNI_JUGGLER_DIR h) [entry.1],
      pathJoin h (scriptDir h) [browserName; "juggler"; entry.2])).

(** The destination or the source of a kept line is written with a trailing
    separator. *)
Definition jarSlashes (h : host) (line : string) : bool * bool :=
  match jarEntry line with
  | Ok entry => (Path.trailing (win32 h) entry.1, Path.trailing (win32 h) entry.2)
  | _ => (false, false)
  end.

(** The body of the loop over [jarLines]. *)
Definition copyJarLine (h : host) (browserName : string) (line : string) : M unit :=
  let* copy := BuildCache.liftResult (jarCopy h browserName line) in
  Fs.mkdirRecursive (dirname copy.1) ;;
  Fs.copyNamed copy.2 copy.1 (jarSlashes h line).2 (jarSlashes h line).1.

(** The string fields that [const { buildNumber, buildPlatform } = buildInfo]
    reads. *)
Definition stringProp (v : json) (key : string) : result (option string) :=
  Js.bind (BuildCache.getProp v key) (fun x =>
  match x with
  | Some (JStr s) => Ok (Some s)
  | _ => Ok None
  end).

(** Lines 162-194: back the archive up once, unpack the backup, replace the
    Juggler directory by the files of [jar.mn], and pack the archive again in
    place. *)
Definition rebuild (h : host) (browserName : string) (omniWithJugglerPath : path)
  : M unit :=
  let* backedUp := Fs.existsAsync (OMNI_BACKUP_PATH h) in
  (if backedUp then ret tt
   else Fs.copyFile omniWithJugglerPath (OMNI_BACKUP_PATH h)) ;;
  catch (Fs.rm (OMNI_EXTRACT_DIR h)) (fun _ => ret tt) ;;
  Fs.mkdir (OMNI_EXTRACT_DIR h) ;;
  Archive.extractAllTo (OMNI_BACKUP_PATH h) (OMNI_EXTRACT_DIR h) ;;
  Fs.rm (OMNI_JUGGLER_DIR h) ;;
  let* jarmn := Platform.readFileSync (JARMN_PATH h browserName) in
  forEach (copyJarLine h browserName) (jarLines jarmn) ;;
  Fs.unlink omniWithJugglerPath ;;
  Archive.writeFolder h (OMNI_EXTRACT_DIR h) omniWithJugglerPath.

(** The part of [repackageJuggler] that follows the choice of the archive:
    the archive is rebuilt, the preferences are installed, and the executable
    path is printed; it is the result. *)
Definition patch (h : host) (browserName : string) (buildPlatform : option string)
    (omniWithJugglerPath : path) : M path :=
  rebuild h browserName omniWithJugglerPath ;;
  emit (EvInstallPreferences (pathJoin h (BUILD_DIRECTORY h) ["firefox"])) ;;
  installFirefoxPreferences h (pathJoin h (BUILD_DIRECTORY h) ["firefox"]) ;;
  match buildPlatform with
  | Some tag =>
      match property EXECUTABLE_PATHS tag with
      | Some segments => ret (pathJoin h (BUILD_DIRECTORY h) segments)
      | None => throw (TypeError "Spread syntax requires ...iterable")
      end
  | None => throw (TypeError "Spread syntax requires ...iterable")
  end.

(** The copies that the manifest asks for, in its order. *)
Definition copiesOf (h : host) (browserName : string) (jarmn : string)
  : list (path * path) :=
  omap (fun line => match jarCopy h browserName line with
                    | Ok copy => Some copy
                    | _ => None
                    end)
       (jarLines jarmn).

(** The file system after the backup step: the archive is copied to the
    backup path when nothing is there. *)
Definition backedUp (h : host) (target : path) (f : gmap path node)
  : gmap path node :=
  if Fs.exists_ f (OMNI_BACKUP_PATH h) then f
  else match Fs.lookupNode f target with
       | Some (File c) => <[OMNI_BACKUP_PATH h := File c]> f
       | _ => f
       end.

(** The file system with an empty scratch directory. *)
Definition scratch (h : host) (f : gmap path node) : gmap path node :=
  <[OMNI_EXTRACT_DIR h := Dir]>
    (if Fs.exists_ f (OMNI_EXTRACT_DIR h)
     then Fs.removeTree (OMNI_EXTRACT_DIR h) f else f).

(** The events of a rebuild that copies [copies]. *)
Definition rebuildEvents (h : host) (target : path) (hadBackup : bool)
    (events : list event) : list event :=
  (if hadBackup then [] else [EvCopyFile target (OMNI_BACKUP_PATH h)]) ++
  [ EvRm (OMNI_EXTRACT_DIR h); EvMkdir (OMNI_EXTRACT_DIR h);
    EvExtractAll (OMNI_BACKUP_PATH h) (OMNI_EXTRACT_DIR h) false true;
    EvRm (OMNI_JUGGLER_DIR h) ] ++
  events ++
  [ EvUnlink target; EvWriteZip target ].

(** A copy goes into the Juggler directory and comes from outside the stage
    directory. *)
Definition tidyCopy (h : host) (copy : path * path) : bool :=
  Path.inside (OMNI_JUGGLER_DIR h) copy.1 &&
  negb (Path.inside (BUILD_DIRECTORY h) copy.2).

Definition tidy (h : host) (copies : list (path * path)) : Prop :=
  Forall (fun copy => tidyCopy h copy = true) copies.

(** The events of the loop for these copies. *)
Definition loopEvents (copies : list (path * path)) : list event :=
  flat_map (fun copy => [EvMkdir (dirname copy.1); EvCopyFile copy.2 copy.1]) copies.

(** [copied copies f f']: the loop takes the file system [f] to [f'] by
    making, for each copy in turn, the directories above the destination and
    then the destination, with what the source holds at that moment. *)
Fixpoint copied (copies : list (path * path)) (f f' : gmap path node) : Prop :=
  match copies with
  | [] => f' = f
  | copy :: rest =>
      exists f1 c,
        Fs.mkdirs (Fs.ancestorsOf (dirname copy.1)) f = Some f1 /\
        Fs.lookupNode f1 copy.2 = Some (File c) /\
        copied rest (<[copy.1 := File c]> f1) f'
  end.

(** The source of the last copy to [q]. *)
Definition lastCopy (q : path) (copies : list (path * path)) : option path :=
  snd <$> head (filter (fun copy => copy.1 = q) (reverse copies)).

(** The files below [BUILD_DIRECTORY] whose name ends with [omni.ja]. *)
Definition omniPathsOf (files : list path) : list path :=
  filter (fun p => nameEndsWith "omni.ja" p) files.

(** [repackageJuggler(browserName, buildInfo)] *)
Definition repackageJuggler (h : host) (browserName : string) (buildInfo : json)
  : M path :=
  let* _ := BuildCache.liftResult (stringProp buildInfo "buildNumber") in
  let* buildPlatform := BuildCache.liftResult (stringProp buildInfo "buildPlatform") in
  let* files := listFiles h (BUILD_DIRECTORY h) in
  let omniPaths := omniPathsOf files in
  let* omniWithJugglerPath := findOmniWithJuggler h omniPaths in
  match omniWithJugglerPath with
  | None => exit 1
  | Some omniWithJugglerPath => patch h browserName buildPlatform omniWithJugglerPath
  end.

(** The archive at [p] has an entry that renders with [chrome/juggler]. *)
Definition jugglerIn (h : host) (f : gmap path node) (p : path) : bool :=
  match Fs.lookupNode f p with
  | Some (File (Zip _ entries)) => hasJuggler h entries
  | _ => false
  end.

(** The archive at [p] has an entry whose name includes [chrome/juggler]. *)
Definition namesJuggler (f : gmap path node) (p : path) : bool :=
  match Fs.lookupNode f p with
  | Some (File (Zip _ entries)) =>
      existsb (fun e => includes "chrome/juggler" e.1) entries
  | _ => false
  end.

(** The file at [p] is a zip archive. *)
Definition isArchive (f : gmap path node) (p : path) : bool :=
  match Fs.lookupNode f p with
  | Some (File (Zip _ _)) => true
  | _ => false
  end.

(** The platform that the destructuring of [buildInfo] reads. *)
Definition platformOf (buildInfo : json) : option string :=
  match stringProp buildInfo "buildPlatform" with
  | Ok tag => tag
  | _ => None
  end.

End Patcher.

(** ** The script *)

(** Lines 40-48: the first command-line argument selects the browser. *)
Definition browserName (arg : option string) : option string :=
  if bool_decide (arg = Some "firefox") || bool_decide (arg = Some "ff")
  then Some "firefox"
  else if bool_decide (arg = Some "firefox-beta") || bool_decide (arg = Some "ff-beta")
  then Some "firefox-beta"
  else None.

(** The whole script on the arguments [process.argv.slice(2)]. *)
Definition main (fuel : nat) (h : host) (args : list string) : M path :=
  if bool_decide (args !! 0%nat = Some "--help") || bool_decide (args !! 0%nat = Some "-h")
  then exit 1
  else
    match browserName (args !! 0%nat) with
    | None => exit 1
    | Some name =>
        let* buildInfo :=
          catch (BuildCache.ensureFirefoxBuild fuel h name (args !! 1%nat) (args !! 2%nat))
                (fun _ => exit 1) in
        Patcher.repackageJuggler h name buildInfo
    end.

(** ** Sample hosts and worlds *)

Module Sample.

(** A host that only answers the two version queries. *)
Definition mac (version probe : string) : host :=
  {| os_platform := "darwin";
     execSync := fun c =>
       if bool_decide (c = Platform.SW_VERS) then Ok version
       else if bool_decide (c = Platform.SYSCTL_ARM64) then Ok probe
       else Throw (Error "command not found");
     scriptDir := ["repo"; "browser_patches"];
     httpGet := fun _ => NetworkError "offline";
     walkOrder := fun files => files;
     entryToString := fun e => e.1;
     zipBytes := fun _ => "PK";
     installFirefoxPreferences := fun _ w => (Ok tt, w);
     showDouble := fun _ => "Infinity";
     inspectMember := fun key => "[Function: " +:+ key +:+ "]";
     builtinUrl := fun _ _ _ => Ok None |}.

(** A linux host whose network is [net]. *)
Definition linux (net : string -> reply) : host :=
  {| os_platform := "linux";
     execSync := fun _ => Throw (Error "command not found");
     scriptDir := ["repo"; "browser_patches"];
     httpGet := net;
     walkOrder := fun files => files;
     entryToString := fun e => e.1;
     zipBytes := fun _ => "PK";
     installFirefoxPreferences := fun _ w => (Ok tt, w);
     showDouble := fun _ => "Infinity";
     inspectMember := fun key => "[Function: " +:+ key +:+ "]";
     builtinUrl := fun _ _ _ => Ok None |}.

Definition offline (url : string) : reply := NetworkError "offline".

(** A server that redirects [http://a/] twice before it answers, and knows
    nothing else. *)
Definition mirror (payload : content) (url : string) : reply :=
  if bool_decide (url = "http://a/")
  then Answer (Response 302 (Some "https://b/") None (Text "moved"))
  else if bool_decide (url = "https://b/")
  then Answer (Response 301 (Some "https://c/") None (Text "moved"))
  else if bool_decide (url = "https://c/")
  then Answer (Response 200 None (Some "3") payload)
  else Answer (Response 404 None None (Text "not found")).

(** A server that redirects [http://loop/] to itself. *)
Definition looping (url : string) : reply :=
  Answer (Response 302 (Some "http://loop/") None (Text "")).

(** A world with an empty [/tmp]. *)
Definition tmpWorld : world := World (list_to_map [ (["tmp"], Dir) ]) [].

Definition emptyWorld : world := World ∅ [].

(** A world with the release file of Ubuntu 18.04. *)
Definition bionic : world :=
  World (list_to_map
           [ (["etc"], Dir);
             (["etc"; "os-release"],
              File (Text (Js.join (String "010" "")
                           [ "NAME=" +:+ String dquote ("Ubuntu" +:+ String dquote "");
                             "VERSION_ID=" +:+ String dquote ("18.04" +:+ String dquote "");
                             "ID=ubuntu" ]))) ]) [].

(** The archive that carries Juggler, with one stale file, and one that
    does not. *)
Definition omni : content :=
  Zip "PK" [ ("chrome/", None);
             ("chrome/juggler/", None);
             ("chrome/juggler/content/", None);
             ("chrome/juggler/content/old.js", Some (Text "old"));
             ("chrome/other.js", Some (Text "other")) ].

Definition browserOmni : content :=
  Zip "PK" [ ("defaults/", None); ("defaults/prefs.js", Some (Text "prefs")) ].

(** A manifest with two mapped files. *)
Definition manifest : content :=
  Text (Js.join (String "010" "")
          [ "juggler.jar:";
            "% content juggler %content/";
            "  content/foo/bar.js (./foo/bar.js)";
            "  content/a.js (a.js)" ]).

(** The archive that the script patches in the staged build. *)
Definition target : path := ["tmp"; "repackaged-firefox"; "firefox"; "omni.ja"].

(** The script's own files: the build number, [jar.mn] and the two files it
    lists. *)
Definition repoFiles : list (path * node) :=
  [ (["repo"], Dir);
    (["repo"; "browser_patches"], Dir);
    (["repo"; "browser_patches"; "firefox"], Dir);
    (["repo"; "browser_patches"; "firefox"; "BUILD_NUMBER"], File (Text "1234"));
    (["repo"; "browser_patches"; "firefox"; "juggler"], Dir);
    (["repo"; "browser_patches"; "firefox"; "juggler"; "jar.mn"], File manifest);
    (["repo"; "browser_patches"; "firefox"; "juggler"; "a.js"], File (Text "A"));
    (["repo"; "browser_patches"; "firefox"; "juggler"; "foo"], Dir);
    (["repo"; "browser_patches"; "firefox"; "juggler"; "foo"; "bar.js"],
     File (Text "BAR")) ].

(** A staged build of Firefox 1234 for ubuntu20.04. *)
Definition stagedFiles : list (path * node) :=
  [ (["tmp"], Dir);
    (["tmp"; "repackaged-firefox"], Dir);
    (["tmp"; "repackaged-firefox"; "build-info.json"],
     File (Json (BuildCache.stringify "1234" "ubuntu20.04" "firefox")
                (BuildCache.descriptor "1234" "ubuntu20.04" "firefox")));
    (["tmp"; "repackaged-firefox"; "firefox"], Dir);
    (["tmp"; "repackaged-firefox"; "firefox"; "firefox"], File (Text "ELF"));
    (["tmp"; "repackaged-firefox"; "firefox"; "omni.ja"], File omni);
    (["tmp"; "repackaged-firefox"; "firefox"; "browser"], Dir);
    (["tmp"; "repackaged-firefox"; "firefox"; "browser"; "omni.ja"],
     File browserOmni) ].

Definition staged : world := World (list_to_map (repoFiles ++ stagedFiles)) [].

(** The same build without Juggler in any archive. *)
Definition stagedPlain : world :=
  World (<[ ["tmp"; "repackaged-firefox"; "firefox"; "omni.ja"] := File browserOmni ]>
           (fs staged)) [].

(** The download of Firefox 1234 for ubuntu20.04: one redirect to a mirror
    that serves the archive. *)
Definition firefoxZip : content :=
  Zip "PK" [ ("firefox/", None);
             ("firefox/firefox", Some (Text "ELF"));
             ("firefox/omni.ja", Some omni);
             ("firefox/browser/", None);
             ("firefox/browser/omni.ja", Some browserOmni) ].

Definition buildUrl : string :=
  "https://playwright.azureedge.net/builds/firefox/1234/firefox-ubuntu-20.04.zip".

Definition cdn (url : string) : reply :=
  if bool_decide (url = buildUrl)
  then Answer (Response 302 (Some "https://mirror.example/firefox.zip") None (Text ""))
  else if bool_decide (url = "https://mirror.example/firefox.zip")
  then Answer (Response 200 None (Some "4096") firefoxZip)
  else Answer (Response 404 None None (Text "not found")).

(** Nothing is staged. *)
Definition fresh : world := World (list_to_map (repoFiles ++ [ (["tmp"], Dir) ])) [].

(** The staged build is an older one. *)
Definition stale : world :=
  World (<[ ["tmp"; "repackaged-firefox"; "build-info.json"] :=
              File (Json (BuildCache.stringify "1233" "ubuntu20.04" "firefox")
                         (BuildCache.descriptor "1233" "ubuntu20.04" "firefox")) ]>
           (fs staged)) [].

(** The staged build with a manifest whose only line names the backup of
    the archive as its destination. *)
Definition escaping : world :=
  World (<[ ["repo"; "browser_patches"; "firefox"; "juggler"; "jar.mn"] :=
              File (Text "content/../../../../omni.ja.backup (a.js)") ]>
           (fs staged)) [].

(** The descriptor file holds a number. *)
Definition numbered : world :=
  World (<[ ["tmp"; "repackaged-firefox"; "build-info.json"] := File (Json "42" (JNum 42)) ]>
           (fs staged)) [].

End Sample.

(** * Properties *)

(** ** Strings *)

Lemma append_cons (c : ascii) (a b : string) :
  String c a +:+ b = String c (a +:+ b).
Proof. reflexivity. Qed.

Lemma append_empty_r (s : string) : s +:+ "" = s.
Proof.
  induction s as [|c s IH]; [reflexivity|].
  rewrite append_cons, IH. reflexivity.
Qed.

Lemma append_assoc (a b c : string) : (a +:+ b) +:+ c = a +:+ b +:+ c.
Proof.
  induction a as [|x a IH]; [reflexivity|].
  rewrite !append_cons, IH. reflexivity.
Qed.

Lemma length_append (a b : string) :
  String.length (a +:+ b) = (String.length a + String.length b)%nat.
Proof.
  induction a as [|x a IH]; [reflexivity|].
  rewrite append_cons. simpl. rewrite IH. reflexivity.
Qed.

Lemma split_cons (sep : ascii) (s : string) :
  exists first rest, Js.split sep s = first :: rest.
Proof.
  destruct s as [|c s]; simpl; [eauto|].
  destruct (ascii_dec c sep); [eauto|]. destruct (Js.split sep s); eauto.
Qed.

Lemma split_no_separator (sep : ascii) (s : string) :
  occurs sep s = false -> Js.split sep s = [s].
Proof.
  induction s as [|c s IH]; [reflexivity|]. simpl.
  intros [Hc Hs]%orb_false_iff. apply bool_decide_eq_false in Hc.
  destruct (ascii_dec c sep); [contradiction|]. rewrite (IH Hs). reflexivity.
Qed.

Lemma split_first (sep : ascii) (a b : string) :
  occurs sep a = false ->
  Js.split sep (a +:+ String sep b) = a :: Js.split sep b.
Proof.
  induction a as [|c a IH]; intros Hfree.
  - change ("" +:+ String sep b) with (String sep b). simpl.
    destruct (ascii_dec sep sep); [reflexivity|congruence].
  - simpl in Hfree. apply orb_false_iff in Hfree as [Hc Ha].
    apply bool_decide_eq_false in Hc.
    rewrite append_cons. simpl. destruct (ascii_dec c sep); [contradiction|].
    rewrite (IH Ha). reflexivity.
Qed.

Lemma join_cons (sep first second : string) (rest : list string) :
  Js.join sep (first :: second :: rest) = first +:+ sep +:+ Js.join sep (second :: rest).
Proof. reflexivity. Qed.

Lemma join_split (sep : ascii) (s : string) :
  Js.join (String sep "") (Js.split sep s) = s.
Proof.
  induction s as [|c s IH]; [reflexivity|]. simpl.
  destruct (split_cons sep s) as (first & rest & Hsplit). rewrite Hsplit in *.
  destruct (ascii_dec c sep) as [->|Hc].
  - rewrite join_cons, IH. reflexivity.
  - destruct rest as [|second rest].
    + simpl in *. congruence.
    + rewrite join_cons in *. rewrite append_cons, IH. reflexivity.
Qed.

Lemma substring_full (s : string) : substring 0 (String.length s) s = s.
Proof. induction s as [|c s IH]; [reflexivity|]. simpl. rewrite IH. reflexivity. Qed.

Lemma slice_from_two (a b : ascii) (s : string) :
  Js.slice 2 (Z.of_nat (String.length (String a (String b s)))) (String a (String b s)) = s.
Proof.
  unfold Js.slice, sliceIndex.
  set (len := Z.of_nat _).
  assert (len = Z.of_nat (String.length s) + 2) as Hlen by (subst len; simpl String.length; lia).
  change (2 <? 0) with false. destruct (Z.ltb_spec len 0); [lia|].
  cbv iota.
  replace (Z.to_nat (Z.min 2 len)) with 2%nat by lia.
  replace (Z.to_nat (Z.max (Z.min len len - Z.min 2 len) 0)) with (String.length s) by lia.
  simpl. apply substring_full.
Qed.

Lemma format_step (c : ascii) (rest arg : string) :
  format (String c rest) arg =
  if startsWith "%s" (String c rest)
  then arg +:+ Js.slice 2 (Z.of_nat (String.length (String c rest))) (String c rest)
  else String c (format rest arg).
Proof. reflexivity. Qed.

Lemma format_substitutes (pre post arg : string) :
  occurs "%" pre = false ->
  format (pre +:+ "%s" +:+ post) arg = pre +:+ arg +:+ post.
Proof.
  induction pre as [|c pre IH]; intros Hfree.
  - change ("" +:+ "%s" +:+ post) with (String "%" (String "s" post)).
    change ("" +:+ arg +:+ post) with (arg +:+ post).
    rewrite format_step. change (startsWith "%s" (String "%" (String "s" post))) with true.
    cbv iota. rewrite slice_from_two. reflexivity.
  - simpl in Hfree. apply orb_false_iff in Hfree as [Hc Hpre].
    apply bool_decide_eq_false in Hc.
    rewrite (append_cons c pre), (append_cons c pre), format_step.
    assert (startsWith "%s" (String c (pre +:+ "%s" +:+ post)) = false) as ->.
    { change (startsWith "%s" (String c (pre +:+ "%s" +:+ post)))
        with (if ascii_dec "%" c then startsWith "s" (pre +:+ "%s" +:+ post) else false).
      destruct (ascii_dec "%" c); [congruence|reflexivity]. }
    rewrite (IH Hpre). reflexivity.
Qed.


(** ** The script monad and the file system *)

Lemma seq_emit {A} (e : event) (m : M A) (w : world) :
  (emit e ;; m) w = m (World (fs w) (log w ++ [e])).
Proof. reflexivity. Qed.

Lemma bind_ok {A B} (m : M A) (k : A -> M B) (w w' : world) (a : A) :
  m w = (Ok a, w') -> (let* x := m in k x) w = k a w'.
Proof. intros H. unfold mbind. rewrite H. reflexivity. Qed.

Lemma bind_throw {A B} (m : M A) (k : A -> M B) (w w' : world) (e : error) :
  m w = (Throw e, w') -> (let* x := m in k x) w = (Throw e, w').
Proof. intros H. unfold mbind. rewrite H. reflexivity. Qed.

Lemma bind_ext_on {A B} (m : M A) (k1 k2 : A -> M B) (w : world) :
  (forall a w1, m w = (Ok a, w1) -> k1 a w1 = k2 a w1) ->
  (let* x := m in k1 x) w = (let* x := m in k2 x) w.
Proof.
  intros H. unfold mbind. destruct (m w) as [[a| | |] w1]; try reflexivity.
  apply H. reflexivity.
Qed.

Lemma putFile_ok (p : path) (c : content) (w : world) :
  Fs.isDir (fs w) p = false ->
  Fs.isDir (fs w) (dirname p) = true ->
  Fs.putFile p c w = (Ok tt, World (<[p := File c]> (fs w)) (log w)).
Proof.
  intros Hfile Hparent. unfold Fs.putFile, mbind, getFs, setFs.
  rewrite Hfile, Hparent. reflexivity.
Qed.

Lemma rm_exists (p : path) (w : world) :
  Fs.exists_ (fs w) p = true ->
  Fs.rm p w = (Ok tt, World (Fs.removeTree p (fs w)) (log w ++ [EvRm p])).
Proof.
  intros H. unfold Fs.rm. rewrite seq_emit. unfold mbind, getFs, setFs. simpl.
  rewrite H. reflexivity.
Qed.

Lemma rm_missing (p : path) (w : world) :
  Fs.exists_ (fs w) p = false ->
  Fs.rm p w = (Throw (IOError "ENOENT" (Js.join "/" p)), World (fs w) (log w ++ [EvRm p])).
Proof.
  intros H. unfold Fs.rm. rewrite seq_emit. unfold mbind, getFs, throw. simpl.
  rewrite H. reflexivity.
Qed.

Lemma mkdir_ok (p : path) (w : world) :
  Fs.exists_ (fs w) p = false ->
  Fs.isDir (fs w) (dirname p) = true ->
  Fs.mkdir p w = (Ok tt, World (<[p := Dir]> (fs w)) (log w ++ [EvMkdir p])).
Proof.
  intros H1 H2. unfold Fs.mkdir. rewrite seq_emit. unfold mbind, getFs, setFs. simpl.
  rewrite H1, H2. reflexivity.
Qed.

Lemma writeFile_ok (p : path) (c : content) (w : world) :
  Fs.isDir (fs w) p = false ->
  Fs.isDir (fs w) (dirname p) = true ->
  Fs.writeFile p c w =
    (Ok tt, World (<[p := File c]> (fs w)) (log w ++ [EvWriteFile p])).
Proof.
  intros H1 H2. unfold Fs.writeFile. rewrite seq_emit.
  rewrite putFile_ok by assumption. reflexivity.
Qed.

Lemma catch_ok {A} (m : M A) (k : error -> M A) (w w' : world) (a : A) :
  m w = (Ok a, w') -> catch m k w = (Ok a, w').
Proof. intros H. unfold catch. rewrite H. reflexivity. Qed.

Lemma catch_throw {A} (m : M A) (k : error -> M A) (w w' : world) (e : error) :
  m w = (Throw e, w') -> catch m k w = k e w'.
Proof. intros H. unfold catch. rewrite H. reflexivity. Qed.


(** Extraction reads and writes the file system only: the log is carried
    along. *)
Lemma extractEntry_log (dest : path) (e : zipEntry) (f : gmap path node)
    (l : list event) :
  exists r f',
    forall l', Archive.extractEntry dest e (World f l') = (r, World f' l').
Proof.
  unfold Archive.extractEntry, mbind, getFs, setFs, throw. simpl.
  destruct e.2 as [data|].
  - destruct (Fs.mkdirs _ f) as [f'|]; [|eauto].
    destruct (Fs.exists_ f' _); eauto.
  - destruct (Fs.mkdirs _ f) as [f'|]; eauto.
Qed.

Lemma forEach_extract_log (dest : path) (entries : list zipEntry) :
  forall (f : gmap path node),
  exists r f',
    forall l', forEach (Archive.extractEntry dest) entries (World f l') = (r, World f' l').
Proof.
  induction entries as [|e entries IH]; intros f.
  - exists (Ok tt), f. reflexivity.
  - destruct (extractEntry_log dest e f []) as (r & f1 & He).
    destruct r as [[]|err|k|].
    + destruct (IH f1) as (r & f2 & Hrest). exists r, f2. intros l'.
      simpl. unfold mbind. rewrite He. apply Hrest.
    + exists (Throw err), f1. intros l'. simpl. unfold mbind. rewrite He. reflexivity.
    + exists (Exit k), f1. intros l'. simpl. unfold mbind. rewrite He. reflexivity.
    + exists Pending, f1. intros l'. simpl. unfold mbind. rewrite He. reflexivity.
Qed.

Lemma extracted_run (dest : path) (entries : list zipEntry)
    (f f' : gmap path node) (l : list event) :
  Archive.extracted dest entries f = Some f' ->
  forEach (Archive.extractEntry dest) entries (World f l) = (Ok tt, World f' l).
Proof.
  unfold Archive.extracted.
  destruct (forEach_extract_log dest entries f) as (r & f2 & Hrun).
  rewrite (Hrun []), (Hrun l). destruct r as [[]| | |]; try discriminate.
  intros [= ->]. reflexivity.
Qed.

Lemma mkdirs_keeps (dirs : list path) :
  forall (f f' : gmap path node) (p : path) (n : node),
    Fs.mkdirs dirs f = Some f' -> f !! p = Some n -> f' !! p = Some n.
Proof.
  induction dirs as [|d dirs IH]; intros f f' p n; simpl.
  - intros [= <-]. trivial.
  - destruct (Fs.lookupNode f d) as [[|c]|] eqn:E; [apply IH|discriminate|].
    intros Hrest Hp. apply (IH _ _ _ _ Hrest).
    rewrite lookup_insert_ne; [assumption|].
    intros ->. destruct p; simpl in E; congruence.
Qed.

Lemma extractEntry_keeps (dest : path) (e : zipEntry) (w w' : world)
    (p : path) (n : node) :
  Archive.extractEntry dest e w = (Ok tt, w') ->
  fs w !! p = Some n -> fs w' !! p = Some n.
Proof.
  unfold Archive.extractEntry, mbind, getFs, setFs, throw.
  destruct e.2 as [data|].
  - destruct (Fs.mkdirs _ (fs w)) as [f'|] eqn:Hdirs; [|discriminate].
    destruct (Fs.exists_ f' _) eqn:Hex; intros [= <-] Hp; simpl;
      pose proof (mkdirs_keeps _ _ _ _ _ Hdirs Hp) as Hp'; [assumption|].
    rewrite lookup_insert_ne; [assumption|].
    intros <-. unfold Fs.exists_ in Hex.
    destruct (Archive.entryPath dest e.1); simpl in Hex; [discriminate|].
    rewrite Hp' in Hex. discriminate.
  - destruct (Fs.mkdirs _ (fs w)) as [f'|] eqn:Hdirs; [|discriminate].
    intros [= <-] Hp. simpl. exact (mkdirs_keeps _ _ _ _ _ Hdirs Hp).
Qed.

Lemma extracted_keeps (dest : path) (entries : list zipEntry) :
  forall (f f' : gmap path node) (p : path) (n : node),
    Archive.extracted dest entries f = Some f' ->
    f !! p = Some n -> f' !! p = Some n.
Proof.
  induction entries as [|e entries IH]; intros f f' p n.
  - unfold Archive.extracted. simpl. intros [= <-]. trivial.
  - intros Hall Hp.
    destruct (extractEntry_log dest e f []) as (r & f1 & He).
    destruct (forEach_extract_log dest entries f1) as (r2 & f2 & Hrest).
    unfold Archive.extracted in Hall. simpl in Hall. unfold mbind in Hall.
    rewrite He in Hall. destruct r as [[]| | |]; try discriminate.
    apply (IH f1 f' p n).
    + unfold Archive.extracted. exact Hall.
    + apply (extractEntry_keeps dest e (World f []) (World f1 [])); [apply He|exact Hp].
Qed.

(** Extraction makes nothing but the entries and the directories above
    them, and the first entry of a path that is free gets that path. *)
Lemma extracted_cons (dest : path) (e : zipEntry) (entries : list zipEntry)
    (f f' : gmap path node) :
  Archive.extracted dest (e :: entries) f = Some f' ->
  exists f1,
    Archive.extractEntry dest e (World f []) = (Ok tt, World f1 []) /\
    Archive.extracted dest entries f1 = Some f'.
Proof.
  intros Hall. destruct (extractEntry_log dest e f []) as (r & f1 & He).
  unfold Archive.extracted in Hall. simpl in Hall. unfold mbind in Hall.
  rewrite He in Hall. destruct r as [[]| | |]; try discriminate.
  exists f1. split; [apply He|exact Hall].
Qed.

Lemma extracted_app (dest : path) (before after : list zipEntry) :
  forall (f f' : gmap path node),
    Archive.extracted dest (before ++ after) f = Some f' ->
    exists f1,
      Archive.extracted dest before f = Some f1 /\
      Archive.extracted dest after f1 = Some f'.
Proof.
  induction before as [|e before IH]; intros f f' Hall.
  - exists f. split; [reflexivity|exact Hall].
  - apply extracted_cons in Hall as (f1 & He & Hrest).
    destruct (IH f1 f' Hrest) as (f2 & Hbefore & Hafter).
    exists f2. split; [|exact Hafter].
    unfold Archive.extracted. simpl. unfold mbind. rewrite He. exact Hbefore.
Qed.

Lemma mkdirs_new (dirs : list path) :
  forall (f f' : gmap path node) (q : path),
    Fs.mkdirs dirs f = Some f' -> f !! q = None -> is_Some (f' !! q) -> q ∈ dirs.
Proof.
  induction dirs as [|d dirs IH]; intros f f' q; simpl.
  - intros [= <-] Hnone [n Hn]. congruence.
  - destruct (Fs.lookupNode f d) as [[|c]|] eqn:E; [|discriminate|].
    + intros Hrest Hnone Hsome. right. exact (IH _ _ _ Hrest Hnone Hsome).
    + intros Hrest Hnone Hsome. destruct (decide (q = d)) as [->|Hne]; [left|].
      right. apply (IH _ _ _ Hrest); [|exact Hsome].
      rewrite lookup_insert_ne by congruence. exact Hnone.
Qed.

Lemma ancestorsOf_prefix (p q : path) : q ∈ Fs.ancestorsOf p -> q `prefix_of` p.
Proof.
  unfold Fs.ancestorsOf. intros Hq. apply list_elem_of_In, in_map_iff in Hq as (n & <- & _).
  exists (drop n p). symmetry. apply take_drop.
Qed.

Lemma prefix_dirname (q p : path) : q `prefix_of` dirname p -> q `prefix_of` p.
Proof.
  intros Hq. etrans; [exact Hq|]. unfold dirname.
  destruct (decide (p = [])) as [->|Hne]; [reflexivity|].
  exists [List.last p ""]. apply app_removelast_last, Hne.
Qed.

Lemma extractEntry_new (dest : path) (e : zipEntry) (w w' : world) (q : path) :
  Archive.extractEntry dest e w = (Ok tt, w') ->
  fs w !! q = None -> is_Some (fs w' !! q) ->
  q `prefix_of` Archive.entryPath dest e.1.
Proof.
  unfold Archive.extractEntry, mbind, getFs, setFs, throw.
  destruct e.2 as [data|].
  - destruct (Fs.mkdirs _ (fs w)) as [f'|] eqn:Hdirs; [|discriminate].
    assert (is_Some (f' !! q) -> fs w !! q = None ->
            q `prefix_of` Archive.entryPath dest e.1) as Hdir.
    { intros Hsome Hnone.
      apply prefix_dirname, ancestorsOf_prefix, (mkdirs_new _ _ _ _ Hdirs Hnone Hsome). }
    destruct (Fs.exists_ f' _); intros [= <-] Hnone Hsome; simpl in Hsome; [auto|].
    destruct (decide (q = Archive.entryPath dest e.1)) as [->|Hne]; [reflexivity|].
    rewrite lookup_insert_ne in Hsome by congruence. auto.
  - destruct (Fs.mkdirs _ (fs w)) as [f'|] eqn:Hdirs; [|discriminate].
    intros [= <-] Hnone Hsome. simpl in Hsome.
    apply ancestorsOf_prefix, (mkdirs_new _ _ _ _ Hdirs Hnone Hsome).
Qed.

Lemma extracted_new (dest : path) (entries : list zipEntry) :
  forall (f f' : gmap path node) (q : path),
    Archive.extracted dest entries f = Some f' ->
    f !! q = None -> is_Some (f' !! q) ->
    exists e, e ∈ entries /\ q `prefix_of` Archive.entryPath dest e.1.
Proof.
  induction entries as [|e entries IH]; intros f f' q Hall Hnone Hsome.
  - unfold Archive.extracted in Hall. simpl in Hall. injection Hall as <-.
    destruct Hsome. congruence.
  - apply extracted_cons in Hall as (f1 & He & Hrest).
    destruct (f1 !! q) as [n|] eqn:E.
    + exists e. split; [left|].
      apply (extractEntry_new dest e (World f []) (World f1 [])); [exact He|exact Hnone|].
      simpl. rewrite E. eauto.
    + destruct (IH f1 f' q Hrest E Hsome) as (e' & Hin & Hpre).
      exists e'. split; [right|]; assumption.
Qed.

Lemma extractEntry_file (dest : path) (name : string) (data : content)
    (w w' : world) :
  Archive.extractEntry dest (name, Some data) w = (Ok tt, w') ->
  Archive.entryPath dest name <> [] ->
  fs w !! Archive.entryPath dest name = None ->
  fs w' !! Archive.entryPath dest name = Some (File data).
Proof.
  unfold Archive.extractEntry, mbind, getFs, setFs, throw. simpl.
  set (p := Archive.entryPath dest name).
  destruct (Fs.mkdirs _ (fs w)) as [f'|] eqn:Hdirs; [|discriminate].
  intros Hrun Hroot Hnone.
  assert (f' !! p = None) as Hfree.
  { destruct (f' !! p) as [n|] eqn:E; [|reflexivity]. exfalso.
    pose proof (mkdirs_new _ _ _ _ Hdirs Hnone ltac:(rewrite E; eauto)) as Hin.
    apply ancestorsOf_prefix, prefix_length in Hin.
    unfold dirname in Hin.
    rewrite (app_removelast_last "" Hroot), length_app in Hin at 1.
    simpl in Hin. lia. }
  unfold Fs.exists_ in Hrun. destruct p as [|x p]; [contradiction|].
  simpl in Hrun. rewrite Hfree in Hrun. injection Hrun as <-.
  simpl. apply lookup_insert_eq.
Qed.

Lemma extracted_file (dest : path) (before after : list zipEntry) (name : string)
    (data : content) (f f' : gmap path node) :
  Archive.extracted dest (before ++ (name, Some data) :: after) f = Some f' ->
  Archive.entryPath dest name <> [] ->
  f !! Archive.entryPath dest name = None ->
  (forall e, e ∈ before ->
     ~ Archive.entryPath dest name `prefix_of` Archive.entryPath dest e.1) ->
  f' !! Archive.entryPath dest name = Some (File data).
Proof.
  intros Hall Hroot Hnone Hfirst.
  apply extracted_app in Hall as (f1 & Hbefore & Hrest).
  apply extracted_cons in Hrest as (f2 & He & Hafter).
  apply (extracted_keeps _ _ _ _ _ _ Hafter).
  apply (extractEntry_file dest name data (World f1 []) (World f2 []) He Hroot).
  simpl. destruct (f1 !! Archive.entryPath dest name) as [n|] eqn:E; [|reflexivity].
  exfalso. destruct (extracted_new _ _ _ _ _ Hbefore Hnone ltac:(rewrite E; eauto))
    as (e & Hin & Hpre).
  exact (Hfirst e Hin Hpre).
Qed.

Lemma wellFormed_decide (f : gmap path node) :
  Fs.wellFormedb f = true -> Fs.wellFormed f.
Proof.
  unfold Fs.wellFormedb, Fs.wellFormed. rewrite forallb_forall.
  intros H q n Hq. apply elem_of_map_to_list, list_elem_of_In in Hq.
  specialize (H _ Hq). simpl in H. apply andb_true_iff in H as [H1 H2].
  split; [|exact H2]. apply negb_true_iff, bool_decide_eq_false_1 in H1. exact H1.
Qed.

Lemma some_default {A} (x : option A) (d : A) :
  bool_decide (is_Some x) = true -> x = Some (default d x).
Proof.
  intros H. apply bool_decide_eq_true_1 in H as [a ->]. reflexivity.
Qed.

Lemma Forall_test {A} (t : A -> bool) (b : bool) (l : list A) :
  forallb (fun x => Bool.eqb (t x) b) l = true ->
  Forall (fun x => t x = b) l.
Proof.
  rewrite forallb_forall, Forall_forall. intros H x Hx.
  apply list_elem_of_In in Hx. apply Bool.eqb_prop, H, Hx.
Qed.

(** What a step that returned has done. *)

Lemma bind_inv_ok {A B} (m : M A) (k : A -> M B) (w w' : world) (b : B) :
  (let* x := m in k x) w = (Ok b, w') ->
  exists a w1, m w = (Ok a, w1) /\ k a w1 = (Ok b, w').
Proof.
  unfold mbind. destruct (m w) as [[a|e|n|] w1]; try discriminate. eauto.
Qed.

Lemma seq_inv_ok {A} (m : M unit) (k : M A) (w w' : world) (a : A) :
  (m ;; k) w = (Ok a, w') ->
  exists w1, m w = (Ok tt, w1) /\ k w1 = (Ok a, w').
Proof.
  unfold mbind. destruct (m w) as [[[]|e|n|] w1]; try discriminate. eauto.
Qed.

Lemma lookupNode_Some (f : gmap path node) (p : path) (n : node) :
  p <> [] -> (Fs.lookupNode f p = Some n <-> f !! p = Some n).
Proof. destruct p; [contradiction|reflexivity]. Qed.

Lemma rm_inv (p : path) (w w' : world) :
  Fs.rm p w = (Ok tt, w') ->
  Fs.exists_ (fs w) p = true /\
  fs w' = Fs.removeTree p (fs w) /\ log w' = log w ++ [EvRm p].
Proof.
  unfold Fs.rm. rewrite seq_emit. unfold mbind, getFs, setFs, throw. simpl.
  destruct (Fs.exists_ (fs w) p); [|discriminate].
  intros [= <-]. auto.
Qed.

Lemma rm_caught (p : path) (w : world) :
  catch (Fs.rm p) (fun _ => ret tt) w =
    (Ok tt, World (if Fs.exists_ (fs w) p then Fs.removeTree p (fs w) else fs w)
                  (log w ++ [EvRm p])).
Proof.
  destruct (Fs.exists_ (fs w) p) eqn:E.
  - apply catch_ok, rm_exists, E.
  - rewrite (catch_throw _ _ _ _ _ (rm_missing _ _ E)). reflexivity.
Qed.

Lemma mkdir_inv (p : path) (w w' : world) :
  Fs.mkdir p w = (Ok tt, w') ->
  Fs.exists_ (fs w) p = false /\
  fs w' = <[p := Dir]> (fs w) /\ log w' = log w ++ [EvMkdir p].
Proof.
  unfold Fs.mkdir. rewrite seq_emit. unfold mbind, getFs, setFs, throw. simpl.
  destruct (Fs.exists_ (fs w) p); [discriminate|].
  destruct (Fs.isDir (fs w) (dirname p)); [|discriminate].
  intros [= <-]. auto.
Qed.

Lemma mkdirRecursive_inv (p : path) (w w' : world) :
  Fs.mkdirRecursive p w = (Ok tt, w') ->
  Fs.mkdirs (Fs.ancestorsOf p) (fs w) = Some (fs w') /\
  log w' = log w ++ [EvMkdir p].
Proof.
  unfold Fs.mkdirRecursive. rewrite seq_emit. unfold mbind, getFs, setFs, throw. simpl.
  destruct (Fs.mkdirs _ (fs w)) as [f'|]; [|discriminate].
  intros [= <-]. auto.
Qed.

Lemma putFile_inv (p : path) (c : content) (w w' : world) :
  Fs.putFile p c w = (Ok tt, w') ->
  fs w' = <[p := File c]> (fs w) /\ log w' = log w.
Proof.
  unfold Fs.putFile, mbind, getFs, setFs, throw.
  destruct (Fs.isDir (fs w) p); [discriminate|].
  destruct (Fs.isDir (fs w) (dirname p)); [|discriminate].
  intros [= <-]. auto.
Qed.

Lemma readFile_inv (p : path) (c : content) (w w' : world) :
  Fs.readFile p w = (Ok c, w') ->
  Fs.lookupNode (fs w) p = Some (File c) /\ w' = w.
Proof.
  unfold Fs.readFile, mbind, getFs, ret, throw.
  destruct (Fs.lookupNode (fs w) p) as [[|c']|]; try discriminate.
  intros [= -> ->]. auto.
Qed.

Lemma copyFile_inv (src dst : path) (w w' : world) :
  Fs.copyFile src dst w = (Ok tt, w') ->
  exists c,
    Fs.lookupNode (fs w) src = Some (File c) /\
    fs w' = <[dst := File c]> (fs w) /\
    log w' = log w ++ [EvCopyFile src dst].
Proof.
  unfold Fs.copyFile. rewrite seq_emit.
  intros (c & w1 & Hread & Hput)%bind_inv_ok.
  apply readFile_inv in Hread as [Hnode ->].
  apply putFile_inv in Hput as [Hfs Hlog].
  exists c. auto.
Qed.

Lemma copyNamed_inv (src dst : path) (srcSlash dstSlash : bool) (w w' : world) :
  Fs.copyNamed src dst srcSlash dstSlash w = (Ok tt, w') ->
  srcSlash = false /\ dstSlash = false /\
  Fs.copyFile src dst w = (Ok tt, w').
Proof.
  unfold Fs.copyNamed, Fs.copyFile. rewrite !seq_emit.
  intros (c & w1 & Hread & Hput)%bind_inv_ok.
  destruct srcSlash; [discriminate|]. destruct dstSlash; [discriminate|].
  repeat split. rewrite (bind_ok _ _ _ _ _ Hread). exact Hput.
Qed.

Lemma copyNamed_plain (src dst : path) (w : world) :
  Fs.copyNamed src dst false false w = Fs.copyFile src dst w.
Proof. reflexivity. Qed.

Lemma unlink_inv (p : path) (w w' : world) :
  Fs.unlink p w = (Ok tt, w') ->
  fs w' = delete p (fs w) /\ log w' = log w ++ [EvUnlink p].
Proof.
  unfold Fs.unlink. rewrite seq_emit. unfold mbind, getFs, setFs, throw. simpl.
  destruct (Fs.lookupNode (fs w) p) as [[|c]|]; try discriminate.
  intros [= <-]. auto.
Qed.

Lemma extractAllTo_inv (archive dest : path) (w w' : world) :
  Archive.extractAllTo archive dest w = (Ok tt, w') ->
  exists raw entries,
    Fs.lookupNode (fs w) archive = Some (File (Zip raw entries)) /\
    Archive.extracted dest entries (fs w) = Some (fs w') /\
    log w' = log w ++ [EvExtractAll archive dest false true].
Proof.
  unfold Archive.extractAllTo, Archive.open.
  intros (entries & w1 & Hopen & Hrest)%bind_inv_ok.
  apply bind_inv_ok in Hopen as (c & w0 & Hread & Hzip).
  apply readFile_inv in Hread as [Hnode ->].
  destruct c as [t|t v|raw es]; try discriminate.
  injection Hzip as -> <-.
  rewrite seq_emit in Hrest.
  destruct (forEach_extract_log dest entries (fs w)) as (r & f' & Hrun).
  rewrite Hrun in Hrest. injection Hrest as -> <-.
  exists raw, entries. split; [assumption|]. split; [|reflexivity].
  unfold Archive.extracted. rewrite Hrun. reflexivity.
Qed.

Lemma writeFolder_inv (h : host) (dir target : path) (w w' : world) :
  Archive.writeFolder h dir target w = (Ok tt, w') ->
  fs w' = <[target := File (Zip (zipBytes h (Archive.localFolder dir (fs w)))
                                (Archive.localFolder dir (fs w)))]> (fs w) /\
  log w' = log w ++ [EvWriteZip target].
Proof.
  unfold Archive.writeFolder, mbind at 1. unfold getFs.
  destruct (Fs.isDir (fs w) dir); [|discriminate]. cbn [negb].
  rewrite seq_emit. intros [Hfs Hlog]%putFile_inv. auto.
Qed.

(** ** Host platform *)

Section PlatformFacts.
Import Platform.
Variable h : host.

Lemma exec_ok (command out : string) (w : world) :
  execSync h command = Ok out ->
  exec h command w = (Ok out, World (fs w) (log w ++ [EvExec command])).
Proof. intros H. unfold exec, mbind, emit. simpl. rewrite H. reflexivity. Qed.

Lemma darwin_major (out : string) (m : Z) (w : world) :
  os_platform h = "darwin" ->
  execSync h SW_VERS = Ok out ->
  productVersion out !! 0%nat = Some (Num m) ->
  11 <= m ->
  forall probe, execSync h SYSCTL_ARM64 = Ok probe ->
  getHostPlatform h w =
    (Ok ("mac11" +:+ (if bool_decide (trim probe = "1") then "-arm64" else "")),
     World (fs w) (log w ++ [EvExec SW_VERS; EvExec SYSCTL_ARM64])).
Proof.
  intros Hos Hout Hm Hge probe Hprobe.
  unfold getHostPlatform. rewrite Hos.
  rewrite bool_decide_eq_true_2 by reflexivity.
  unfold mbind at 1. rewrite (exec_ok _ _ _ Hout). rewrite Hm. simpl default.
  assert (numGe (Num m) 11 = true) as -> by (apply Z.leb_le; lia).
  assert (numEq (Num m) 10 = false) as -> by (apply Z.eqb_neq; lia).
  unfold mbind at 1. unfold mbind at 1. rewrite (exec_ok _ _ _ Hprobe).
  unfold ret. simpl fs. simpl log. rewrite <- app_assoc. simpl app.
  unfold numGt, LAST_STABLE_MAC_MAJOR_VERSION.
  destruct (Z.ltb_spec 11 m).
  - reflexivity.
  - assert (m = 11) as -> by lia. reflexivity.
Qed.

(** C5: on darwin, major version 11 with a positive arm64 probe gives
    [mac11-arm64], and every major version above 11 gives the tag of version
    11: [mac11], with the [-arm64] suffix when the probe is positive. *)
Theorem darwin_arm64_and_clamp (out probe : string) (m : Z) (w : world) :
  os_platform h = "darwin" ->
  execSync h SW_VERS = Ok out ->
  productVersion out !! 0%nat = Some (Num m) ->
  execSync h SYSCTL_ARM64 = Ok probe ->
  (m = 11 -> trim probe = "1" -> (getHostPlatform h w).1 = Ok "mac11-arm64") /\
  (11 < m ->
   (getHostPlatform h w).1 =
     Ok (if bool_decide (trim probe = "1") then "mac11-arm64" else "mac11")).
Proof.
  intros Hos Hout Hm Hprobe. split.
  - intros -> Hone.
    rewrite (darwin_major out 11 w Hos Hout Hm ltac:(lia) probe Hprobe).
    rewrite bool_decide_eq_true_2 by assumption. reflexivity.
  - intros Hgt.
    rewrite (darwin_major out m w Hos Hout Hm ltac:(lia) probe Hprobe).
    destruct (bool_decide (trim probe = "1")); reflexivity.
Qed.

Lemma occurs_app (c : ascii) (a b : string) :
  occurs c (a +:+ b) = occurs c a || occurs c b.
Proof.
  induction a as [|x a IH]; [reflexivity|].
  change (String x a +:+ b) with (String x (a +:+ b)).
  simpl. rewrite IH. apply orb_assoc.
Qed.

Lemma occurs_substring (c : ascii) (s : string) :
  forall a k, occurs c (substring a k s) = true -> occurs c s = true.
Proof.
  induction s as [|x s IH]; intros a k.
  - destruct a, k; simpl; congruence.
  - destruct a as [|a].
    + destruct k as [|k]; simpl; [congruence|].
      intros [H|H]%orb_true_iff; apply orb_true_iff; eauto.
    + simpl. intros H. apply orb_true_iff. eauto.
Qed.

Lemma endsWith_occurs (c : ascii) (p s : string) :
  endsWith p s = true -> occurs c p = true -> occurs c s = true.
Proof.
  unfold endsWith. intros [_ H]%andb_true_iff Hc.
  apply bool_decide_eq_true_1 in H. rewrite <- H in Hc.
  exact (occurs_substring _ _ _ _ Hc).
Qed.

Lemma digit_not_r (k : nat) : (k < 10)%nat -> ascii_of_nat (k + 48) <> "r"%char.
Proof.
  intros Hk. do 10 (destruct k as [|k]; [discriminate|]). lia.
Qed.

(** *** Numerals *)

Lemma digitOf_digitChar (d : nat) :
  (d < 10)%nat -> digitOf (digitChar d) = Some (Z.of_nat d).
Proof.
  intros Hd. do 10 (destruct d as [|d]; [reflexivity|]). lia.
Qed.

Lemma digitString_app (a b : list nat) :
  digitString (a ++ b) = digitString a +:+ digitString b.
Proof.
  induction a as [|d a IH]; [reflexivity|]. simpl. rewrite IH. reflexivity.
Qed.

Lemma digitsFrom_digits (ds : list nat) :
  Forall (fun d => (d < 10)%nat) ds ->
  forall acc, digitsFrom (Some acc) (digitString ds)
              = Some (foldl (fun a d => 10 * a + Z.of_nat d) acc ds).
Proof.
  induction 1 as [|d ds Hd _ IH]; intros acc; [reflexivity|].
  simpl. rewrite (digitOf_digitChar d Hd). apply IH.
Qed.

Lemma parseInt_unsigned (c : ascii) (rest : string) :
  isWhiteSpace c = false -> c <> "-"%char -> c <> "+"%char ->
  parseInt (String c rest) =
    match digitsFrom None (String c rest) with Some z => Num z | None => NaN end.
Proof.
  intros Hws Hminus Hplus. unfold parseInt. simpl trimStart. rewrite Hws.
  destruct c as [[] [] [] [] [] [] [] []];
    first [ reflexivity
          | exfalso; apply Hminus; reflexivity
          | exfalso; apply Hplus; reflexivity ].
Qed.

Lemma parseInt_digits (ds : list nat) :
  ds <> [] -> Forall (fun d => (d < 10)%nat) ds ->
  parseInt (digitString ds) = Num (digitsValue ds).
Proof.
  intros Hne Hall. destruct ds as [|d ds]; [contradiction|].
  inversion Hall as [|? ? Hd Hrest]; subst.
  assert (digitsFrom None (digitString (d :: ds)) = Some (digitsValue (d :: ds))) as Hrun.
  { simpl. rewrite (digitOf_digitChar d Hd). apply (digitsFrom_digits ds Hrest). }
  simpl digitString in *. rewrite parseInt_unsigned, Hrun; [reflexivity|..];
    do 10 (destruct d as [|d]; [first [reflexivity|discriminate]|]); lia.
Qed.

Lemma digitsValue_bounds (ds : list nat) :
  Forall (fun d => (d < 10)%nat) ds ->
  forall acc, 0 <= acc ->
    acc * 10 ^ Z.of_nat (length ds)
      <= foldl (fun a d => 10 * a + Z.of_nat d) acc ds
      < (acc + 1) * 10 ^ Z.of_nat (length ds).
Proof.
  induction 1 as [|d ds Hd _ IH]; intros acc Hacc; [simpl; lia|].
  simpl foldl. specialize (IH (10 * acc + Z.of_nat d) ltac:(lia)).
  replace (Z.of_nat (length (d :: ds))) with (Z.succ (Z.of_nat (length ds)))
    by (simpl length; lia).
  rewrite Z.pow_succ_r by lia.
  assert (0 < 10 ^ Z.of_nat (length ds)) by (apply Z.pow_pos_nonneg; lia).
  nia.
Qed.

Lemma digitsValue_snoc (ds : list nat) (x : nat) :
  digitsValue (ds ++ [x]) = 10 * digitsValue ds + Z.of_nat x.
Proof. unfold digitsValue. rewrite foldl_snoc. reflexivity. Qed.

Lemma digitsValue_leading (d : nat) (ds : list nat) :
  Forall (fun d => (d < 10)%nat) ds -> (0 < d)%nat ->
  10 ^ Z.of_nat (length ds) <= digitsValue (d :: ds).
Proof.
  intros Hall Hd. unfold digitsValue. simpl foldl.
  pose proof (digitsValue_bounds ds Hall (10 * 0 + Z.of_nat d) ltac:(lia)) as [Hlow _].
  assert (0 < 10 ^ Z.of_nat (length ds)) by (apply Z.pow_pos_nonneg; lia).
  nia.
Qed.

Lemma showPos_digits (ds : list nat) :
  Forall (fun d => (d < 10)%nat) ds -> ds <> [] -> head ds <> Some 0%nat ->
  forall fuel acc, (length ds <= fuel)%nat ->
    showPos fuel (digitsValue ds) acc = digitString ds +:+ acc.
Proof.
  induction ds as [|x ds IH] using rev_ind; intros Hall Hne Hhead fuel acc Hfuel;
    [contradiction|].
  apply Forall_app in Hall as [Hds Hx]. inversion Hx as [|? ? Hx10 _]; subst.
  rewrite length_app in Hfuel. simpl in Hfuel.
  destruct fuel as [|fuel]; [lia|].
  rewrite digitsValue_snoc, digitString_app, append_assoc. simpl digitString.
  destruct ds as [|d ds].
  - simpl. change (digitsValue []) with 0.
    replace (10 * 0 + Z.of_nat x) with (Z.of_nat x) by lia.
    destruct (Z.ltb_spec (Z.of_nat x) 10); [|lia].
    rewrite Z.mod_small by lia. rewrite Nat2Z.id. reflexivity.
  - assert (0 < d)%nat as Hd by (destruct d; [simpl in Hhead; congruence|lia]).
    inversion Hds as [|? ? _ Hrest]; subst.
    pose proof (digitsValue_leading d ds Hrest Hd) as Hlow.
    assert (0 < 10 ^ Z.of_nat (length ds)) by (apply Z.pow_pos_nonneg; lia).
    simpl showPos.
    destruct (Z.ltb_spec (10 * digitsValue (d :: ds) + Z.of_nat x) 10); [lia|].
    replace ((10 * digitsValue (d :: ds) + Z.of_nat x) mod 10) with (Z.of_nat x)
      by (rewrite Z.add_comm, Z.mul_comm, Z.mod_add by lia; rewrite Z.mod_small; lia).
    replace ((10 * digitsValue (d :: ds) + Z.of_nat x) / 10) with (digitsValue (d :: ds))
      by (rewrite Z.add_comm, Z.mul_comm, Z.div_add by lia; rewrite Z.div_small; lia).
    rewrite Nat2Z.id.
    rewrite (IH Hds ltac:(discriminate) Hhead fuel _ ltac:(simpl in *; lia)).
    reflexivity.
Qed.

Lemma showZ_digits (ds : list nat) :
  numeral ds -> showZ (digitsValue ds) = digitString ds.
Proof.
  intros (Hne & Hall & Hzero).
  destruct ds as [|d ds]; [contradiction|].
  destruct d as [|d].
  - rewrite (Hzero eq_refl). reflexivity.
  - inversion Hall as [|? ? _ Hrest]; subst.
    pose proof (digitsValue_leading (S d) ds Hrest ltac:(lia)) as Hlow.
    assert (0 < 10 ^ Z.of_nat (length ds)) by (apply Z.pow_pos_nonneg; lia).
    unfold showZ. destruct (Z.ltb_spec (digitsValue (S d :: ds)) 0); [lia|].
    rewrite showPos_digits; [apply append_empty_r|assumption|discriminate|discriminate|].
    assert (Z.of_nat (length ds) <= Z.log2 (digitsValue (S d :: ds))).
    { rewrite <- (Z.log2_pow2 (Z.of_nat (length ds))) by lia.
      apply Z.log2_le_mono. etransitivity; [|exact Hlow].
      apply Z.pow_le_mono_l. lia. }
    simpl length. lia.
Qed.

Lemma exact_digits (ds : list nat) :
  Forall (fun d => (d < 10)%nat) ds -> (length ds <= 15)%nat ->
  exact (digitsValue ds) = true.
Proof.
  intros Hall Hlen. pose proof (digitsValue_bounds ds Hall 0 ltac:(lia)) as [Hlow Hup].
  fold (digitsValue ds) in Hlow, Hup.
  assert (10 ^ Z.of_nat (length ds) <= 10 ^ 15) by (apply Z.pow_le_mono_r; lia).
  unfold exact. apply Z.leb_le. rewrite Z.abs_eq by lia.
  change (2 ^ 53) with 9007199254740992. change (10 ^ 15) with 1000000000000000 in *. lia.
Qed.

Lemma showNum_digits (big : Z -> string) (ds : list nat) :
  numeral ds -> (length ds <= 15)%nat ->
  showNum big (Num (digitsValue ds)) = digitString ds.
Proof.
  intros Hnum Hlen. unfold showNum.
  rewrite exact_digits by (assumption || apply Hnum). apply showZ_digits, Hnum.
Qed.

Lemma occurs_digits (c : ascii) (ds : list nat) :
  Forall (fun d => (d < 10)%nat) ds ->
  (forall d, (d < 10)%nat -> digitChar d <> c) ->
  occurs c (digitString ds) = false.
Proof.
  intros Hall Hc. induction Hall as [|d ds Hd _ IH]; [reflexivity|].
  simpl. rewrite IH, orb_false_r. apply bool_decide_eq_false_2, Hc, Hd.
Qed.

Lemma digit_not_dot (d : nat) : (d < 10)%nat -> digitChar d <> "."%char.
Proof.
  intros Hd. do 10 (destruct d as [|d]; [discriminate|]). lia.
Qed.

Lemma darwin_ten (out : string) (w : world) :
  os_platform h = "darwin" ->
  execSync h SW_VERS = Ok out ->
  productVersion out !! 0%nat = Some (Num 10) ->
  getHostPlatform h w =
    (Ok ("mac10." +:+ showOptNum (showDouble h) (productVersion out !! 1%nat)),
     World (fs w) (log w ++ [EvExec SW_VERS])).
Proof.
  intros Hos Hout Hm. unfold getHostPlatform. rewrite Hos.
  rewrite bool_decide_eq_true_2 by reflexivity.
  unfold mbind at 1. rewrite (exec_ok _ _ _ Hout). rewrite Hm.
  simpl default. simpl numGe. simpl numEq.
  change (showNum (showDouble h) (Num 10)) with "10".
  unfold mbind, ret. change (11 <=? 10) with false. cbv iota beta.
  rewrite !append_assoc, append_empty_r.
  reflexivity.
Qed.

(** C10: on darwin with major version 10 the only command that runs is the
    version query (the arm64 probe does not run) and the tag is [mac10.]
    followed by the rendering of the minor version, with no suffix.  When
    the product version is written [10.<minor>] or [10.<minor>.<more>], with
    a minor numeral of at most fifteen digits, the tag is [mac10.<minor>],
    digit by digit, and does not end with [-arm64]; when it is written [10]
    alone, the tag is [mac10.undefined]. *)
Theorem darwin_ten_no_probe (out : string) (w : world) :
  os_platform h = "darwin" ->
  execSync h SW_VERS = Ok out ->
  (productVersion out !! 0%nat = Some (Num 10) ->
   getHostPlatform h w =
     (Ok ("mac10." +:+ showOptNum (showDouble h) (productVersion out !! 1%nat)),
      World (fs w) (log w ++ [EvExec SW_VERS]))) /\
  (forall (minor : list nat) (tail : string),
     trim out = "10." +:+ digitString minor +:+ tail ->
     numeral minor -> (length minor <= 15)%nat ->
     tail = "" \/ (exists rest, tail = String "." rest) ->
     getHostPlatform h w =
       (Ok ("mac10." +:+ digitString minor), World (fs w) (log w ++ [EvExec SW_VERS])) /\
     endsWith "-arm64" ("mac10." +:+ digitString minor) = false) /\
  (trim out = "10" ->
   getHostPlatform h w = (Ok "mac10.undefined", World (fs w) (log w ++ [EvExec SW_VERS]))).
Proof.
  intros Hos Hout. split; [apply darwin_ten; assumption|]. split.
  - intros minor tail Htext Hnum Hlen Htail.
    pose proof Hnum as (Hne & Hall & _).
    assert (exists more, Js.split "." (trim out) = "10" :: digitString minor :: more)
      as [more Hsplit].
    { rewrite Htext. change ("10." +:+ digitString minor +:+ tail)
        with ("10" +:+ String "." (digitString minor +:+ tail)).
      rewrite split_first by reflexivity.
      destruct Htail as [-> | [rest ->]].
      - rewrite append_empty_r, split_no_separator; [eauto|].
        apply occurs_digits; [assumption|apply digit_not_dot].
      - rewrite split_first; [eauto|].
        apply occurs_digits; [assumption|apply digit_not_dot]. }
    split.
    + rewrite (darwin_ten out w Hos Hout).
      * unfold productVersion. rewrite Hsplit. simpl lookup.
        rewrite parseInt_digits by assumption. unfold showOptNum.
        rewrite showNum_digits by assumption. reflexivity.
      * unfold productVersion. rewrite Hsplit. reflexivity.
    + destruct (endsWith "-arm64" ("mac10." +:+ digitString minor)) eqn:E; [|reflexivity].
      apply (endsWith_occurs "r") in E; [|reflexivity].
      rewrite occurs_app, (occurs_digits "r" minor Hall) in E; [discriminate|].
      intros d Hd. apply digit_not_r, Hd.
  - intros Htext. rewrite (darwin_ten out w Hos Hout).
    + unfold productVersion. rewrite Htext. reflexivity.
    + unfold productVersion. rewrite Htext. reflexivity.
Qed.

Lemma getUbuntuVersionSync_linux (w : world) :
  os_platform h = "linux" ->
  getUbuntuVersionSync h w =
    (Ok match releaseText (fs w) with
        | Some text => if isEmpty text then "" else getUbuntuVersionInternal text
        | None => ""
        end, w).
Proof.
  intros Hos. unfold getUbuntuVersionSync. rewrite Hos.
  rewrite bool_decide_eq_true_2 by reflexivity.
  unfold releaseText, catch, mbind, Fs.existsAsync, getFs, ret, readFileSync,
    Fs.readFile, mbind, getFs, throw, ret.
  cbv beta iota delta [negb].
  destruct (Fs.exists_ (fs w) upstreamRelease).
  - destruct (Fs.lookupNode (fs w) upstreamRelease) as [[|c]|]; try reflexivity.
    destruct (isEmpty (utf8 c)); reflexivity.
  - destruct (Fs.lookupNode (fs w) osRelease) as [[|c]|]; try reflexivity.
    destruct (isEmpty (utf8 c)); reflexivity.
Qed.

(** *** The release file *)

Lemma split_join (sep : ascii) (parts : list string) :
  parts <> [] ->
  Forall (fun part => occurs sep part = false) parts ->
  Js.split sep (Js.join (String sep "") parts) = parts.
Proof.
  intros Hne Hall. induction Hall as [|part parts Hpart Hall IH]; [contradiction|].
  destruct parts as [|next parts].
  - simpl. apply split_no_separator, Hpart.
  - rewrite join_cons. change (String sep "" +:+ ?x) with (String sep x).
    rewrite split_first by exact Hpart. rewrite IH by discriminate. reflexivity.
Qed.

Lemma releaseLine_one_line (entry : string * option string) :
  releaseEntry entry -> occurs "010" (releaseLine entry) = false.
Proof.
  destruct entry as [name [raw|]]; unfold releaseEntry, releaseLine; simpl.
  - intros (_ & Hname & Hraw). rewrite occurs_app, Hname. simpl. exact Hraw.
  - intros (_ & Hname & _). exact Hname.
Qed.

Lemma setField_empty (fields : gmap string string) : setField fields "" = fields.
Proof. reflexivity. Qed.

Lemma fields_of_file (entries : list (string * option string)) :
  Forall releaseEntry entries ->
  foldl setField ∅ (Js.split "010" (releaseFile entries))
  = foldl setField ∅ (map releaseLine entries).
Proof.
  intros Hall. destruct entries as [|entry entries]; [reflexivity|].
  unfold releaseFile. rewrite split_join; [reflexivity|discriminate|].
  apply Forall_fmap. eapply Forall_impl; [exact Hall|].
  intros e He. apply releaseLine_one_line, He.
Qed.

Lemma trimEnd_keeps (s : string) (c : ascii) :
  isWhiteSpace c = false -> trimEnd (s +:+ String c "") = s +:+ String c "".
Proof.
  intros Hc. induction s as [|a s IH].
  - simpl. rewrite Hc. reflexivity.
  - rewrite append_cons. simpl. rewrite IH.
    destruct (s +:+ String c "") eqn:E; [destruct s; discriminate|reflexivity].
Qed.

Lemma substring_prefix (a b : string) : substring 0 (String.length a) (a +:+ b) = a.
Proof.
  induction a as [|c a IH]; simpl; [destruct b; reflexivity|].
  rewrite IH. reflexivity.
Qed.

Lemma substring_from (a b : string) (k : nat) :
  substring (String.length a) k (a +:+ b) = substring 0 k b.
Proof. induction a as [|c a IH]; [reflexivity|]. simpl. exact IH. Qed.

Lemma endsWith_last (a : string) (c : ascii) :
  endsWith (String c "") (a +:+ String c "") = true.
Proof.
  unfold endsWith. rewrite length_append. simpl String.length.
  apply andb_true_iff. split; [apply Nat.leb_le; lia|].
  apply bool_decide_eq_true_2.
  replace (String.length a + 1 - 1)%nat with (String.length a) by lia.
  rewrite substring_from. reflexivity.
Qed.

(** What the script keeps of the text after the equals sign. *)
Lemma written_value (raw v : string) :
  writes raw v ->
  (if startsWith (String dquote "") (trim raw) && endsWith (String dquote "") (trim raw)
   then jsSubstring 1 (Z.of_nat (String.length (trim raw)) - 1) (trim raw)
   else trim raw) = v.
Proof.
  intros ([-> | ->] & Hne & Htrim & Hopen).
  - rewrite Htrim, Hopen. reflexivity.
  - assert (trim (String dquote (v +:+ String dquote ""))
            = String dquote (v +:+ String dquote "")) as ->.
    { unfold trim. change (trimStart (String dquote ?x)) with (String dquote x).
      rewrite <- append_cons. apply trimEnd_keeps. reflexivity. }
    rewrite <- append_cons at 2. rewrite endsWith_last.
    change (startsWith (String dquote "") (String dquote (v +:+ String dquote ""))) with true.
    cbv iota. simpl andb. cbv iota.
    unfold jsSubstring. simpl String.length. rewrite length_append. simpl String.length.
    set (len := Z.of_nat (S (String.length v + 1))).
    assert (len = Z.of_nat (String.length v) + 2) as Hlen by (subst len; lia).
    replace (Z.to_nat (Z.min (Z.min (Z.max 1 0) len) (Z.min (Z.max (len - 1) 0) len)))
      with 1%nat by lia.
    replace (Z.to_nat (Z.max (Z.min (Z.max 1 0) len) (Z.min (Z.max (len - 1) 0) len)
                       - Z.min (Z.min (Z.max 1 0) len) (Z.min (Z.max (len - 1) 0) len)))
      with (String.length v) by lia.
    simpl substring. apply substring_prefix.
Qed.

Lemma setField_entry (fields : gmap string string) (entry : string * option string) :
  releaseEntry entry ->
  entry.1 <> "" ->
  exists value, setField fields (releaseLine entry) = <[toLowerCase entry.1 := value]> fields /\
                forall raw v, entry.2 = Some raw -> writes raw v -> value = v.
Proof.
  destruct entry as [name [raw|]]; unfold releaseEntry, releaseLine; simpl;
    intros (Hfree & _ & _) Hname; unfold setField.
  - rewrite (split_first "=" name raw Hfree), join_split.
    destruct name; [contradiction|]. cbn [isEmpty]. eexists. split; [reflexivity|].
    intros raw' v [= <-] Hwrites. apply written_value, Hwrites.
  - rewrite (split_no_separator "=" name Hfree).
    destruct name; [contradiction|]. eexists. split; [reflexivity|].
    intros raw v Hraw. discriminate.
Qed.

Lemma setField_other (fields : gmap string string) (entry : string * option string)
    (key : string) :
  releaseEntry entry ->
  toLowerCase entry.1 <> key ->
  setField fields (releaseLine entry) !! key = fields !! key.
Proof.
  intros Hentry Hkey. destruct (decide (entry.1 = "")) as [Hempty|Hname].
  - destruct entry as [name [raw|]]; simpl in *; subst; reflexivity.
  - destruct (setField_entry fields entry Hentry Hname) as (value & -> & _).
    apply lookup_insert_ne. exact Hkey.
Qed.

Lemma fields_silent (entries : list (string * option string)) (key : string) :
  Forall releaseEntry entries ->
  silent entries key ->
  forall fields, foldl setField fields (map releaseLine entries) !! key = fields !! key.
Proof.
  intros Hall Hsilent. induction Hall as [|entry entries Hentry _ IH]; intros fields;
    [reflexivity|].
  inversion Hsilent as [|? ? Hkey Hrest]; subst.
  simpl. rewrite (IH Hrest). apply setField_other; assumption.
Qed.

Lemma fields_declares (entries : list (string * option string)) (key v : string) :
  Forall releaseEntry entries ->
  key <> "" ->
  declares entries key v ->
  forall fields, foldl setField fields (map releaseLine entries) !! key = Some v.
Proof.
  intros Hall Hkey (before & name & raw & after & -> & Hname & Hwrites & Hafter) fields.
  apply Forall_app in Hall as [_ Hall]. inversion Hall as [|? ? Hentry Hrest]; subst.
  rewrite map_app, foldl_app. simpl.
  rewrite (fields_silent after _ Hrest Hafter).
  destruct (setField_entry (foldl setField fields (map releaseLine before))
              (name, Some raw) Hentry) as (value & -> & Hvalue).
  { simpl. intros ->. apply Hkey. reflexivity. }
  simpl. rewrite lookup_insert_eq. f_equal. apply (Hvalue raw v eq_refl Hwrites).
Qed.

Lemma truthy_declares (entries : list (string * option string)) (key v : string) :
  Forall releaseEntry entries ->
  key <> "" ->
  declares entries key v ->
  truthyField (foldl setField ∅ (map releaseLine entries)) key = Some v.
Proof.
  intros Hall Hkey Hdecl. unfold truthyField.
  rewrite (fields_declares _ _ _ Hall Hkey Hdecl).
  destruct Hdecl as (_ & _ & _ & _ & _ & _ & (_ & Hne & _) & _).
  destruct v; [contradiction|reflexivity].
Qed.

Lemma truthy_silent (entries : list (string * option string)) (key : string) :
  Forall releaseEntry entries ->
  silent entries key ->
  truthyField (foldl setField ∅ (map releaseLine entries)) key = None.
Proof.
  intros Hall Hsilent. unfold truthyField.
  rewrite (fields_silent _ _ Hall Hsilent). reflexivity.
Qed.

Lemma parseInt_leading (ds : list nat) (c : ascii) (rest : string) :
  ds <> [] -> Forall (fun d => (d < 10)%nat) ds -> digitOf c = None ->
  parseInt (digitString ds +:+ String c rest) = Num (digitsValue ds).
Proof.
  intros Hne Hall Hc.
  assert (forall l, Forall (fun d => (d < 10)%nat) l ->
            forall acc, digitsFrom (Some acc) (digitString l +:+ String c rest)
                        = Some (foldl (fun a d => 10 * a + Z.of_nat d) acc l)) as Hrun.
  { induction 1 as [|d l Hd _ IH]; intros acc.
    - simpl. rewrite Hc. reflexivity.
    - simpl. rewrite (digitOf_digitChar d Hd). apply IH. }
  destruct ds as [|d ds]; [contradiction|].
  inversion Hall as [|? ? Hd Hrest]; subst.
  simpl digitString. rewrite append_cons, parseInt_unsigned.
  - simpl digitsFrom. rewrite (digitOf_digitChar d Hd), (Hrun ds Hrest). reflexivity.
  - do 10 (destruct d as [|d]; [reflexivity|]). lia.
  - do 10 (destruct d as [|d]; [discriminate|]). lia.
  - do 10 (destruct d as [|d]; [discriminate|]). lia.
Qed.

(** C6: on linux the version is read from the release file, without failing
    and without touching the world.  For a release file given by its lines,
    the version is the value of the last [VERSION_ID] line when the last
    [NAME] line says Ubuntu, in whatever case, and no line is named
    [DISTRIB_ID]; it is the value of the last [DISTRIB_RELEASE] line when the
    last [DISTRIB_ID] line says Ubuntu; it is empty when the release file
    names another distribution or none, cannot be read or is empty.  The tag
    is [ubuntu18.04] when the version starts with a number that is at most
    19, and [ubuntu20.04] in every other case: a larger number, and a version
    that is empty or starts with no number. *)
Theorem linux_bucket (w : world) :
  os_platform h = "linux" ->
  exists version,
    getUbuntuVersionSync h w = (Ok version, w) /\
    (forall entries,
       releaseText (fs w) = Some (releaseFile entries) ->
       Forall releaseEntry entries ->
       (forall id v,
          declares entries "distrib_id" id -> toLowerCase id = "ubuntu" ->
          declares entries "distrib_release" v -> version = v) /\
       (forall name v,
          silent entries "distrib_id" ->
          declares entries "name" name -> toLowerCase name = "ubuntu" ->
          declares entries "version_id" v -> version = v) /\
       (forall name,
          silent entries "distrib_id" ->
          declares entries "name" name -> toLowerCase name <> "ubuntu" ->
          version = "") /\
       (silent entries "distrib_id" -> silent entries "name" -> version = "")) /\
    (releaseText (fs w) = None -> version = "") /\
    (releaseText (fs w) = Some "" -> version = "") /\
    (forall (ds : list nat) (rest : string),
       version = digitString ds \/
       (exists c, version = digitString ds +:+ String c rest /\ digitOf c = None) ->
       ds <> [] -> Forall (fun d => (d < 10)%nat) ds ->
       getHostPlatform h w =
         (Ok (if digitsValue ds <=? 19 then "ubuntu18.04" else "ubuntu20.04"), w)) /\
    (parseInt version = NaN -> getHostPlatform h w = (Ok "ubuntu20.04", w)) /\
    (version = "" -> getHostPlatform h w = (Ok "ubuntu20.04", w)).
Proof.
  intros Hos. eexists. split; [apply getUbuntuVersionSync_linux, Hos|].
  assert (forall v, getUbuntuVersionSync h w = (Ok v, w) ->
            getHostPlatform h w =
              ((if numLe (parseInt v) 19 then Ok "ubuntu18.04" else Ok "ubuntu20.04"), w))
    as Htag.
  { intros v Hv. unfold getHostPlatform. rewrite Hos.
    rewrite bool_decide_eq_false_2 by discriminate.
    rewrite bool_decide_eq_true_2 by reflexivity.
    unfold mbind. rewrite Hv. destruct (numLe (parseInt v) 19); reflexivity. }
  pose proof (Htag _ (getUbuntuVersionSync_linux w Hos)) as Hrun. clear Htag.
  revert Hrun. generalize (getHostPlatform h w). intros r Hrun.
  split; [|split; [|split; [|split; [|split]]]].
  - intros entries -> Hall.
    assert ((if isEmpty (releaseFile entries) then ""
             else getUbuntuVersionInternal (releaseFile entries))
            = getUbuntuVersionInternal (releaseFile entries)) as ->.
    { destruct (releaseFile entries) eqn:E; reflexivity. }
    unfold getUbuntuVersionInternal. rewrite (fields_of_file entries Hall).
    unfold isUbuntu. split; [|split; [|split]].
    + intros id v Hid Hubuntu Hv.
      rewrite (truthy_declares _ "distrib_id" _ Hall ltac:(discriminate) Hid).
      rewrite bool_decide_eq_true_2 by exact Hubuntu.
      rewrite (truthy_declares _ "distrib_release" _ Hall ltac:(discriminate) Hv).
      reflexivity.
    + intros name v Hnone Hname Hubuntu Hv.
      rewrite (truthy_silent _ _ Hall Hnone).
      rewrite (truthy_declares _ "name" _ Hall ltac:(discriminate) Hname).
      rewrite bool_decide_eq_true_2 by exact Hubuntu.
      rewrite (truthy_declares _ "version_id" _ Hall ltac:(discriminate) Hv).
      reflexivity.
    + intros name Hnone Hname Hother.
      rewrite (truthy_silent _ _ Hall Hnone).
      rewrite (truthy_declares _ "name" _ Hall ltac:(discriminate) Hname).
      rewrite bool_decide_eq_false_2 by exact Hother. reflexivity.
    + intros Hnone Hname.
      rewrite (truthy_silent _ _ Hall Hnone), (truthy_silent _ _ Hall Hname).
      reflexivity.
  - intros ->. reflexivity.
  - intros ->. reflexivity.
  - intros ds rest Hversion Hne Hall. rewrite Hrun.
    assert (parseInt match releaseText (fs w) with
                     | Some text => if isEmpty text then "" else getUbuntuVersionInternal text
                     | None => ""
                     end = Num (digitsValue ds)) as ->.
    { destruct Hversion as [-> | (c & -> & Hc)].
      - apply parseInt_digits; assumption.
      - apply parseInt_leading; assumption. }
    simpl. destruct (digitsValue ds <=? 19); reflexivity.
  - intros Hnan. rewrite Hrun, Hnan. reflexivity.
  - intros Hempty. rewrite Hrun, Hempty. reflexivity.
Qed.

End PlatformFacts.

Lemma darwin_arm64_and_clamp_witness :
  (Platform.getHostPlatform (Sample.mac "11.2.3" "1") Sample.emptyWorld).1
    = Ok "mac11-arm64" /\
  (Platform.getHostPlatform (Sample.mac "13.0" "0") Sample.emptyWorld).1
    = Ok "mac11".
Proof.
  split.
  - apply (proj1 (darwin_arm64_and_clamp (Sample.mac "11.2.3" "1") "11.2.3" "1" 11
                    Sample.emptyWorld eq_refl eq_refl eq_refl eq_refl));
      reflexivity.
  - apply (proj2 (darwin_arm64_and_clamp (Sample.mac "13.0" "0") "13.0" "0" 13
                    Sample.emptyWorld eq_refl eq_refl eq_refl eq_refl)).
    lia.
Defined.

Lemma darwin_ten_no_probe_witness :
  Platform.getHostPlatform (Sample.mac "10.15.7" "1") Sample.emptyWorld
    = (Ok "mac10.15", World ∅ [EvExec Platform.SW_VERS]).
Proof.
  apply (proj1 (proj2 (darwin_ten_no_probe (Sample.mac "10.15.7" "1") "10.15.7"
                         Sample.emptyWorld eq_refl eq_refl)) [1; 5]%nat ".7" eq_refl).
  - split; [discriminate|]. split; [repeat constructor|discriminate].
  - simpl. lia.
  - right. eauto.
Defined.

Lemma bionic_release :
  Platform.releaseText (fs Sample.bionic)
  = Some (Platform.releaseFile
            [ ("NAME", Some (String dquote ("Ubuntu" +:+ String dquote "")));
              ("VERSION_ID", Some (String dquote ("18.04" +:+ String dquote "")));
              ("ID", Some "ubuntu") ]).
Proof. vm_compute. reflexivity. Qed.

Lemma linux_bucket_witness :
  Platform.getHostPlatform (Sample.linux Sample.offline) Sample.bionic
    = (Ok "ubuntu18.04", Sample.bionic).
Proof.
  destruct (linux_bucket (Sample.linux Sample.offline) Sample.bionic eq_refl)
    as (version & _ & Htext & _ & _ & Htag & _).
  destruct (Htext _ bionic_release) as (_ & Hversion & _).
  { repeat constructor. }
  apply (Htag [1; 8]%nat "04").
  - right. exists "."%char. split; [|reflexivity].
    apply (Hversion "Ubuntu").
    + repeat constructor; discriminate.
    + exists [], "NAME", (String dquote ("Ubuntu" +:+ String dquote "")),
        [ ("VERSION_ID", Some (String dquote ("18.04" +:+ String dquote "")));
          ("ID", Some "ubuntu") ].
      split; [reflexivity|]. split; [reflexivity|].
      split; [split; [right; reflexivity|split; [discriminate|split; reflexivity]]|].
      repeat constructor; discriminate.
    + reflexivity.
    + exists [ ("NAME", Some (String dquote ("Ubuntu" +:+ String dquote ""))) ],
        "VERSION_ID", (String dquote ("18.04" +:+ String dquote "")),
        [ ("ID", Some "ubuntu") ].
      split; [reflexivity|]. split; [reflexivity|].
      split; [split; [right; reflexivity|split; [discriminate|split; reflexivity]]|].
      repeat constructor; discriminate.
  - discriminate.
  - repeat constructor.
Defined.

(** ** Download *)

Section HttpFacts.
Import Http.
Variable h : host.

Lemma startsWith_append (p s : string) : startsWith p (p +:+ s) = true.
Proof.
  induction p as [|c p IH]; [reflexivity|].
  rewrite append_cons. simpl. destruct (ascii_dec c c); [assumption|congruence].
Qed.

Lemma includes_append (p a b : string) : includes p (a +:+ p +:+ b) = true.
Proof.
  induction a as [|c a IH].
  - change ("" +:+ p +:+ b) with (p +:+ b).
    destruct (p +:+ b) eqn:E; simpl; rewrite <- E, startsWith_append; reflexivity.
  - rewrite append_cons. simpl. rewrite IH. apply orb_true_r.
Qed.

Lemma redirectTarget_hop (res : response) (l : string) :
  300 <= statusCode res < 400 -> location res = Some l -> l <> "" ->
  redirectTarget res = Some l.
Proof.
  intros [Hlo Hhi] Hl Hne. unfold redirectTarget.
  destruct (Z.leb_spec 300 (statusCode res)); [|lia].
  destruct (Z.ltb_spec (statusCode res) 400); [|lia].
  simpl. rewrite Hl. destruct l; [congruence|reflexivity].
Qed.

Lemma redirectTarget_200 (res : response) :
  statusCode res = 200 -> redirectTarget res = None.
Proof. intros H. unfold redirectTarget. rewrite H. reflexivity. Qed.

(** Following a chain takes one request per URL and hands the last response
    to the callback, whatever the length of the chain. *)
Lemma httpRequest_reaches (url : string) (hops : list string) (res : response) :
  reaches h url hops res ->
  redirectTarget res = None ->
  forall (fuel : nat) (first : bool) (w : world),
    (length hops < fuel)%nat ->
    httpRequest fuel h first url w =
      (Ok (res, None), World (fs w) (log w ++ requests (url :: hops))).
Proof.
  intros Hchain Hend.
  induction Hchain as [url res Hget | url l redirect hops res Hget Hst Hloc Hne _ IH];
    intros fuel first w Hfuel.
  - destruct fuel as [|fuel]; [simpl in Hfuel; lia|].
    simpl. unfold mbind, emit. rewrite Hget, Hend. reflexivity.
  - destruct fuel as [|fuel]; [simpl in Hfuel; lia|].
    simpl. unfold mbind at 1. unfold emit.
    rewrite Hget, (redirectTarget_hop _ _ Hst Hloc Hne).
    rewrite (IH Hend fuel false _ ltac:(simpl in Hfuel; lia)).
    simpl fs. simpl log. rewrite <- app_assoc. reflexivity.
Qed.

Lemma downloadFile_200 (url : string) (hops : list string)
    (res : response) (destinationPath : path) (fuel : nat) (w : world) :
  reaches h url hops res ->
  statusCode res = 200 ->
  (length hops < fuel)%nat ->
  Fs.isDir (fs w) destinationPath = false ->
  Fs.isDir (fs w) (dirname destinationPath) = true ->
  downloadFile fuel h url destinationPath w =
    (Ok tt,
     World (<[destinationPath := File (body res)]> (fs w))
           (log w ++ requests (url :: hops) ++ [EvCreateWriteStream destinationPath])).
Proof.
  intros Hchain H200 Hfuel Hfile Hparent.
  unfold downloadFile, mbind at 1.
  rewrite (httpRequest_reaches _ _ _ Hchain (redirectTarget_200 _ H200) fuel true w Hfuel).
  cbv beta zeta. cbn [fst snd].
  rewrite H200. change (negb (200 =? 200)) with false. cbv iota.
  rewrite seq_emit, putFile_ok by assumption.
  simpl fs. simpl log. rewrite <- app_assoc. reflexivity.
Qed.

(** C3: when the responses to [url] are a chain of redirects that ends in a
    200 response, of any length, [downloadFile] issues one request per
    location of the chain and then writes the body of the 200 response,
    unchanged, to the destination (which has to be creatable: its parent is a
    directory and it is not one itself). *)
Theorem download_follows_redirects (url : string) (hops : list string)
    (res : response) (destinationPath : path) (fuel : nat) (w : world) :
  reaches h url hops res ->
  statusCode res = 200 ->
  (length hops < fuel)%nat ->
  Fs.isDir (fs w) destinationPath = false ->
  Fs.isDir (fs w) (dirname destinationPath) = true ->
  exists w',
    downloadFile fuel h url destinationPath w = (Ok tt, w') /\
    fs w' !! destinationPath = Some (File (body res)) /\
    (forall p, p <> destinationPath -> fs w' !! p = fs w !! p) /\
    log w' = log w ++ requests (url :: hops) ++ [EvCreateWriteStream destinationPath].
Proof.
  intros Hchain H200 Hfuel Hfile Hparent.
  eexists. split; [apply downloadFile_200; eassumption|].
  simpl. split; [apply lookup_insert_eq|].
  split; [|reflexivity].
  intros p Hp. apply lookup_insert_ne. congruence.
Qed.

(** C7: when the chain ends in a response that is no redirect and whose
    status is not 200, [downloadFile] drains the response, leaves the file
    system as it was (no write stream is created), and fails with the message
    that names the status code and the URL. *)
Theorem download_fails_on_status (url : string) (hops : list string)
    (res : response) (destinationPath : path) (fuel : nat) (w : world) :
  reaches h url hops res ->
  redirectTarget res = None ->
  statusCode res <> 200 ->
  (length hops < fuel)%nat ->
  let msg := failureMessage (statusCode res) url in
  downloadFile fuel h url destinationPath w =
    (Throw (Error msg),
     World (fs w) (log w ++ requests (url :: hops) ++ [EvResume url])) /\
  includes (showZ (statusCode res)) msg = true /\
  includes url msg = true.
Proof.
  intros Hchain Hend Hst Hfuel msg. split; [|split].
  - unfold downloadFile, mbind at 1.
    rewrite (httpRequest_reaches _ _ _ Hchain Hend fuel true w Hfuel).
    cbv beta zeta. cbn [fst snd].
    destruct (Z.eqb_spec (statusCode res) 200); [contradiction|].
    change (negb false) with true. cbv iota. rewrite seq_emit. unfold throw. simpl fs. simpl log.
    rewrite <- app_assoc. reflexivity.
  - apply includes_append.
  - assert (msg = ("Download failed: server returned code " +:+
                   showZ (statusCode res) +:+ ". URL: ") +:+ url +:+ "") as ->.
    { unfold msg, failureMessage.
      rewrite !append_assoc, append_empty_r. reflexivity. }
    apply includes_append.
Qed.

End HttpFacts.

Lemma mirror_chain (payload : content) :
  Http.reaches (Sample.linux (Sample.mirror payload)) "http://a/"
    ["https://b/"; "https://c/"] (Response 200 None (Some "3") payload).
Proof.
  eapply Http.reaches_hop; [reflexivity | simpl; lia | reflexivity | discriminate |].
  eapply Http.reaches_hop; [reflexivity | simpl; lia | reflexivity | discriminate |].
  apply Http.reaches_here. reflexivity.
Defined.

Lemma download_follows_redirects_witness :
  exists w',
    Http.downloadFile 3 (Sample.linux (Sample.mirror (Text "zip"))) "http://a/"
      ["tmp"; "firefox.zip"] Sample.tmpWorld = (Ok tt, w') /\
    fs w' !! ["tmp"; "firefox.zip"] = Some (File (Text "zip")) /\
    log w' = [ EvHttpRequest false "http://a/"; EvHttpRequest true "https://b/";
               EvHttpRequest true "https://c/";
               EvCreateWriteStream ["tmp"; "firefox.zip"] ].
Proof.
  destruct (download_follows_redirects (Sample.linux (Sample.mirror (Text "zip")))
              "http://a/" ["https://b/"; "https://c/"]
              (Response 200 None (Some "3") (Text "zip"))
              ["tmp"; "firefox.zip"] 3 Sample.tmpWorld (mirror_chain (Text "zip"))
              eq_refl ltac:(simpl; lia) eq_refl eq_refl)
    as (w' & Hrun & Hfile & _ & Hlog).
  exists w'. split; [exact Hrun|]. split; [exact Hfile | exact Hlog].
Defined.

Lemma download_fails_on_status_witness :
  Http.downloadFile 1 (Sample.linux (Sample.mirror (Text "zip"))) "http://d/"
    ["tmp"; "firefox.zip"] Sample.tmpWorld =
  (Throw (Error "Download failed: server returned code 404. URL: http://d/"),
   World (fs Sample.tmpWorld) [ EvHttpRequest false "http://d/"; EvResume "http://d/" ]).
Proof.
  apply (download_fails_on_status (Sample.linux (Sample.mirror (Text "zip")))
           "http://d/" [] (Response 404 None None (Text "not found"))
           ["tmp"; "firefox.zip"] 1 Sample.tmpWorld).
  - apply Http.reaches_here. reflexivity.
  - reflexivity.
  - discriminate.
  - simpl. lia.
Defined.

(** ** Choice of the archive *)

Section TargetFacts.
Import Patcher.
Variable h : host.

Lemma open_archive (p : path) (w : world) :
  isArchive (fs w) p = true ->
  exists s entries,
    Fs.lookupNode (fs w) p = Some (File (Zip s entries)) /\
    Archive.open p w = (Ok entries, w).
Proof.
  unfold isArchive, Archive.open, mbind, Fs.readFile, mbind, getFs.
  destruct (Fs.lookupNode (fs w) p) as [[|[t|t v|s entries]]|]; try discriminate.
  intros _. exists s, entries. split; reflexivity.
Qed.

Lemma jugglerIn_archive (f : gmap path node) (p : path) :
  jugglerIn h f p = true -> isArchive f p = true.
Proof.
  unfold jugglerIn, isArchive.
  destruct (Fs.lookupNode f p) as [[|[t|t v|s entries]]|]; congruence.
Qed.

Lemma findOmni_skip (p : path) (rest : list path) (w : world) :
  isArchive (fs w) p = true ->
  jugglerIn h (fs w) p = false ->
  findOmniWithJuggler h (p :: rest) w = findOmniWithJuggler h rest w.
Proof.
  intros Hzip Hno. destruct (open_archive p w Hzip) as (s & entries & Hnode & Hopen).
  simpl. rewrite (bind_ok _ _ _ _ _ Hopen).
  unfold jugglerIn in Hno. rewrite Hnode in Hno. rewrite Hno. reflexivity.
Qed.

Lemma findOmni_none (omniPaths : list path) (w : world) :
  Forall (fun p => isArchive (fs w) p = true) omniPaths ->
  Forall (fun p => jugglerIn h (fs w) p = false) omniPaths ->
  findOmniWithJuggler h omniPaths w = (Ok None, w).
Proof.
  induction omniPaths as [|p rest IH]; intros Hzip Hno; [reflexivity|].
  inversion Hzip; inversion Hno; subst.
  rewrite findOmni_skip by assumption. apply IH; assumption.
Qed.

Lemma findOmni_first (before after : list path) (p : path) (w : world) :
  Forall (fun q => isArchive (fs w) q = true) before ->
  Forall (fun q => jugglerIn h (fs w) q = false) before ->
  jugglerIn h (fs w) p = true ->
  findOmniWithJuggler h (before ++ p :: after) w = (Ok (Some p), w).
Proof.
  induction before as [|q before IH]; intros Hzip Hno Hyes.
  - destruct (open_archive p w (jugglerIn_archive _ _ Hyes))
      as (s & entries & Hnode & Hopen).
    simpl. rewrite (bind_ok _ _ _ _ _ Hopen).
    unfold jugglerIn in Hyes. rewrite Hnode in Hyes. rewrite Hyes. reflexivity.
  - inversion Hzip; inversion Hno; subst.
    change ((q :: before) ++ p :: after) with (q :: before ++ p :: after).
    rewrite findOmni_skip by assumption. apply IH; assumption.
Qed.

Lemma listFiles_walk (aPath : path) (files : list path) (w : world) :
  walk (size (fs w)) (fs w) aPath = Some files ->
  listFiles h aPath w = (Ok (walkOrder h files), w).
Proof.
  intros Hwalk. unfold listFiles, mbind, getFs. rewrite Hwalk. reflexivity.
Qed.

Lemma repackage_select (name : string) (buildInfo : json) (files : list path)
    (w : world) :
  buildInfo <> JNull ->
  listFiles h (BUILD_DIRECTORY h) w = (Ok files, w) ->
  repackageJuggler h name buildInfo w =
    (let* target := findOmniWithJuggler h (omniPathsOf files) in
     match target with
     | None => exit 1
     | Some target => patch h name (platformOf buildInfo) target
     end) w.
Proof.
  intros Hinfo Hlist. unfold repackageJuggler, platformOf, stringProp.
  assert (exists x y, BuildCache.getProp buildInfo "buildNumber" = Ok x /\
                      BuildCache.getProp buildInfo "buildPlatform" = Ok y)
    as (x & y & -> & ->).
  { destruct buildInfo; try contradiction; simpl; eauto. }
  unfold Js.bind.
  assert (forall (o : option json) (r : option string),
            BuildCache.liftResult
              match o with Some (JStr s) => Ok (Some s) | _ => Ok None end w
            = (Ok match o with Some (JStr s) => Some s | _ => None end, w)) as Hlift.
  { intros [[]|] _; reflexivity. }
  rewrite (bind_ok _ _ _ _ _ (Hlift x None)).
  rewrite (bind_ok _ _ _ _ _ (Hlift y None)).
  rewrite (bind_ok _ _ _ _ _ Hlist).
  destruct y as [[]|]; reflexivity.
Qed.

Lemma jugglerIn_names (f : gmap path node) (p : path) :
  (forall e, includes "chrome/juggler" (entryToString h e)
             = includes "chrome/juggler" e.1) ->
  jugglerIn h f p = namesJuggler f p.
Proof.
  intros Hrender. unfold jugglerIn, namesJuggler, hasJuggler.
  destruct (Fs.lookupNode f p) as [[|[t|t v|s entries]]|]; try reflexivity.
  induction entries as [|e entries IH]; [reflexivity|].
  simpl. rewrite Hrender, IH. reflexivity.
Qed.

(** C8: the archive that [repackageJuggler] patches is the first of the
    enumerated files named [*omni.ja] that has an entry whose name includes
    [chrome/juggler]: the candidates before it are opened and have no such
    entry, and those after it are not opened.  When every candidate is an
    archive without such an entry, the script exits with status 1 and leaves
    the world as it was.  The files are those that the walk of the stage
    directory finds, in the order in which it completes.  What the code
    tests is the rendering [zipEntry.toString()] of an entry, which shows its
    name: the rendering is taken to include [chrome/juggler] exactly when the
    name does. *)
Theorem target_is_first_with_juggler (name : string) (buildInfo : json)
    (found : list path) (w : world) :
  (forall e, includes "chrome/juggler" (entryToString h e)
             = includes "chrome/juggler" e.1) ->
  buildInfo <> JNull ->
  walk (size (fs w)) (fs w) (BUILD_DIRECTORY h) = Some found ->
  let omniPaths := omniPathsOf (walkOrder h found) in
  (forall before target after,
     omniPaths = before ++ target :: after ->
     Forall (fun p => isArchive (fs w) p = true) before ->
     Forall (fun p => namesJuggler (fs w) p = false) before ->
     namesJuggler (fs w) target = true ->
     findOmniWithJuggler h omniPaths w = (Ok (Some target), w) /\
     repackageJuggler h name buildInfo w =
       patch h name (platformOf buildInfo) target w) /\
  (Forall (fun p => isArchive (fs w) p = true) omniPaths ->
   Forall (fun p => namesJuggler (fs w) p = false) omniPaths ->
   findOmniWithJuggler h omniPaths w = (Ok None, w) /\
   repackageJuggler h name buildInfo w = (Exit 1, w)).
Proof.
  intros Hrender Hinfo Hwalk omniPaths.
  pose proof (listFiles_walk _ _ _ Hwalk) as Hlist.
  assert (forall l, Forall (fun p => namesJuggler (fs w) p = false) l ->
                    Forall (fun p => jugglerIn h (fs w) p = false) l) as Hnone.
  { intros l Hl. eapply Forall_impl; [exact Hl|].
    intros p Hp. simpl. rewrite (jugglerIn_names _ _ Hrender). exact Hp. }
  split.
  - intros before target after Hsplit Hzip Hno Hyes.
    rewrite (repackage_select name buildInfo _ w Hinfo Hlist).
    fold omniPaths.
    assert (findOmniWithJuggler h omniPaths w = (Ok (Some target), w)) as Hfind.
    { rewrite Hsplit. apply findOmni_first; [assumption|apply Hnone, Hno|].
      rewrite (jugglerIn_names _ _ Hrender). exact Hyes. }
    split; [assumption|]. rewrite (bind_ok _ _ _ _ _ Hfind). reflexivity.
  - intros Hzip Hno.
    rewrite (repackage_select name buildInfo _ w Hinfo Hlist).
    fold omniPaths.
    pose proof (findOmni_none _ w Hzip (Hnone _ Hno)) as Hfind.
    split; [assumption|]. rewrite (bind_ok _ _ _ _ _ Hfind). reflexivity.
Qed.

End TargetFacts.

Lemma target_is_first_with_juggler_witness :
  Patcher.repackageJuggler (Sample.linux Sample.offline) "firefox"
    (BuildCache.descriptor "1234" "ubuntu20.04" "firefox") Sample.staged =
  Patcher.patch (Sample.linux Sample.offline) "firefox" (Some "ubuntu20.04")
    ["tmp"; "repackaged-firefox"; "firefox"; "omni.ja"] Sample.staged.
Proof.
  refine (proj2 (proj1 (target_is_first_with_juggler (Sample.linux Sample.offline)
                          "firefox" (BuildCache.descriptor "1234" "ubuntu20.04" "firefox")
                          [ ["tmp"; "repackaged-firefox"; "firefox"; "firefox"];
                            ["tmp"; "repackaged-firefox"; "firefox"; "browser"; "omni.ja"];
                            ["tmp"; "repackaged-firefox"; "firefox"; "omni.ja"];
                            ["tmp"; "repackaged-firefox"; "build-info.json"] ]
                          Sample.staged _ _ _)
                   [ ["tmp"; "repackaged-firefox"; "firefox"; "browser"; "omni.ja"] ]
                   ["tmp"; "repackaged-firefox"; "firefox"; "omni.ja"] [] _ _ _ _)).
  - intros e. reflexivity.
  - discriminate.
  - vm_compute. reflexivity.
  - vm_compute. reflexivity.
  - apply Forall_test. vm_compute. reflexivity.
  - apply Forall_test. vm_compute. reflexivity.
  - vm_compute. reflexivity.
Defined.

(** ** The manifest *)

Section ManifestFacts.
Import Patcher.

Lemma slice_withoutEnds (s : string) : Js.slice 1 (-1) s = withoutEnds s.
Proof.
  unfold Js.slice, withoutEnds, sliceIndex.
  change (1 <? 0) with false. change (-1 <? 0) with true. cbv iota.
  destruct (String.length s) as [|[|k]] eqn:E.
  - destruct s; [reflexivity|discriminate].
  - destruct s as [|a [|b s]]; try discriminate. reflexivity.
  - replace (Z.to_nat (Z.min 1 (Z.of_nat (S (S k))))) with 1%nat by lia.
    f_equal. lia.
Qed.

Lemma jarLines_spec (jarmn line : string) :
  line ∈ jarLines jarmn <->
  exists raw, raw ∈ Js.split "010" jarmn /\ line = trim raw /\
              startsWith "content/" line = true /\ endsWith ")" line = true.
Proof.
  unfold jarLines. rewrite list_elem_of_filter, list_elem_of_fmap. split.
  - intros [Hkeep (raw & -> & Hraw)]. apply Is_true_true, andb_true_iff in Hkeep.
    exists raw. tauto.
  - intros (raw & Hraw & -> & Hs & He). split.
    + apply Is_true_true, andb_true_iff. tauto.
    + exists raw. tauto.
Qed.

Lemma splitWs_one_token (line : string) :
  Forall (fun c => isWhiteSpace c = false) (list_ascii_of_string line) ->
  splitWs line = [line].
Proof.
  unfold splitWs. induction line as [|c line IH]; [reflexivity|].
  simpl. intros Hall. inversion Hall as [|? ? Hc Hrest]; subst.
  rewrite Hc, (IH Hrest). reflexivity.
Qed.

Lemma splitWsFrom_cons (s : string) :
  forall inWs, exists first rest, splitWsFrom inWs s = first :: rest.
Proof.
  induction s as [|c s IH]; intros inWs; simpl; [eauto|].
  destruct (isWhiteSpace c).
  - destruct inWs; [apply IH|eauto].
  - destruct (IH false) as (first & rest & ->). eauto.
Qed.

Lemma splitWs_word (a : string) :
  Forall (fun c => isWhiteSpace c = false) (list_ascii_of_string a) ->
  forall (inWs : bool) (x first : string) (rest : list string),
    a <> "" \/ inWs = false ->
    splitWsFrom false x = first :: rest ->
    splitWsFrom inWs (a +:+ x) = (a +:+ first) :: rest.
Proof.
  induction a as [|c a IH]; intros Hall inWs x first rest Hstart Hx.
  - destruct Hstart as [? | ->]; [contradiction|]. exact Hx.
  - inversion Hall as [|? ? Hc Hrest]; subst.
    rewrite !append_cons. simpl. rewrite Hc.
    rewrite (IH Hrest false x first rest (or_intror eq_refl) Hx). reflexivity.
Qed.

Lemma splitWs_gap (gap : string) :
  Forall (fun c => isWhiteSpace c = true) (list_ascii_of_string gap) ->
  forall x, splitWsFrom true (gap +:+ x) = splitWsFrom true x.
Proof.
  induction gap as [|c gap IH]; intros Hall x; [reflexivity|].
  inversion Hall as [|? ? Hc Hrest]; subst.
  rewrite append_cons. simpl. rewrite Hc. apply IH, Hrest.
Qed.

Lemma chars_app (a b : string) :
  list_ascii_of_string (a +:+ b) = list_ascii_of_string a ++ list_ascii_of_string b.
Proof. induction a as [|c a IH]; [reflexivity|]. simpl. rewrite IH. reflexivity. Qed.

Lemma copyLine_entry (line to src : string) :
  copyLine line to src -> jarEntry line = Ok (to, src).
Proof.
  intros (gap & opening & closing & more & -> & Hto & Hgap & Hws & Hopen & Hsrc
          & Hclose & Hmore).
  assert (exists rest, splitWsFrom false more = "" :: rest) as [rest Hrest].
  { destruct Hmore as [-> | (c & tail & -> & Hc)]; simpl; [eauto|].
    rewrite Hc. eauto. }
  assert (splitWsFrom true (String opening (src +:+ String closing "") +:+ more)
          = String opening (src +:+ String closing "") :: rest) as Htoken.
  { assert (Forall (fun c => isWhiteSpace c = false)
              (list_ascii_of_string (String opening (src +:+ String closing ""))))
      as Htok.
    { simpl. constructor; [exact Hopen|]. rewrite chars_app. apply Forall_app.
      split; [exact Hsrc|]. constructor; [exact Hclose|constructor]. }
    rewrite (splitWs_word _ Htok true more "" rest); [|left; discriminate|exact Hrest].
    rewrite append_empty_r. reflexivity. }
  destruct gap as [|g gap]; [contradiction|].
  inversion Hws as [|? ? Hg Hgaps]; subst.
  unfold jarEntry, splitWs.
  rewrite (splitWs_word to Hto false _ ""
             (String opening (src +:+ String closing "") :: rest) (or_intror eq_refl)).
  - rewrite append_empty_r, slice_withoutEnds. unfold withoutEnds.
    simpl String.length. rewrite length_append. simpl String.length.
    replace (S (String.length src + 1) - 2)%nat with (String.length src) by lia.
    simpl substring. rewrite substring_prefix. reflexivity.
  - rewrite append_cons. simpl. rewrite Hg.
    rewrite (splitWs_gap gap Hgaps), Htoken. reflexivity.
Qed.

End ManifestFacts.

(** ** Build cache *)

Section BuildCacheFacts.
Import BuildCache.
Variable h : host.

Lemma segments_whole (backslash : bool) (seg : string) :
  occurs "/" seg = false -> occurs "\" seg = false ->
  Path.segments backslash seg = [seg].
Proof.
  induction seg as [|c seg IH]; [reflexivity|]. simpl.
  intros [Hc Hs]%orb_false_iff [Hc' Hs']%orb_false_iff.
  unfold isSeparator. rewrite Hc, Hc'. simpl.
  rewrite (IH Hs Hs'). reflexivity.
Qed.

Lemma join_cons_plain (base : path) (seg : string) (parts : list string) :
  occurs "/" seg = false -> occurs "\" seg = false ->
  seg <> "" -> seg <> "." -> seg <> ".." ->
  pathJoin h base (seg :: parts) = pathJoin h (base ++ [seg]) parts.
Proof.
  intros Hslash Hback H1 H2 H3. unfold pathJoin, Path.join.
  cbn [flat_map]. rewrite segments_whole by assumption.
  cbn [app foldl]. unfold pushSegment at 2.
  rewrite !bool_decide_eq_false_2 by assumption. reflexivity.
Qed.

Lemma join_one (base : path) (seg : string) :
  occurs "/" seg = false -> occurs "\" seg = false ->
  seg <> "" -> seg <> "." -> seg <> ".." ->
  pathJoin h base [seg] = base ++ [seg].
Proof.
  intros Hslash Hback H1 H2 H3. rewrite join_cons_plain by assumption. reflexivity.
Qed.

Lemma BUILD_DIRECTORY_snoc :
  exists parent name, BUILD_DIRECTORY h = parent ++ [name].
Proof.
  unfold BUILD_DIRECTORY. destruct (bool_decide (os_platform h = "win32")).
  - exists (scriptDir h), "__repackaged_firefox__". apply join_one; done.
  - exists ["tmp"], "repackaged-firefox". reflexivity.
Qed.

Lemma BUILD_INFO_PATH_eq : BUILD_INFO_PATH h = BUILD_DIRECTORY h ++ ["build-info.json"].
Proof. apply join_one; done. Qed.

Lemma zip_path_eq :
  pathJoin h (BUILD_DIRECTORY h) ["firefox.zip"] = BUILD_DIRECTORY h ++ ["firefox.zip"].
Proof. apply join_one; done. Qed.

Lemma dirname_snoc (p : path) (x : string) : dirname (p ++ [x]) = p.
Proof. apply removelast_last. Qed.

Lemma lookupNode_snoc (f : gmap path node) (p : path) (x : string) :
  Fs.lookupNode f (p ++ [x]) = f !! (p ++ [x]).
Proof. destruct p; reflexivity. Qed.

Lemma not_prefix_snoc (p : path) (x : string) : ~ (p ++ [x]) `prefix_of` p.
Proof.
  intros Hpre. apply prefix_length in Hpre. rewrite length_app in Hpre. simpl in Hpre. lia.
Qed.

Lemma lookup_removeTree (d p : path) (f : gmap path node) :
  Fs.removeTree d f !! p = if decide (d `prefix_of` p) then None else f !! p.
Proof.
  unfold Fs.removeTree. destruct (decide (d `prefix_of` p)) as [Hpre|Hpre].
  - apply map_lookup_filter_None. right. intros n _. simpl. tauto.
  - destruct (f !! p) as [n|] eqn:E.
    + apply map_lookup_filter_Some. split; [assumption|exact Hpre].
    + apply map_lookup_filter_None. left. assumption.
Qed.

Lemma readBuildInfo_spec (w : world) :
  readBuildInfo h w = (Ok (default noBuild (persisted h (fs w))), w).
Proof.
  unfold readBuildInfo, persisted, catch, mbind, Fs.readFile, mbind, getFs, ret, throw.
  destruct (Fs.lookupNode (fs w) (BUILD_INFO_PATH h)) as [[|[t|t v|t es]]|]; reflexivity.
Qed.

Lemma strictEqString_true (x : option json) (s : string) :
  strictEqString x s = true <-> x = Some (JStr s).
Proof.
  destruct x as [[]|]; simpl; try (split; congruence).
  rewrite bool_decide_eq_true. split; congruence.
Qed.

Lemma sameBuild_true (current : json) (n p b : string) :
  sameBuild current n p b = Ok true <-> fieldsEqual current n p b.
Proof.
  unfold sameBuild, fieldsEqual, Js.bind.
  destruct current as [|x|z|t|items|fields]; simpl;
    try (split; [discriminate | intros (H & _); discriminate]).
  destruct (strictEqString (property (reverse fields) "buildPlatform") p) eqn:Ep; simpl.
  2:{ split; [discriminate|]. intros (H & _). injection H as H.
      apply strictEqString_true in H. congruence. }
  destruct (strictEqString (property (reverse fields) "buildNumber") n) eqn:En; simpl.
  2:{ split; [discriminate|]. intros (_ & H & _). injection H as H.
      apply strictEqString_true in H. congruence. }
  apply strictEqString_true in Ep, En. split.
  - intros H. injection H as H. apply strictEqString_true in H.
    repeat split; congruence.
  - intros (_ & _ & H). injection H as H. f_equal. apply strictEqString_true, H.
Qed.

Lemma sameBuild_descriptor (n p b : string) :
  sameBuild (descriptor n p b) n p b = Ok true.
Proof. apply sameBuild_true. repeat split. Qed.

Lemma sameBuild_noBuild (n p b : string) :
  b <> "" -> sameBuild noBuild n p b = Ok false.
Proof.
  intros Hb. unfold sameBuild, noBuild, descriptor, Js.bind. simpl.
  destruct (bool_decide ("" = p)); [|reflexivity]. simpl.
  destruct (bool_decide ("" = n)); [|reflexivity]. simpl.
  rewrite bool_decide_eq_false_2 by congruence. reflexivity.
Qed.

Lemma browserName_cases (arg : option string) (name : string) :
  browserName arg = Some name -> name = "firefox" \/ name = "firefox-beta".
Proof.
  unfold browserName.
  destruct (_ || _); [intros [= <-]; tauto|].
  destruct (_ || _); [intros [= <-]; tauto|discriminate].
Qed.

(** The wipe: whatever was staged is gone, and the stage directory is there
    and empty. *)
Lemma wipe_spec (w : world) :
  Fs.isDir (fs w) (dirname (BUILD_DIRECTORY h)) = true ->
  wipe h w =
    (Ok tt,
     World (<[BUILD_DIRECTORY h := Dir]>
              (if Fs.exists_ (fs w) (BUILD_DIRECTORY h)
               then Fs.removeTree (BUILD_DIRECTORY h) (fs w) else fs w))
           (log w ++ [EvRm (BUILD_DIRECTORY h); EvMkdir (BUILD_DIRECTORY h)])).
Proof.
  destruct BUILD_DIRECTORY_snoc as (parent & name & HB). unfold wipe. rewrite HB.
  rewrite dirname_snoc. intros Hparent.
  destruct (Fs.exists_ (fs w) (parent ++ [name])) eqn:Hex.
  - rewrite (bind_ok _ _ _ _ _ (catch_ok _ _ _ _ _ (rm_exists _ _ Hex))).
    rewrite mkdir_ok; simpl fs; simpl log.
    + rewrite <- app_assoc. reflexivity.
    + unfold Fs.exists_. rewrite lookupNode_snoc, lookup_removeTree.
      rewrite decide_True by reflexivity. reflexivity.
    + rewrite dirname_snoc. unfold Fs.isDir in *.
      destruct parent as [|x parent]; [reflexivity|]. simpl in *.
      rewrite lookup_removeTree, decide_False; [assumption|].
      apply (not_prefix_snoc (x :: parent) name).
  - rewrite (bind_ok _ _ _ _ _ (catch_throw _ _ _ _ _ (rm_missing _ _ Hex))).
    unfold ret. rewrite mkdir_ok; simpl fs; simpl log.
    + rewrite <- app_assoc. reflexivity.
    + assumption.
    + rewrite dirname_snoc. assumption.
Qed.

Lemma extractAllTo_ok (archive dest : path) (raw : string)
    (entries : list zipEntry) (f' : gmap path node) (w : world) :
  Fs.lookupNode (fs w) archive = Some (File (Zip raw entries)) ->
  Archive.extracted dest entries (fs w) = Some f' ->
  Archive.extractAllTo archive dest w =
    (Ok tt, World f' (log w ++ [EvExtractAll archive dest false true])).
Proof.
  intros Hnode Hext. unfold Archive.extractAllTo, Archive.open.
  unfold mbind at 1. unfold mbind at 1. unfold Fs.readFile, mbind, getFs.
  rewrite Hnode. unfold ret, emit. simpl.
  apply (extracted_run _ _ _ _ _ Hext).
Qed.

Lemma wellFormed_child (f : gmap path node) (p : path) (x : string) :
  Fs.wellFormed f -> Fs.exists_ f p = false -> f !! (p ++ [x]) = None.
Proof.
  intros Hwf Hmissing. destruct (f !! (p ++ [x])) as [n|] eqn:E; [|reflexivity].
  destruct (Hwf _ _ E) as [_ Hdir]. rewrite dirname_snoc in Hdir.
  unfold Fs.isDir, Fs.exists_ in *. destruct (Fs.lookupNode f p); discriminate.
Qed.

Lemma wiped_child (f : gmap path node) (x : string) :
  Fs.wellFormed f -> wiped h f !! (BUILD_DIRECTORY h ++ [x]) = None.
Proof.
  intros Hwf. unfold wiped.
  rewrite lookup_insert_ne by (intros E; apply (f_equal length) in E;
                               rewrite length_app in E; simpl in E; lia).
  destruct (Fs.exists_ f (BUILD_DIRECTORY h)) eqn:Hex.
  - rewrite lookup_removeTree. apply decide_True. apply prefix_app_r. reflexivity.
  - apply wellFormed_child; assumption.
Qed.

Lemma get_own {A} (table : list (string * A)) (key : string) (v : A) :
  property table key = Some v -> get table key = Own v.
Proof. intros H. unfold get. rewrite H. reflexivity. Qed.

Lemma downloadUrl_own (name n p : string) (urls : list (string * string))
    (template : string) :
  property DOWNLOAD_URLS name = Some urls ->
  property urls p = Some template ->
  isEmpty template = false ->
  downloadUrl h name n p = Ok (format template n).
Proof.
  intros Hurls Htemplate Hne. unfold downloadUrl.
  rewrite (get_own _ _ _ Hurls), (get_own _ _ _ Htemplate), Hne. reflexivity.
Qed.

Lemma downloadUrl_absent (name n p : string) (urls : list (string * string)) :
  property DOWNLOAD_URLS name = Some urls ->
  get urls p = Absent ->
  downloadUrl h name n p = Throw (Error ("ERROR: repack-juggler does not support " +:+ p)).
Proof.
  intros Hurls Hnone. unfold downloadUrl.
  rewrite (get_own _ _ _ Hurls), Hnone. reflexivity.
Qed.

Lemma downloadUrl_inherited (name n p : string) (urls : list (string * string)) :
  property DOWNLOAD_URLS name = Some urls ->
  get urls p = Inherited ->
  downloadUrl h name n p = Ok (inspectMember h p +:+ " " +:+ n).
Proof.
  intros Hurls Hnone. unfold downloadUrl.
  rewrite (get_own _ _ _ Hurls), Hnone. reflexivity.
Qed.

Lemma fetch_url (fuel : nat) (name n p url : string) (w : world) :
  downloadUrl h name n p = Ok url ->
  fetch fuel h name n p w =
    (Http.downloadFile fuel h url (BUILD_DIRECTORY h ++ ["firefox.zip"]) ;;
     Archive.extractAllTo (BUILD_DIRECTORY h ++ ["firefox.zip"]) (BUILD_DIRECTORY h) ;;
     Fs.writeFile (BUILD_INFO_PATH h)
       (Json (stringify n p name) (descriptor n p name)) ;;
     ret (descriptor n p name)) w.
Proof.
  intros Hurl. unfold fetch. rewrite Hurl, zip_path_eq. reflexivity.
Qed.

Lemma fetch_refused (fuel : nat) (name n p : string) (e : error) (w : world) :
  downloadUrl h name n p = Throw e ->
  fetch fuel h name n p w = (Throw e, w).
Proof. intros Hurl. unfold fetch. rewrite Hurl. reflexivity. Qed.

Lemma fetch_ok (fuel : nat) (name n p : string) (w : world)
    (urls : list (string * string)) (template : string)
    (hops : list string) (res : response) (raw : string)
    (entries : list zipEntry) (f3 : gmap path node) :
  property DOWNLOAD_URLS name = Some urls ->
  property urls p = Some template ->
  isEmpty template = false ->
  Http.reaches h (format template n) hops res ->
  statusCode res = 200 ->
  (length hops < fuel)%nat ->
  body res = Zip raw entries ->
  fs w !! BUILD_DIRECTORY h = Some Dir ->
  fs w !! (BUILD_DIRECTORY h ++ ["firefox.zip"]) = None ->
  Archive.extracted (BUILD_DIRECTORY h) entries
    (<[BUILD_DIRECTORY h ++ ["firefox.zip"] := File (body res)]> (fs w)) = Some f3 ->
  Fs.isDir f3 (BUILD_INFO_PATH h) = false ->
  fetch fuel h name n p w =
    (Ok (descriptor n p name),
     World (<[BUILD_INFO_PATH h := File (Json (stringify n p name) (descriptor n p name))]> f3)
           (log w ++ Http.requests (format template n :: hops) ++
            [ EvCreateWriteStream (BUILD_DIRECTORY h ++ ["firefox.zip"]);
              EvExtractAll (BUILD_DIRECTORY h ++ ["firefox.zip"]) (BUILD_DIRECTORY h)
                false true;
              EvWriteFile (BUILD_INFO_PATH h) ])).
Proof.
  intros Hurls Htemplate Hne Hchain H200 Hfuel Hbody HB Hzip Hext Hinfo.
  destruct BUILD_DIRECTORY_snoc as (parent & dir & HBeq).
  assert (Fs.lookupNode (fs w) (BUILD_DIRECTORY h) = Some Dir) as HB'.
  { rewrite HBeq, lookupNode_snoc, <- HBeq. exact HB. }
  rewrite (fetch_url fuel _ _ _ _ w (downloadUrl_own _ n _ _ _ Hurls Htemplate Hne)).
  erewrite bind_ok; cycle 1.
  { apply (downloadFile_200 h _ _ _ _ _ _ Hchain H200 Hfuel).
    - unfold Fs.isDir. rewrite lookupNode_snoc, Hzip. reflexivity.
    - rewrite dirname_snoc. unfold Fs.isDir. rewrite HB'. reflexivity. }
  erewrite bind_ok; cycle 1.
  { apply (extractAllTo_ok _ _ raw entries f3); simpl fs.
    - rewrite lookupNode_snoc, lookup_insert_eq, Hbody. reflexivity.
    - exact Hext. }
  assert (f3 !! BUILD_DIRECTORY h = Some Dir) as HB3.
  { apply (extracted_keeps _ _ _ _ _ _ Hext).
    rewrite lookup_insert_ne; [exact HB|].
    intros E. apply (f_equal length) in E. rewrite length_app in E. simpl in E. lia. }
  erewrite bind_ok; cycle 1.
  { apply writeFile_ok; simpl fs.
    - exact Hinfo.
    - rewrite BUILD_INFO_PATH_eq, dirname_snoc. unfold Fs.isDir.
      rewrite HBeq, lookupNode_snoc, <- HBeq, HB3. reflexivity. }
  unfold ret. cbn [fs log]. do 2 f_equal.
  rewrite <- !app_assoc. reflexivity.
Qed.

Lemma fetch_returns (fuel : nat) (name n p : string) (w w' : world) (d : json) :
  fetch fuel h name n p w = (Ok d, w') -> d = descriptor n p name.
Proof.
  unfold fetch.
  intros (url & w0 & _ & H)%bind_inv_ok.
  apply bind_inv_ok in H as (_ & w1 & _ & H).
  apply bind_inv_ok in H as (_ & w2 & _ & H).
  apply bind_inv_ok in H as (_ & w3 & _ & H).
  unfold ret in H. congruence.
Qed.

Lemma sameBuild_total (current : json) (n p b : string) :
  current <> JNull -> exists hit, sameBuild current n p b = Ok hit.
Proof.
  intros Hnull. unfold sameBuild, Js.bind.
  destruct current; try contradiction; simpl; eauto.
  destruct (strictEqString _ p); simpl; eauto.
  destruct (strictEqString _ n); simpl; eauto.
Qed.

Lemma sameBuild_false (current : json) (n p b : string) :
  current <> JNull -> ~ fieldsEqual current n p b ->
  sameBuild current n p b = Ok false.
Proof.
  intros Hnull Hne. destruct (sameBuild_total current n p b Hnull) as [[] H].
  - apply sameBuild_true in H. contradiction.
  - exact H.
Qed.

Lemma ensure_hit (fuel : nat) (name n p : string) (w : world) :
  sameBuild (default noBuild (persisted h (fs w))) n p name = Ok true ->
  ensureResolved fuel h name n p w = (Ok (default noBuild (persisted h (fs w))), w).
Proof.
  intros Hhit. unfold ensureResolved.
  rewrite (bind_ok _ _ _ _ _ (readBuildInfo_spec w)).
  unfold mbind, liftResult. rewrite Hhit. reflexivity.
Qed.

Lemma ensure_miss (fuel : nat) (name n p : string) (w : world) :
  sameBuild (default noBuild (persisted h (fs w))) n p name = Ok false ->
  ensureResolved fuel h name n p w = (wipe h ;; fetch fuel h name n p) w.
Proof.
  intros Hmiss. unfold ensureResolved.
  rewrite (bind_ok _ _ _ _ _ (readBuildInfo_spec w)).
  unfold mbind at 1. unfold liftResult. rewrite Hmiss. reflexivity.
Qed.

Lemma ensure_null (fuel : nat) (name n p : string) (w : world) :
  default noBuild (persisted h (fs w)) = JNull ->
  exists message,
    ensureResolved fuel h name n p w = (Throw (TypeError message), w).
Proof.
  intros Hnull. unfold ensureResolved.
  rewrite (bind_ok _ _ _ _ _ (readBuildInfo_spec w)).
  unfold mbind, liftResult. rewrite Hnull. simpl. eauto.
Qed.

Lemma wellFormed_descendant (f : gmap path node) (d : path) (k : list string) :
  Fs.wellFormed f -> Fs.exists_ f d = false -> f !! (d ++ k) = None.
Proof.
  intros Hwf Hmissing. induction k as [|x k IH] using rev_ind.
  - rewrite app_nil_r. unfold Fs.exists_ in Hmissing.
    destruct d; simpl in Hmissing; [discriminate|].
    destruct (f !! (s :: d)); [discriminate|reflexivity].
  - rewrite app_assoc. apply wellFormed_child; [assumption|].
    unfold Fs.exists_. destruct (d ++ k) eqn:E.
    + destruct d; [discriminate Hmissing|discriminate E].
    + simpl. rewrite IH. reflexivity.
Qed.

(** After the wipe the stage directory is there and holds nothing. *)
Lemma wiped_empty (f : gmap path node) (q : path) :
  Fs.wellFormed f ->
  BUILD_DIRECTORY h `prefix_of` q -> q <> BUILD_DIRECTORY h ->
  wiped h f !! q = None.
Proof.
  intros Hwf [k ->] Hne. unfold wiped.
  rewrite lookup_insert_ne by congruence.
  destruct (Fs.exists_ f (BUILD_DIRECTORY h)) eqn:Hex.
  - rewrite lookup_removeTree. apply decide_True. apply prefix_app_r. reflexivity.
  - apply wellFormed_descendant; assumption.
Qed.

Lemma stage_ok (fuel : nat) (name n p : string) (w : world)
    (urls : list (string * string)) (template : string)
    (hops : list string) (res : response) (raw : string)
    (entries : list zipEntry) (f3 : gmap path node) :
  Fs.wellFormed (fs w) ->
  Fs.isDir (fs w) (dirname (BUILD_DIRECTORY h)) = true ->
  property DOWNLOAD_URLS name = Some urls ->
  property urls p = Some template ->
  isEmpty template = false ->
  Http.reaches h (format template n) hops res ->
  statusCode res = 200 ->
  (length hops < fuel)%nat ->
  body res = Zip raw entries ->
  Archive.extracted (BUILD_DIRECTORY h) entries
    (<[BUILD_DIRECTORY h ++ ["firefox.zip"] := File (body res)]> (wiped h (fs w)))
    = Some f3 ->
  Fs.isDir f3 (BUILD_INFO_PATH h) = false ->
  (wipe h ;; fetch fuel h name n p) w =
    (Ok (descriptor n p name),
     World (<[BUILD_INFO_PATH h := File (Json (stringify n p name) (descriptor n p name))]> f3)
           (log w ++ [EvRm (BUILD_DIRECTORY h); EvMkdir (BUILD_DIRECTORY h)] ++
            Http.requests (format template n :: hops) ++
            [ EvCreateWriteStream (BUILD_DIRECTORY h ++ ["firefox.zip"]);
              EvExtractAll (BUILD_DIRECTORY h ++ ["firefox.zip"]) (BUILD_DIRECTORY h)
                false true;
              EvWriteFile (BUILD_INFO_PATH h) ])).
Proof.
  intros Hwf Hparent Hurls Htemplate Hne Hchain H200 Hfuel Hbody Hext Hinfo.
  rewrite (bind_ok _ _ _ _ _ (wipe_spec w Hparent)).
  fold (wiped h (fs w)).
  erewrite fetch_ok; try eassumption; cbn [fs log].
  - rewrite <- !app_assoc. reflexivity.
  - unfold wiped. apply lookup_insert_eq.
  - apply wiped_child, Hwf.
Qed.

Lemma segments_split (s : string) : Path.segments false s = Js.split "/" s.
Proof.
  induction s as [|c s IH]; [reflexivity|]. simpl. unfold isSeparator.
  rewrite andb_false_r, orb_false_r.
  destruct (ascii_dec c "/") as [->|Hc].
  - rewrite bool_decide_eq_true_2 by reflexivity. rewrite IH. reflexivity.
  - rewrite bool_decide_eq_false_2 by exact Hc. rewrite IH. reflexivity.
Qed.

Lemma pushSegment_plain (base : path) (segs : list string) :
  Forall Path.plain segs -> foldl pushSegment base segs = base ++ segs.
Proof.
  intros Hall. revert base.
  induction Hall as [|seg segs (_ & H1 & H2 & H3) _ IH]; intros base.
  - simpl. rewrite app_nil_r. reflexivity.
  - simpl. unfold pushSegment at 2.
    rewrite !bool_decide_eq_false_2 by assumption. simpl.
    rewrite IH, <- app_assoc. reflexivity.
Qed.

Lemma entryPath_plain (dest : path) (segs : list string) :
  segs <> [] -> Forall Path.plain segs ->
  Archive.entryPath dest (Js.join "/" segs) = dest ++ segs.
Proof.
  intros Hne Hall. unfold Archive.entryPath, Path.join. simpl.
  rewrite app_nil_r, segments_split, split_join.
  - rewrite pushSegment_plain by exact Hall. reflexivity.
  - exact Hne.
  - eapply Forall_impl; [exact Hall|]. intros seg (H & _). exact H.
Qed.

(** What the archive stages is in place after the extraction into the wiped
    stage directory, the downloaded archive and the descriptor apart. *)
Lemma staged_file (f f3 : gmap path node) (body info : content)
    (entries : list zipEntry) (segs : list string) (data : content) :
  Fs.wellFormed f ->
  Archive.extracted (BUILD_DIRECTORY h) entries
    (<[BUILD_DIRECTORY h ++ ["firefox.zip"] := File body]> (wiped h f)) = Some f3 ->
  stages (BUILD_DIRECTORY h) entries segs data ->
  segs <> ["firefox.zip"] -> segs <> ["build-info.json"] ->
  (<[BUILD_INFO_PATH h := File info]> f3) !! (BUILD_DIRECTORY h ++ segs)
  = Some (File data).
Proof.
  intros Hwf Hext (before & after & -> & Hne & Hplain & Hfirst) Hzip Hinfo.
  rewrite BUILD_INFO_PATH_eq.
  rewrite lookup_insert_ne by (intros E; apply app_inv_head in E; congruence).
  rewrite <- (entryPath_plain _ _ Hne Hplain).
  apply (extracted_file _ _ _ _ _ _ _ Hext).
  - rewrite entryPath_plain by assumption. destruct segs; [contradiction|].
    intros E. apply app_eq_nil in E as [_ E]. discriminate.
  - rewrite entryPath_plain by assumption.
    rewrite lookup_insert_ne by (intros E; apply app_inv_head in E; congruence).
    apply wiped_empty; [exact Hwf|apply prefix_app_r; reflexivity|].
    intros E. rewrite <- (app_nil_r (BUILD_DIRECTORY h)) in E at 2.
    apply app_inv_head in E. contradiction.
  - intros e Hin. rewrite entryPath_plain by assumption. apply Hfirst, Hin.
Qed.

Lemma persisted_written (f : gmap path node) (raw : string) (v : json) :
  persisted h (<[BUILD_INFO_PATH h := File (Json raw v)]> f) = Some v.
Proof.
  unfold persisted. rewrite BUILD_INFO_PATH_eq, lookupNode_snoc, lookup_insert_eq.
  reflexivity.
Qed.

Lemma exec_fs (command : string) (w : world) :
  fs (exec h command w).2 = fs w.
Proof. unfold exec, mbind, emit. simpl. destruct (execSync h command); reflexivity. Qed.

Lemma getHostPlatform_fs (w : world) : fs (Platform.getHostPlatform h w).2 = fs w.
Proof.
  unfold Platform.getHostPlatform.
  destruct (bool_decide (os_platform h = "darwin")).
  - unfold mbind at 1.
    pose proof (exec_fs Platform.SW_VERS w) as H1.
    destruct (exec h Platform.SW_VERS w) as [[out| | |] w1]; simpl in H1; try exact H1.
    destruct (numGe _ 11).
    + unfold mbind.
      pose proof (exec_fs Platform.SYSCTL_ARM64 w1) as H2.
      destruct (exec h Platform.SYSCTL_ARM64 w1) as [[probe| | |] w2];
        simpl in *; congruence.
    + unfold mbind, ret. simpl. exact H1.
  - destruct (bool_decide (os_platform h = "linux")) eqn:Hos.
    + apply bool_decide_eq_true_1 in Hos. unfold mbind.
      rewrite (getUbuntuVersionSync_linux h w Hos).
      destruct (numLe _ 19); reflexivity.
    + destruct (bool_decide (os_platform h = "win32")); reflexivity.
Qed.

Lemma resolve_fs (name : string) (bn bp : option string) (w : world) :
  fs (resolve h name bn bp w).2 = fs w.
Proof.
  unfold resolve.
  assert (forall (m : M string) (k : string -> M (string * string)),
            (forall w0, fs (m w0).2 = fs w0) ->
            (forall a w0, fs (k a w0).2 = fs w0) ->
            forall w0, fs ((let* x := m in k x) w0).2 = fs w0) as Hbind.
  { intros m k Hm Hk w0. unfold mbind. specialize (Hm w0).
    destruct (m w0) as [[a| | |] w1]; simpl in Hm; try exact Hm.
    rewrite Hk. exact Hm. }
  apply Hbind.
  - intros w0. destruct (given bn); [reflexivity|].
    unfold Platform.readFileSync, mbind, Fs.readFile, mbind, getFs, ret, throw.
    destruct (Fs.lookupNode _ _) as [[|c]|]; reflexivity.
  - intros n w0. apply Hbind; [|reflexivity].
    intros w1. destruct (given bp); [reflexivity|apply getHostPlatform_fs].
Qed.

Lemma ensure_given (fuel : nat) (name n p : string) (w : world) :
  n <> "" -> p <> "" ->
  ensureFirefoxBuild fuel h name (Some n) (Some p) w = ensureResolved fuel h name n p w.
Proof.
  intros Hn Hp. unfold ensureFirefoxBuild, resolve, given.
  destruct n; [contradiction|]. destruct p; [contradiction|]. reflexivity.
Qed.

Lemma ensure_wipes (fuel : nat) (name n p : string) (w : world) :
  sameBuild (default noBuild (persisted h (fs w))) n p name = Ok false ->
  Fs.isDir (fs w) (dirname (BUILD_DIRECTORY h)) = true ->
  ensureResolved fuel h name n p w = fetch fuel h name n p (emptied h w).
Proof.
  intros Hmiss Hparent. rewrite (ensure_miss fuel name n p w Hmiss).
  rewrite (bind_ok _ _ _ _ _ (wipe_spec w Hparent)). reflexivity.
Qed.

(** The staging of a build after the wipe: the return value, the log, the
    descriptor, the downloaded archive and the files of the archive. *)
Lemma ensure_stages (fuel : nat) (name n p : string) (w : world)
    (urls : list (string * string)) (template : string)
    (hops : list string) (res : response) (raw : string)
    (entries : list zipEntry) (f3 : gmap path node) :
  sameBuild (default noBuild (persisted h (fs w))) n p name = Ok false ->
  Fs.wellFormed (fs w) ->
  Fs.isDir (fs w) (dirname (BUILD_DIRECTORY h)) = true ->
  property DOWNLOAD_URLS name = Some urls ->
  property urls p = Some template ->
  isEmpty template = false ->
  Http.reaches h (format template n) hops res ->
  statusCode res = 200 ->
  (length hops < fuel)%nat ->
  body res = Zip raw entries ->
  Archive.extracted (BUILD_DIRECTORY h) entries
    (<[BUILD_DIRECTORY h ++ ["firefox.zip"] := File (body res)]> (wiped h (fs w)))
    = Some f3 ->
  Fs.isDir f3 (BUILD_INFO_PATH h) = false ->
  exists w',
    ensureResolved fuel h name n p w = (Ok (descriptor n p name), w') /\
    log w' =
      log w ++ [EvRm (BUILD_DIRECTORY h); EvMkdir (BUILD_DIRECTORY h)] ++
      Http.requests (format template n :: hops) ++
      [ EvCreateWriteStream (BUILD_DIRECTORY h ++ ["firefox.zip"]);
        EvExtractAll (BUILD_DIRECTORY h ++ ["firefox.zip"]) (BUILD_DIRECTORY h)
          false true;
        EvWriteFile (BUILD_INFO_PATH h) ] /\
    persisted h (fs w') = Some (descriptor n p name) /\
    fs w' !! (BUILD_DIRECTORY h ++ ["firefox.zip"]) = Some (File (body res)) /\
    (forall segs data,
       stages (BUILD_DIRECTORY h) entries segs data ->
       segs <> ["firefox.zip"] -> segs <> ["build-info.json"] ->
       fs w' !! (BUILD_DIRECTORY h ++ segs) = Some (File data)) /\
    forall fuel',
      ensureResolved fuel' h name n p w' = (Ok (descriptor n p name), w').
Proof.
  intros Hmiss Hwf Hparent Hurls Htemplate Hnonempty Hchain H200 Hfuel Hbody Hext Hinfo.
  eexists. split; [|split; [|split; [|split; [|split]]]].
  - rewrite (ensure_miss fuel name n p w Hmiss).
    apply (stage_ok fuel name n p w urls template hops res raw entries f3);
      assumption.
  - reflexivity.
  - apply persisted_written.
  - cbn [fs]. rewrite BUILD_INFO_PATH_eq.
    rewrite lookup_insert_ne by (intros E; apply app_inv_head in E; discriminate).
    apply (extracted_keeps _ _ _ _ _ _ Hext), lookup_insert_eq.
  - intros segs data Hstages Hzip Hdescriptor. cbn [fs].
    apply (staged_file (fs w) f3 (body res) _ entries segs data); assumption.
  - intros fuel'.
    pose proof (ensure_hit fuel' name n p
                  (World (<[BUILD_INFO_PATH h :=
                              File (Json (stringify n p name) (descriptor n p name))]> f3)
                         (log w ++ [EvRm (BUILD_DIRECTORY h); EvMkdir (BUILD_DIRECTORY h)] ++
                          Http.requests (format template n :: hops) ++
                          [ EvCreateWriteStream (BUILD_DIRECTORY h ++ ["firefox.zip"]);
                            EvExtractAll (BUILD_DIRECTORY h ++ ["firefox.zip"])
                              (BUILD_DIRECTORY h) false true;
                            EvWriteFile (BUILD_INFO_PATH h) ]))) as Hhit.
    cbn [fs] in Hhit. rewrite persisted_written in Hhit.
    apply Hhit, sameBuild_descriptor.
Qed.

(** C9, amended: when the descriptor file is missing or does not parse, the
    descriptor that is read has three empty fields, and the request of any
    browser that the command line can name is never a cache hit, whatever the
    build number and the platform: [ensureFirefoxBuild] runs the wipe and
    then the download path.  Where the parent of the stage directory exists,
    the wipe leaves an empty stage directory.  The build is then staged anew
    when the platform has a download URL and the download and the extraction
    succeed: the archive is requested along the chain of redirects, written
    to [firefox.zip], extracted, with every file that the archive stages in
    place, and the descriptor of the request is persisted and returned.  When
    the platform has no download URL (and is not the name of a member of
    [Object.prototype]), the call fails after the wipe, and the stage
    directory is left empty. *)
Theorem missing_descriptor_restages (fuel : nat) (arg : option string)
    (name : string) (w : world) :
  browserName arg = Some name ->
  persisted h (fs w) = None ->
  readBuildInfo h w = (Ok noBuild, w) /\
  (forall n p,
     sameBuild noBuild n p name = Ok false /\
     ~ fieldsEqual noBuild n p name /\
     ensureResolved fuel h name n p w = (wipe h ;; fetch fuel h name n p) w) /\
  (forall bn bp,
     ensureFirefoxBuild fuel h name bn bp w =
       (let* request := resolve h name bn bp in
        wipe h ;; fetch fuel h name request.1 request.2) w) /\
  (Fs.isDir (fs w) (dirname (BUILD_DIRECTORY h)) = true ->
   wipe h w = (Ok tt, emptied h w) /\
   (forall n p,
      ensureResolved fuel h name n p w = fetch fuel h name n p (emptied h w)) /\
   (Fs.wellFormed (fs w) ->
    forall q, BUILD_DIRECTORY h `prefix_of` q -> q <> BUILD_DIRECTORY h ->
              fs (emptied h w) !! q = None) /\
   (forall n p urls,
      property DOWNLOAD_URLS name = Some urls ->
      get urls p = Absent ->
      ensureResolved fuel h name n p w =
        (Throw (Error ("ERROR: repack-juggler does not support " +:+ p)),
         emptied h w)) /\
   (forall n p urls template hops res raw entries f3,
      Fs.wellFormed (fs w) ->
      property DOWNLOAD_URLS name = Some urls ->
      property urls p = Some template ->
      isEmpty template = false ->
      Http.reaches h (format template n) hops res ->
      statusCode res = 200 ->
      (length hops < fuel)%nat ->
      body res = Zip raw entries ->
      Archive.extracted (BUILD_DIRECTORY h) entries
        (<[BUILD_DIRECTORY h ++ ["firefox.zip"] := File (body res)]> (wiped h (fs w)))
        = Some f3 ->
      Fs.isDir f3 (BUILD_INFO_PATH h) = false ->
      exists w',
        ensureResolved fuel h name n p w = (Ok (descriptor n p name), w') /\
        log w' =
          log w ++ [EvRm (BUILD_DIRECTORY h); EvMkdir (BUILD_DIRECTORY h)] ++
          Http.requests (format template n :: hops) ++
          [ EvCreateWriteStream (BUILD_DIRECTORY h ++ ["firefox.zip"]);
            EvExtractAll (BUILD_DIRECTORY h ++ ["firefox.zip"]) (BUILD_DIRECTORY h)
              false true;
            EvWriteFile (BUILD_INFO_PATH h) ] /\
        persisted h (fs w') = Some (descriptor n p name) /\
        fs w' !! (BUILD_DIRECTORY h ++ ["firefox.zip"]) = Some (File (body res)) /\
        forall segs data,
          stages (BUILD_DIRECTORY h) entries segs data ->
          segs <> ["firefox.zip"] -> segs <> ["build-info.json"] ->
          fs w' !! (BUILD_DIRECTORY h ++ segs) = Some (File data))).
Proof.
  intros Hname Hnone.
  assert (name <> "") as Hne.
  { destruct (browserName_cases _ _ Hname) as [-> | ->]; discriminate. }
  assert (forall n p, sameBuild (default noBuild (persisted h (fs w))) n p name = Ok false)
    as Hfalse.
  { intros n p. rewrite Hnone. apply sameBuild_noBuild, Hne. }
  assert (forall w1 n p, fs w1 = fs w ->
            ensureResolved fuel h name n p w1 = (wipe h ;; fetch fuel h name n p) w1)
    as Hmiss.
  { intros w1 n p Hfs. apply ensure_miss. rewrite Hfs. apply Hfalse. }
  split; [|split; [|split]].
  - rewrite readBuildInfo_spec, Hnone. reflexivity.
  - intros n p. split; [apply sameBuild_noBuild, Hne|]. split.
    + intros Heq%sameBuild_true. rewrite sameBuild_noBuild in Heq by exact Hne.
      discriminate.
    + apply Hmiss. reflexivity.
  - intros bn bp. unfold ensureFirefoxBuild. apply bind_ext_on.
    intros request w1 Hresolve. apply Hmiss.
    pose proof (resolve_fs name bn bp w) as Hfs. rewrite Hresolve in Hfs. exact Hfs.
  - intros Hparent. split; [apply wipe_spec, Hparent|]. split; [|split; [|split]].
    + intros n p. apply ensure_wipes; [apply Hfalse|exact Hparent].
    + intros Hwf q. apply wiped_empty, Hwf.
    + intros n p urls Hurls Habsent.
      rewrite (ensure_wipes fuel name n p w (Hfalse n p) Hparent).
      apply fetch_refused, (downloadUrl_absent _ _ _ _ Hurls Habsent).
    + intros n p urls template hops res raw entries f3
        Hwf Hurls Htemplate Hnonempty Hchain H200 Hfuel Hbody Hext Hinfo.
      destruct (ensure_stages fuel name n p w urls template hops res raw entries f3
                  (Hfalse n p) Hwf Hparent Hurls Htemplate Hnonempty Hchain H200
                  Hfuel Hbody Hext Hinfo)
        as (w' & Hrun & Hlog & Hinfo' & Hzip & Hfiles & _).
      exists w'. auto.
Qed.

(** C1, amended: [ensureFirefoxBuild] does nothing and returns the descriptor
    it read, unchanged, exactly when the three fields of that descriptor are
    the strings of the request.  A descriptor file that holds [null] makes
    the comparison fail with a [TypeError], and nothing is changed.  On any
    other mismatch, where the parent of the stage directory exists, it
    removes the stage directory with all it holds and makes it anew, empty.
    When the platform has no download URL (and is not the name of a member of
    [Object.prototype]), the call then fails without a request.  When it has
    one and the download and the extraction succeed, it has then downloaded
    the archive to [firefox.zip], extracted it (overwrite disabled,
    permissions preserved) with every file that the archive stages in place,
    persisted the new descriptor and returns it, and a second call with the
    same request does nothing and returns the same descriptor. *)
Theorem ensure_cache (fuel : nat) (name n p : string) (w : world) :
  let current := default noBuild (persisted h (fs w)) in
  (fieldsEqual current n p name <->
   ensureResolved fuel h name n p w = (Ok current, w)) /\
  (current = JNull ->
   exists message,
     ensureResolved fuel h name n p w = (Throw (TypeError message), w)) /\
  (current <> JNull -> ~ fieldsEqual current n p name ->
   Fs.isDir (fs w) (dirname (BUILD_DIRECTORY h)) = true ->
   wipe h w = (Ok tt, emptied h w) /\
   ensureResolved fuel h name n p w = fetch fuel h name n p (emptied h w) /\
   (Fs.wellFormed (fs w) ->
    forall q, BUILD_DIRECTORY h `prefix_of` q -> q <> BUILD_DIRECTORY h ->
              fs (emptied h w) !! q = None) /\
   (forall urls,
      property DOWNLOAD_URLS name = Some urls ->
      get urls p = Absent ->
      ensureResolved fuel h name n p w =
        (Throw (Error ("ERROR: repack-juggler does not support " +:+ p)),
         emptied h w)) /\
   (forall urls template hops res raw entries f3,
      Fs.wellFormed (fs w) ->
      property DOWNLOAD_URLS name = Some urls ->
      property urls p = Some template ->
      isEmpty template = false ->
      Http.reaches h (format template n) hops res ->
      statusCode res = 200 ->
      (length hops < fuel)%nat ->
      body res = Zip raw entries ->
      Archive.extracted (BUILD_DIRECTORY h) entries
        (<[BUILD_DIRECTORY h ++ ["firefox.zip"] := File (body res)]> (wiped h (fs w)))
        = Some f3 ->
      Fs.isDir f3 (BUILD_INFO_PATH h) = false ->
      exists w',
        ensureResolved fuel h name n p w = (Ok (descriptor n p name), w') /\
        log w' =
          log w ++ [EvRm (BUILD_DIRECTORY h); EvMkdir (BUILD_DIRECTORY h)] ++
          Http.requests (format template n :: hops) ++
          [ EvCreateWriteStream (BUILD_DIRECTORY h ++ ["firefox.zip"]);
            EvExtractAll (BUILD_DIRECTORY h ++ ["firefox.zip"]) (BUILD_DIRECTORY h)
              false true;
            EvWriteFile (BUILD_INFO_PATH h) ] /\
        persisted h (fs w') = Some (descriptor n p name) /\
        fs w' !! (BUILD_DIRECTORY h ++ ["firefox.zip"]) = Some (File (body res)) /\
        (forall segs data,
           stages (BUILD_DIRECTORY h) entries segs data ->
           segs <> ["firefox.zip"] -> segs <> ["build-info.json"] ->
           fs w' !! (BUILD_DIRECTORY h ++ segs) = Some (File data)) /\
        forall fuel',
          ensureResolved fuel' h name n p w' = (Ok (descriptor n p name), w'))).
Proof.
  intros current. split; [|split].
  - split.
    + intros Heq. apply ensure_hit, sameBuild_true, Heq.
    + intros Hrun.
      assert (current = JNull \/ current <> JNull) as [Hnull|Hnull]
        by (destruct current; auto; right; discriminate).
      { destruct (ensure_null fuel name n p w Hnull) as [e He]. congruence. }
      destruct (sameBuild_total current n p name Hnull) as [[] Hsame].
      { apply sameBuild_true, Hsame. }
      rewrite (ensure_miss fuel name n p w Hsame) in Hrun.
      apply bind_inv_ok in Hrun as (_ & w1 & _ & Hfetch).
      apply fetch_returns in Hfetch.
      fold current in Hfetch. rewrite Hfetch, sameBuild_descriptor in Hsame.
      discriminate.
  - apply ensure_null.
  - intros Hnull Hne Hparent.
    pose proof (sameBuild_false _ _ _ _ Hnull Hne) as Hmiss.
    split; [apply wipe_spec, Hparent|]. split; [|split; [|split]].
    + apply ensure_wipes; assumption.
    + intros Hwf q. apply wiped_empty, Hwf.
    + intros urls Hurls Habsent.
      rewrite (ensure_wipes fuel name n p w Hmiss Hparent).
      apply fetch_refused, (downloadUrl_absent _ _ _ _ Hurls Habsent).
    + intros urls template hops res raw entries f3
        Hwf Hurls Htemplate Hnonempty Hchain H200 Hfuel Hbody Hext Hinfo.
      apply (ensure_stages fuel name n p w urls template hops res raw entries f3);
        assumption.
Qed.

End BuildCacheFacts.

Lemma cdn_chain :
  Http.reaches (Sample.linux Sample.cdn) Sample.buildUrl
    ["https://mirror.example/firefox.zip"]
    (Response 200 None (Some "4096") Sample.firefoxZip).
Proof.
  eapply Http.reaches_hop; [reflexivity | simpl; lia | reflexivity | discriminate |].
  apply Http.reaches_here. reflexivity.
Defined.

Lemma cdn_stages_omni :
  BuildCache.stages ["tmp"; "repackaged-firefox"]
    [ ("firefox/", None);
      ("firefox/firefox", Some (Text "ELF"));
      ("firefox/omni.ja", Some Sample.omni);
      ("firefox/browser/", None);
      ("firefox/browser/omni.ja", Some Sample.browserOmni) ]
    ["firefox"; "omni.ja"] Sample.omni.
Proof.
  exists [ ("firefox/", None); ("firefox/firefox", Some (Text "ELF")) ],
         [ ("firefox/browser/", None);
           ("firefox/browser/omni.ja", Some Sample.browserOmni) ].
  split; [reflexivity|]. split; [discriminate|]. split.
  - constructor; [repeat split; discriminate|].
    constructor; [repeat split; discriminate|]. constructor.
  - apply Forall_forall.
    constructor; [apply (bool_decide_eq_false _); vm_compute; reflexivity|].
    constructor; [apply (bool_decide_eq_false _); vm_compute; reflexivity|].
    constructor.
Defined.

Lemma missing_descriptor_restages_witness :
  exists w',
    BuildCache.ensureResolved 2 (Sample.linux Sample.cdn) "firefox" "1234" "ubuntu20.04"
      Sample.fresh
    = (Ok (BuildCache.descriptor "1234" "ubuntu20.04" "firefox"), w') /\
    BuildCache.persisted (Sample.linux Sample.cdn) (fs w')
    = Some (BuildCache.descriptor "1234" "ubuntu20.04" "firefox") /\
    fs w' !! ["tmp"; "repackaged-firefox"; "firefox"; "omni.ja"]
    = Some (File Sample.omni).
Proof.
  assert (BuildCache.persisted (Sample.linux Sample.cdn) (fs Sample.fresh) = None)
    as Hnone by (vm_compute; reflexivity).
  destruct (missing_descriptor_restages (Sample.linux Sample.cdn) 2 (Some "ff")
              "firefox" Sample.fresh eq_refl Hnone) as (_ & _ & _ & Hwipe).
  destruct (Hwipe ltac:(vm_compute; reflexivity)) as (_ & _ & _ & _ & Hstage).
  edestruct (Hstage "1234" "ubuntu20.04") as (w' & Hrun & _ & Hinfo & _ & Hfiles).
  - apply wellFormed_decide. vm_compute. reflexivity.
  - reflexivity.
  - reflexivity.
  - reflexivity.
  - exact cdn_chain.
  - reflexivity.
  - simpl. lia.
  - reflexivity.
  - apply (some_default _ ∅). vm_compute. reflexivity.
  - vm_compute. reflexivity.
  - exists w'. split; [exact Hrun|]. split; [exact Hinfo|].
    apply (Hfiles ["firefox"; "omni.ja"] Sample.omni);
      [exact cdn_stages_omni | discriminate | discriminate].
Defined.

(** C9 as stated fails for a platform that has no download URL: with no
    descriptor file the stage directory is wiped, and the call throws;
    nothing is requested and nothing is staged. *)
Lemma missing_descriptor_unsupported :
  BuildCache.persisted (Sample.linux Sample.cdn) (fs Sample.fresh) = None /\
  (BuildCache.ensureFirefoxBuild 5 (Sample.linux Sample.cdn) "firefox-beta"
     (Some "1234") (Some "ubuntu22.04") Sample.fresh).1
  = Throw (Error "ERROR: repack-juggler does not support ubuntu22.04") /\
  log (BuildCache.ensureFirefoxBuild 5 (Sample.linux Sample.cdn) "firefox-beta"
         (Some "1234") (Some "ubuntu22.04") Sample.fresh).2
  = [ EvRm ["tmp"; "repackaged-firefox"]; EvMkdir ["tmp"; "repackaged-firefox"] ] /\
  fs (BuildCache.ensureFirefoxBuild 5 (Sample.linux Sample.cdn) "firefox-beta"
        (Some "1234") (Some "ubuntu22.04") Sample.fresh).2
    !! ["tmp"; "repackaged-firefox"; "firefox.zip"] = None /\
  fs (BuildCache.ensureFirefoxBuild 5 (Sample.linux Sample.cdn) "firefox-beta"
        (Some "1234") (Some "ubuntu22.04") Sample.fresh).2
    !! ["tmp"; "repackaged-firefox"; "build-info.json"] = None.
Proof. vm_compute. repeat split. Qed.

Lemma ensure_cache_witness :
  exists w',
    BuildCache.ensureResolved 2 (Sample.linux Sample.cdn) "firefox" "1234" "ubuntu20.04"
      Sample.stale
    = (Ok (BuildCache.descriptor "1234" "ubuntu20.04" "firefox"), w') /\
    fs w' !! ["tmp"; "repackaged-firefox"; "firefox"; "omni.ja"]
    = Some (File Sample.omni) /\
    BuildCache.ensureResolved 0 (Sample.linux Sample.cdn) "firefox" "1234" "ubuntu20.04" w'
    = (Ok (BuildCache.descriptor "1234" "ubuntu20.04" "firefox"), w').
Proof.
  destruct (ensure_cache (Sample.linux Sample.cdn) 2 "firefox" "1234" "ubuntu20.04"
              Sample.stale) as (_ & _ & Hmiss).
  assert (BuildCache.persisted (Sample.linux Sample.cdn) (fs Sample.stale)
          = Some (BuildCache.descriptor "1233" "ubuntu20.04" "firefox"))
    as Hstale by (vm_compute; reflexivity).
  cbv zeta in Hmiss. rewrite Hstale in Hmiss.
  destruct (Hmiss ltac:(discriminate) ltac:(intros (_ & H & _); discriminate H)
              ltac:(vm_compute; reflexivity)) as (_ & _ & _ & _ & Hstage).
  edestruct Hstage as (w' & Hrun & _ & _ & _ & Hfiles & Hagain).
  - apply wellFormed_decide. vm_compute. reflexivity.
  - reflexivity.
  - reflexivity.
  - reflexivity.
  - exact cdn_chain.
  - reflexivity.
  - simpl. lia.
  - reflexivity.
  - apply (some_default _ ∅). vm_compute. reflexivity.
  - vm_compute. reflexivity.
  - exists w'. split; [exact Hrun|]. split; [|apply Hagain].
    apply (Hfiles ["firefox"; "omni.ja"] Sample.omni);
      [exact cdn_stages_omni | discriminate | discriminate].
Defined.

(** C1 as stated fails for a platform that has no download URL: the
    descriptor differs from the request, the stage directory is wiped, and
    [ensureFirefoxBuild] throws; nothing is requested, extracted, persisted or
    returned. *)
Lemma ensure_unsupported_platform :
  (BuildCache.ensureFirefoxBuild 5 (Sample.linux Sample.cdn) "firefox"
     (Some "1234") (Some "ubuntu22.04") Sample.staged).1
  = Throw (Error "ERROR: repack-juggler does not support ubuntu22.04") /\
  log (BuildCache.ensureFirefoxBuild 5 (Sample.linux Sample.cdn) "firefox"
         (Some "1234") (Some "ubuntu22.04") Sample.staged).2
  = [ EvRm ["tmp"; "repackaged-firefox"]; EvMkdir ["tmp"; "repackaged-firefox"] ] /\
  BuildCache.persisted (Sample.linux Sample.cdn)
    (fs (BuildCache.ensureFirefoxBuild 5 (Sample.linux Sample.cdn) "firefox"
           (Some "1234") (Some "ubuntu22.04") Sample.staged).2)
  = None.
Proof. vm_compute. repeat split. Qed.

(** ** Rebuilding the archive *)

Section PatchFacts.
Import Patcher.
Variable h : host.
Variable name : string.

Lemma mkdirs_files (dirs : list path) :
  forall (f f' : gmap path node) (q : path) (c : content),
    Fs.mkdirs dirs f = Some f' ->
    (f' !! q = Some (File c) <-> f !! q = Some (File c)).
Proof.
  induction dirs as [|d dirs IH]; intros f f' q c; simpl.
  - intros [= <-]. tauto.
  - destruct (Fs.lookupNode f d) as [[|x]|] eqn:E; [apply IH|discriminate|].
    intros Hrest. rewrite (IH _ _ q c Hrest).
    destruct (decide (d = q)) as [->|Hne].
    + rewrite lookup_insert_eq. split; [discriminate|].
      intros Hq. destruct q; simpl in E; congruence.
    + rewrite lookup_insert_ne by assumption. tauto.
Qed.

Lemma copyJarLine_inv (line : string) (w w' : world) :
  copyJarLine h name line w = (Ok tt, w') ->
  exists copy f1 c,
    jarCopy h name line = Ok copy /\
    Fs.mkdirs (Fs.ancestorsOf (dirname copy.1)) (fs w) = Some f1 /\
    Fs.lookupNode f1 copy.2 = Some (File c) /\
    fs w' = <[copy.1 := File c]> f1 /\
    log w' = log w ++ [EvMkdir (dirname copy.1); EvCopyFile copy.2 copy.1].
Proof.
  unfold copyJarLine. intros (copy & w0 & Hcopy & Hrest)%bind_inv_ok.
  unfold BuildCache.liftResult in Hcopy. injection Hcopy as Hcopy <-.
  apply seq_inv_ok in Hrest as (w1 & Hdirs & Hfile).
  apply mkdirRecursive_inv in Hdirs as [Hdirs Hlog1].
  apply copyNamed_inv in Hfile as (_ & _ & Hfile).
  apply copyFile_inv in Hfile as (c & Hsrc & Hfs & Hlog2).
  exists copy, (fs w1), c. repeat split; try assumption.
  rewrite Hlog2, Hlog1, <- app_assoc. reflexivity.
Qed.

Lemma forEach_copy (lines : list string) :
  forall (w w' : world),
    forEach (copyJarLine h name) lines w = (Ok tt, w') ->
    exists copies,
      Forall2 (fun line copy => jarCopy h name line = Ok copy) lines copies /\
      copied copies (fs w) (fs w') /\
      log w' = log w ++ loopEvents copies.
Proof.
  induction lines as [|line lines IH]; intros w w'.
  - simpl. unfold ret. intros [= <-]. exists []. repeat split.
    + constructor.
    + simpl. rewrite app_nil_r. reflexivity.
  - simpl. intros (w1 & Hline & Hrest)%seq_inv_ok.
    apply copyJarLine_inv in Hline as (copy & f1 & c & Hcopy & Hdirs & Hsrc & Hfs & Hlog).
    apply IH in Hrest as (copies & Hall & Hcopied & Hlog').
    exists (copy :: copies). repeat split.
    + constructor; assumption.
    + simpl. exists f1, c. rewrite <- Hfs. auto.
    + rewrite Hlog', Hlog. simpl. rewrite <- app_assoc. reflexivity.
Qed.

Lemma copiesOf_all (jarmn : string) (copies : list (path * path)) :
  Forall2 (fun line copy => jarCopy h name line = Ok copy) (jarLines jarmn) copies ->
  copiesOf h name jarmn = copies.
Proof.
  unfold copiesOf. generalize (jarLines jarmn). intros lines Hall.
  induction Hall as [|line copy lines copies Hcopy _ IH]; [reflexivity|].
  simpl. rewrite Hcopy. f_equal. exact IH.
Qed.

Lemma lastCopy_cons (q : path) (copy : path * path) (rest : list (path * path)) :
  lastCopy q (copy :: rest) =
    match lastCopy q rest with
    | Some src => Some src
    | None => if decide (copy.1 = q) then Some copy.2 else None
    end.
Proof.
  unfold lastCopy. rewrite reverse_cons, filter_app.
  destruct (filter _ (reverse rest)) as [|x l]; simpl; [|reflexivity].
  rewrite filter_cons. destruct (decide (copy.1 = q)); reflexivity.
Qed.

Lemma lastCopy_In (q src : path) (copies : list (path * path)) :
  lastCopy q copies = Some src -> (q, src) ∈ copies.
Proof.
  induction copies as [|copy rest IH]; [discriminate|].
  rewrite lastCopy_cons. destruct (lastCopy q rest) as [s|].
  - intros [= ->]. right. apply IH. reflexivity.
  - destruct (decide (copy.1 = q)) as [<-|]; [|discriminate].
    intros [= <-]. destruct copy. left.
Qed.

Lemma lastCopy_None (q : path) (copies : list (path * path)) :
  lastCopy q copies = None <-> forall copy, copy ∈ copies -> copy.1 <> q.
Proof.
  induction copies as [|copy rest IH].
  - split; [|reflexivity]. intros _ c Hc. inversion Hc.
  - rewrite lastCopy_cons. destruct (lastCopy q rest) as [s|] eqn:E.
    + split; [discriminate|]. intros H. apply lastCopy_In in E.
      exfalso. apply (H (q, s)); [right; assumption|reflexivity].
    + destruct (decide (copy.1 = q)) as [Heq|Hne].
      * split; [discriminate|]. intros H. exfalso. apply (H copy); [left|assumption].
      * split; [|reflexivity]. intros _ c Hc.
        apply elem_of_cons in Hc as [->|Hc]; [assumption|].
        apply (proj1 IH eq_refl), Hc.
Qed.

Lemma copied_keeps (copies : list (path * path)) :
  forall (f f' : gmap path node) (q : path) (n : node),
    copied copies f f' ->
    (forall copy, copy ∈ copies -> copy.1 <> q) ->
    f !! q = Some n -> f' !! q = Some n.
Proof.
  induction copies as [|copy rest IH]; intros f f' q n; simpl.
  - intros -> _. trivial.
  - intros (f1 & c & Hdirs & _ & Hrest) Hfree Hq.
    apply (IH _ _ _ _ Hrest).
    + intros c' Hc'. apply Hfree. right. assumption.
    + rewrite lookup_insert_ne by (apply Hfree; left).
      apply (mkdirs_keeps _ _ _ _ _ Hdirs Hq).
Qed.

(** After the loop, a path holds a file exactly when the last copy to it
    brought that file, or no copy went to it and the file was there.  No
    source of a copy is the destination of one. *)
Lemma copied_files (copies : list (path * path)) :
  forall (f f' : gmap path node) (q : path) (c : content),
    copied copies f f' ->
    (forall c1 c2, c1 ∈ copies -> c2 ∈ copies -> c1.2 <> c2.1) ->
    (f' !! q = Some (File c) <->
     match lastCopy q copies with
     | Some src => f !! src = Some (File c)
     | None => f !! q = Some (File c)
     end).
Proof.
  induction copies as [|copy rest IH]; intros f f' q c; simpl.
  - intros -> _. reflexivity.
  - intros (f1 & c0 & Hdirs & Hsrc & Hrest) Hdisj.
    assert (forall c1 c2, c1 ∈ rest -> c2 ∈ rest -> c1.2 <> c2.1) as Hdisj'.
    { intros c1 c2 H1 H2. apply Hdisj; right; assumption. }
    rewrite (IH _ _ q c Hrest Hdisj'), lastCopy_cons.
    assert (copy.2 <> []) as Hnonroot.
    { intros E. rewrite E in Hsrc. discriminate. }
    apply lookupNode_Some in Hsrc; [|assumption].
    destruct (lastCopy q rest) as [src|] eqn:E.
    + apply lastCopy_In in E.
      rewrite lookup_insert_ne.
      * apply (mkdirs_files _ _ _ _ _ Hdirs).
      * intros Heq. apply (Hdisj (q, src) copy); [right; assumption | left |].
        simpl. congruence.
    + destruct (decide (copy.1 = q)) as [<-|Hne].
      * rewrite lookup_insert_eq, <- (mkdirs_files _ _ _ copy.2 c Hdirs), Hsrc.
        split; congruence.
      * rewrite lookup_insert_ne by assumption.
        apply (mkdirs_files _ _ _ _ _ Hdirs).
Qed.

Lemma OMNI_EXTRACT_DIR_eq : OMNI_EXTRACT_DIR h = BUILD_DIRECTORY h ++ ["omni"].
Proof. apply join_one; done. Qed.

Lemma OMNI_BACKUP_PATH_eq :
  OMNI_BACKUP_PATH h = BUILD_DIRECTORY h ++ ["omni.ja.backup"].
Proof. apply join_one; done. Qed.

Lemma OMNI_JUGGLER_DIR_eq :
  OMNI_JUGGLER_DIR h = OMNI_EXTRACT_DIR h ++ ["chrome"; "juggler"].
Proof.
  unfold OMNI_JUGGLER_DIR. rewrite join_cons_plain, join_one by done.
  rewrite <- app_assoc. reflexivity.
Qed.

(** What a rebuild that returned has done, step by step. *)
Lemma rebuild_inv (target : path) (w w' : world) :
  rebuild h name target w = (Ok tt, w') ->
  exists raw entries f3 manifest f5,
    (Fs.exists_ (fs w) (OMNI_BACKUP_PATH h) = false ->
     exists c, Fs.lookupNode (fs w) target = Some (File c)) /\
    Fs.lookupNode (scratch h (backedUp h target (fs w))) (OMNI_BACKUP_PATH h)
      = Some (File (Zip raw entries)) /\
    Archive.extracted (OMNI_EXTRACT_DIR h) entries
      (scratch h (backedUp h target (fs w))) = Some f3 /\
    Fs.exists_ f3 (OMNI_JUGGLER_DIR h) = true /\
    Fs.lookupNode (Fs.removeTree (OMNI_JUGGLER_DIR h) f3) (JARMN_PATH h name)
      = Some (File manifest) /\
    Forall2 (fun line copy => jarCopy h name line = Ok copy)
      (jarLines (utf8 manifest)) (copiesOf h name (utf8 manifest)) /\
    copied (copiesOf h name (utf8 manifest))
      (Fs.removeTree (OMNI_JUGGLER_DIR h) f3) f5 /\
    fs w' =
      <[target := File (Zip (zipBytes h (Archive.localFolder (OMNI_EXTRACT_DIR h)
                                           (delete target f5)))
                            (Archive.localFolder (OMNI_EXTRACT_DIR h)
                               (delete target f5)))]>
        (delete target f5) /\
    log w' =
      log w ++
      rebuildEvents h target (Fs.exists_ (fs w) (OMNI_BACKUP_PATH h))
        (loopEvents (copiesOf h name (utf8 manifest))).
Proof.
  unfold rebuild.
  intros (hadBackup & w0 & Hexists & Hrest)%bind_inv_ok.
  unfold Fs.existsAsync, mbind, getFs, ret in Hexists. injection Hexists as <- <-.
  apply seq_inv_ok in Hrest as (w1 & Hbackup & Hrest).
  assert (fs w1 = backedUp h target (fs w) /\
          log w1 = log w ++ (if Fs.exists_ (fs w) (OMNI_BACKUP_PATH h) then []
                             else [EvCopyFile target (OMNI_BACKUP_PATH h)]) /\
          (Fs.exists_ (fs w) (OMNI_BACKUP_PATH h) = false ->
           exists c, Fs.lookupNode (fs w) target = Some (File c)))
    as (Hfs1 & Hlog1 & Hsource).
  { unfold backedUp. destruct (Fs.exists_ (fs w) (OMNI_BACKUP_PATH h)).
    - unfold ret in Hbackup. injection Hbackup as <-.
      rewrite app_nil_r. repeat split. discriminate.
    - apply copyFile_inv in Hbackup as (c & Hnode & Hfs & Hlog).
      rewrite Hnode. repeat split; try assumption. eauto. }
  apply seq_inv_ok in Hrest as (w2 & Hrm & Hrest).
  rewrite rm_caught in Hrm. injection Hrm as <-.
  apply seq_inv_ok in Hrest as (w3 & Hmkdir & Hrest).
  apply mkdir_inv in Hmkdir as (_ & Hfs3 & Hlog3). simpl in Hfs3, Hlog3.
  rewrite Hfs1 in Hfs3. fold (scratch h (backedUp h target (fs w))) in Hfs3.
  apply seq_inv_ok in Hrest as (w4 & Hextract & Hrest).
  apply extractAllTo_inv in Hextract as (raw & entries & Hzip & Hext & Hlog4).
  rewrite Hfs3 in Hzip, Hext.
  apply seq_inv_ok in Hrest as (w5 & Hrm & Hrest).
  apply rm_inv in Hrm as (Hjuggler & Hfs5 & Hlog5).
  apply bind_inv_ok in Hrest as (jarmn & w6 & Hread & Hrest).
  unfold Platform.readFileSync in Hread.
  apply bind_inv_ok in Hread as (manifest & w7 & Hread & Hret).
  apply readFile_inv in Hread as [Hmanifest ->].
  unfold ret in Hret. injection Hret as <- <-.
  apply seq_inv_ok in Hrest as (w8 & Hloop & Hrest).
  apply forEach_copy in Hloop as (copies & Hall & Hcopied & Hlog8).
  pose proof (copiesOf_all _ _ Hall) as Hcopies. subst copies.
  apply seq_inv_ok in Hrest as (w9 & Hunlink & Hwrite).
  apply unlink_inv in Hunlink as (Hfs9 & Hlog9).
  apply writeFolder_inv in Hwrite as (Hfs' & Hlog').
  exists raw, entries, (fs w4), manifest, (fs w8).
  rewrite Hfs5 in Hmanifest, Hcopied.
  split; [exact Hsource|]. split; [exact Hzip|]. split; [exact Hext|].
  split; [exact Hjuggler|]. split; [exact Hmanifest|]. split; [exact Hall|].
  split; [exact Hcopied|]. split.
  - rewrite Hfs', Hfs9. reflexivity.
  - rewrite Hlog', Hlog9, Hlog8, Hlog5, Hlog4, Hlog3. simpl log. rewrite Hlog1.
    unfold rebuildEvents. rewrite <- !app_assoc. reflexivity.
Qed.

Lemma extractEntry_files_outside (dest : path) (e : zipEntry) (w w' : world)
    (q : path) (c : content) :
  Archive.extractEntry dest e w = (Ok tt, w') ->
  ~ dest `prefix_of` q ->
  (fs w' !! q = Some (File c) <-> fs w !! q = Some (File c)).
Proof.
  unfold Archive.extractEntry, mbind, getFs, setFs, throw. intros Hrun Hout.
  destruct e.2 as [data|].
  - destruct (Fs.mkdirs _ (fs w)) as [f'|] eqn:Hdirs; [|discriminate].
    destruct (Fs.exists_ f' _); injection Hrun as <-; simpl.
    + apply (mkdirs_files _ _ _ _ _ Hdirs).
    + rewrite lookup_insert_ne; [apply (mkdirs_files _ _ _ _ _ Hdirs)|].
      intros <-. apply Hout. unfold Archive.entryPath. apply prefix_app_r. reflexivity.
  - destruct (Fs.mkdirs _ (fs w)) as [f'|] eqn:Hdirs; [|discriminate].
    injection Hrun as <-. simpl. apply (mkdirs_files _ _ _ _ _ Hdirs).
Qed.

Lemma extracted_files_outside (dest : path) (entries : list zipEntry) :
  forall (f f' : gmap path node) (q : path) (c : content),
    Archive.extracted dest entries f = Some f' ->
    ~ dest `prefix_of` q ->
    (f' !! q = Some (File c) <-> f !! q = Some (File c)).
Proof.
  induction entries as [|e entries IH]; intros f f' q c.
  - unfold Archive.extracted. simpl. intros [= <-] _. reflexivity.
  - intros Hall Hout.
    destruct (extractEntry_log dest e f []) as (r & f1 & He).
    unfold Archive.extracted in Hall. simpl in Hall. unfold mbind in Hall.
    rewrite He in Hall. destruct r as [[]| | |]; try discriminate.
    rewrite (IH f1 f' q c Hall Hout).
    apply (extractEntry_files_outside dest e (World f []) (World f1 [])); [apply He|exact Hout].
Qed.

Lemma prefix_snoc_out (d p : path) (x : string) :
  ~ d `prefix_of` p -> ~ (d ++ [x]) `prefix_of` p.
Proof. intros H Hpre. apply H. etrans; [|exact Hpre]. apply prefix_app_r. reflexivity. Qed.

Lemma prefix_app_out (d k p : path) :
  ~ d `prefix_of` p -> ~ (d ++ k) `prefix_of` p.
Proof. intros H Hpre. apply H. etrans; [|exact Hpre]. apply prefix_app_r. reflexivity. Qed.

Lemma not_under_ne (d p : path) : ~ d `prefix_of` p -> p <> d.
Proof. intros H ->. apply H. reflexivity. Qed.

(** The steps before the loop change no file outside the stage directory. *)
Lemma before_loop_files (target : path) (f f3 : gmap path node)
    (entries : list zipEntry) (q : path) (c : content) :
  Archive.extracted (OMNI_EXTRACT_DIR h) entries (scratch h (backedUp h target f)) = Some f3 ->
  ~ BUILD_DIRECTORY h `prefix_of` q ->
  (Fs.removeTree (OMNI_JUGGLER_DIR h) f3 !! q = Some (File c) <-> f !! q = Some (File c)).
Proof.
  intros Hext Hout.
  assert (~ OMNI_EXTRACT_DIR h `prefix_of` q) as HoutX.
  { rewrite OMNI_EXTRACT_DIR_eq. apply prefix_snoc_out, Hout. }
  assert (~ OMNI_JUGGLER_DIR h `prefix_of` q) as HoutJ.
  { rewrite OMNI_JUGGLER_DIR_eq. apply prefix_app_out, HoutX. }
  assert (q <> OMNI_BACKUP_PATH h) as HneB.
  { apply not_under_ne. rewrite OMNI_BACKUP_PATH_eq. apply prefix_snoc_out, Hout. }
  rewrite lookup_removeTree, decide_False by exact HoutJ.
  rewrite (extracted_files_outside _ _ _ _ q c Hext HoutX).
  unfold scratch. rewrite lookup_insert_ne by (apply not_eq_sym, not_under_ne, HoutX).
  assert (forall g : gmap path node,
            (if Fs.exists_ g (OMNI_EXTRACT_DIR h)
             then Fs.removeTree (OMNI_EXTRACT_DIR h) g else g) !! q = g !! q) as ->.
  { intros g. destruct (Fs.exists_ g _); [|reflexivity].
    rewrite lookup_removeTree. apply decide_False, HoutX. }
  unfold backedUp. destruct (Fs.exists_ f _); [reflexivity|].
  destruct (Fs.lookupNode f target) as [[|x]|]; try reflexivity.
  rewrite lookup_insert_ne by (apply not_eq_sym, HneB). reflexivity.
Qed.

Lemma packed_spec (dir : path) (f : gmap path node) (q : path) (n : node) :
  (q, n) ∈ Archive.packed dir f <-> f !! q = Some n /\ dir `prefix_of` q /\ q <> dir.
Proof.
  unfold Archive.packed. rewrite list_elem_of_filter, elem_of_map_to_list. simpl. tauto.
Qed.

Lemma inside_true (d p : path) : Path.inside d p = true <-> d `prefix_of` p.
Proof. unfold Path.inside. apply bool_decide_eq_true. Qed.

Lemma inside_false (d p : path) : Path.inside d p = false <-> ~ d `prefix_of` p.
Proof. unfold Path.inside. apply bool_decide_eq_false. Qed.

Lemma juggler_in_stage (q : path) :
  OMNI_JUGGLER_DIR h `prefix_of` q -> BUILD_DIRECTORY h `prefix_of` q.
Proof.
  intros Hq. etrans; [|exact Hq].
  rewrite OMNI_JUGGLER_DIR_eq, OMNI_EXTRACT_DIR_eq, <- app_assoc.
  apply prefix_app_r. reflexivity.
Qed.

Lemma lookupNode_file (f : gmap path node) (p : path) (c : content) :
  Fs.lookupNode f p = Some (File c) -> f !! p = Some (File c).
Proof. destruct p; [discriminate|trivial]. Qed.

Lemma backup_not_in_juggler : ~ OMNI_JUGGLER_DIR h `prefix_of` OMNI_BACKUP_PATH h.
Proof.
  rewrite OMNI_JUGGLER_DIR_eq, OMNI_EXTRACT_DIR_eq, OMNI_BACKUP_PATH_eq, <- app_assoc.
  intros [k Hk]. rewrite <- app_assoc in Hk. apply app_inv_head in Hk. discriminate.
Qed.

Lemma backup_not_in_scratch : ~ OMNI_EXTRACT_DIR h `prefix_of` OMNI_BACKUP_PATH h.
Proof.
  rewrite OMNI_EXTRACT_DIR_eq, OMNI_BACKUP_PATH_eq.
  intros [k Hk]. rewrite <- app_assoc in Hk. apply app_inv_head in Hk. discriminate.
Qed.

Lemma scratch_lookup_out (f : gmap path node) (q : path) :
  ~ OMNI_EXTRACT_DIR h `prefix_of` q -> scratch h f !! q = f !! q.
Proof.
  intros Hout. unfold scratch.
  rewrite lookup_insert_ne by (apply not_eq_sym, not_under_ne, Hout).
  destruct (Fs.exists_ f _); [|reflexivity].
  rewrite lookup_removeTree. apply decide_False, Hout.
Qed.

(** A rebuild that returned, seen from the world it started in. *)
Lemma rebuild_core (target : path) (w w' : world) (manifest : content) :
  rebuild h name target w = (Ok tt, w') ->
  fs w !! JARMN_PATH h name = Some (File manifest) ->
  Path.inside (BUILD_DIRECTORY h) (JARMN_PATH h name) = false ->
  tidy h (copiesOf h name (utf8 manifest)) ->
  exists f5 raw entries,
    Forall2 (fun line copy => jarCopy h name line = Ok copy)
      (jarLines (utf8 manifest)) (copiesOf h name (utf8 manifest)) /\
    fs w' =
      <[target := File (Zip (zipBytes h (Archive.localFolder (OMNI_EXTRACT_DIR h)
                                           (delete target f5)))
                            (Archive.localFolder (OMNI_EXTRACT_DIR h)
                               (delete target f5)))]>
        (delete target f5) /\
    (forall q c, OMNI_JUGGLER_DIR h `prefix_of` q ->
       (f5 !! q = Some (File c) <->
        exists src, lastCopy q (copiesOf h name (utf8 manifest)) = Some src /\
                    fs w !! src = Some (File c))) /\
    (forall q c, ~ BUILD_DIRECTORY h `prefix_of` q ->
       (f5 !! q = Some (File c) <-> fs w !! q = Some (File c))) /\
    f5 !! OMNI_BACKUP_PATH h = Some (File (Zip raw entries)) /\
    backedUp h target (fs w) !! OMNI_BACKUP_PATH h = Some (File (Zip raw entries)) /\
    log w' =
      log w ++
      rebuildEvents h target (Fs.exists_ (fs w) (OMNI_BACKUP_PATH h))
        (loopEvents (copiesOf h name (utf8 manifest))).
Proof.
  intros Hrun Hmanifest HoutM Htidy.
  apply rebuild_inv in Hrun
    as (raw & entries & f3 & manifest' & f5 & _ & Hzip & Hext & _ & Hm' & Hall &
        Hcopied & Hfs & Hlog).
  apply inside_false in HoutM.
  assert (manifest' = manifest) as ->.
  { apply lookupNode_file in Hm'.
    apply (before_loop_files target _ _ _ _ manifest' Hext HoutM) in Hm'. congruence. }
  set (copies := copiesOf h name (utf8 manifest)) in *.
  unfold tidy in Htidy. rewrite Forall_forall in Htidy.
  assert (forall copy, copy ∈ copies ->
            OMNI_JUGGLER_DIR h `prefix_of` copy.1 /\
            ~ BUILD_DIRECTORY h `prefix_of` copy.2) as Htidy'.
  { intros copy Hin. specialize (Htidy copy Hin). unfold tidyCopy in Htidy.
    apply andb_true_iff in Htidy as [H1 H2]. apply negb_true_iff in H2.
    split; [apply inside_true, H1 | apply inside_false, H2]. }
  assert (forall c1 c2, c1 ∈ copies -> c2 ∈ copies -> c1.2 <> c2.1) as Hdisj.
  { intros c1 c2 H1 H2 Heq. destruct (Htidy' c1 H1) as [_ Hsrc].
    destruct (Htidy' c2 H2) as [Hdst _]. apply Hsrc. rewrite Heq.
    apply juggler_in_stage, Hdst. }
  exists f5, raw, entries.
  split; [exact Hall|]. split; [exact Hfs|]. split; [|split; [|split; [|split]]].
  - intros q c Hq. rewrite (copied_files _ _ _ q c Hcopied Hdisj).
    destruct (lastCopy q copies) as [src|] eqn:E.
    + apply lastCopy_In in E. destruct (Htidy' _ E) as [_ Hsrc]. simpl in Hsrc.
      rewrite (before_loop_files target _ _ _ src c Hext Hsrc).
      split; [eauto|]. intros (src' & [= <-] & H). exact H.
    + rewrite lookup_removeTree, decide_True by exact Hq.
      split; [discriminate|]. intros (src & Hsrc & _). discriminate.
  - intros q c Hout. rewrite (copied_files _ _ _ q c Hcopied Hdisj).
    destruct (lastCopy q copies) as [src|] eqn:E.
    + apply lastCopy_In in E. destruct (Htidy' _ E) as [Hdst _]. simpl in Hdst.
      exfalso. apply Hout, juggler_in_stage, Hdst.
    + apply (before_loop_files target _ _ _ q c Hext Hout).
  - apply lookupNode_file in Hzip.
    apply (copied_keeps _ _ _ _ _ Hcopied).
    + intros copy Hin Heq. destruct (Htidy' _ Hin) as [Hdst _].
      apply backup_not_in_juggler. rewrite <- Heq. exact Hdst.
    + rewrite lookup_removeTree, decide_False by apply backup_not_in_juggler.
      apply (extracted_keeps _ _ _ _ _ _ Hext Hzip).
  - apply lookupNode_file in Hzip.
    rewrite scratch_lookup_out in Hzip by apply backup_not_in_scratch. exact Hzip.
  - exact Hlog.
Qed.

Lemma loopEvents_in (copies : list (path * path)) (e : event) :
  e ∈ loopEvents copies ->
  exists copy, copy ∈ copies /\
    (e = EvMkdir (dirname copy.1) \/ e = EvCopyFile copy.2 copy.1).
Proof.
  unfold loopEvents. rewrite list_elem_of_In, in_flat_map.
  intros (copy & Hin & He). exists copy. split; [apply list_elem_of_In, Hin|].
  simpl in He. destruct He as [<-|[<-|[]]]; auto.
Qed.

Lemma target_not_backup (target : path) :
  nameEndsWith "omni.ja" target = true -> target <> OMNI_BACKUP_PATH h.
Proof.
  intros Hname ->. rewrite OMNI_BACKUP_PATH_eq in Hname.
  unfold nameEndsWith in Hname. rewrite last_snoc in Hname. discriminate.
Qed.

Lemma run_ok {A} (m : M A) (w : world) (a : A) :
  (m w).1 = Ok a -> m w = (Ok a, (m w).2).
Proof. destruct (m w) as [r w']. simpl. intros ->. reflexivity. Qed.

Lemma rebuild_marker (target : path) (w w' : world) (manifest : content) :
  rebuild h name target w = (Ok tt, w') ->
  fs w !! JARMN_PATH h name = Some (File manifest) ->
  Path.inside (BUILD_DIRECTORY h) (JARMN_PATH h name) = false ->
  tidy h (copiesOf h name (utf8 manifest)) ->
  Path.inside (OMNI_JUGGLER_DIR h) target = false ->
  exists nodes,
    fs w' !! target =
      Some (File (Zip (zipBytes h (map (Archive.entryOf (OMNI_EXTRACT_DIR h)) nodes))
                      (map (Archive.entryOf (OMNI_EXTRACT_DIR h)) nodes))) /\
    (forall q n, (q, n) ∈ nodes ->
       OMNI_EXTRACT_DIR h `prefix_of` q /\ q <> OMNI_EXTRACT_DIR h) /\
    (forall q c, OMNI_JUGGLER_DIR h `prefix_of` q ->
       ((q, File c) ∈ nodes <->
        exists src, lastCopy q (copiesOf h name (utf8 manifest)) = Some src /\
                    fs w !! src = Some (File c))).
Proof.
  intros Hrun Hmanifest HoutM Htidy Htarget.
  destruct (rebuild_core target w w' manifest Hrun Hmanifest HoutM Htidy)
    as (f5 & raw & entries & _ & Hfs & Hmarker & _ & _ & _ & _).
  apply inside_false in Htarget.
  exists (Archive.packed (OMNI_EXTRACT_DIR h) (delete target f5)).
  split; [|split].
  - rewrite Hfs. apply lookup_insert_eq.
  - intros q n Hin. apply packed_spec in Hin. tauto.
  - intros q c Hq. rewrite packed_spec, <- (Hmarker q c Hq).
    rewrite lookup_delete_ne by (intros ->; apply Htarget, Hq).
    split; [tauto|]. intros Hfile. split; [exact Hfile|].
    rewrite OMNI_JUGGLER_DIR_eq in Hq. split.
    + etrans; [|exact Hq]. apply prefix_app_r. reflexivity.
    + intros ->. apply prefix_length in Hq. rewrite length_app in Hq. simpl in Hq. lia.
Qed.

Lemma rebuild_backup (target : path) (w w' : world) (manifest : content) :
  rebuild h name target w = (Ok tt, w') ->
  fs w !! JARMN_PATH h name = Some (File manifest) ->
  Path.inside (BUILD_DIRECTORY h) (JARMN_PATH h name) = false ->
  tidy h (copiesOf h name (utf8 manifest)) ->
  nameEndsWith "omni.ja" target = true ->
  Fs.exists_ (fs w') (OMNI_BACKUP_PATH h) = true /\
  (Fs.exists_ (fs w) (OMNI_BACKUP_PATH h) = true ->
   fs w' !! OMNI_BACKUP_PATH h = fs w !! OMNI_BACKUP_PATH h /\
   exists added, log w' = log w ++ added /\
     forall src, EvCopyFile src (OMNI_BACKUP_PATH h) ∉ added) /\
  (Fs.exists_ (fs w) (OMNI_BACKUP_PATH h) = false ->
   exists c, Fs.lookupNode (fs w) target = Some (File c) /\
             fs w' !! OMNI_BACKUP_PATH h = Some (File c)).
Proof.
  intros Hrun Hmanifest HoutM Htidy Hname.
  destruct (rebuild_core target w w' manifest Hrun Hmanifest HoutM Htidy)
    as (f5 & raw & entries & _ & Hfs & _ & _ & Hkept & Hbackup & Hlog).
  pose proof (target_not_backup target Hname) as Hne.
  assert (fs w' !! OMNI_BACKUP_PATH h = Some (File (Zip raw entries))) as Hafter.
  { rewrite Hfs, lookup_insert_ne, lookup_delete_ne by exact Hne. exact Hkept. }
  assert (OMNI_BACKUP_PATH h <> []) as Hnonroot.
  { rewrite OMNI_BACKUP_PATH_eq. destruct (BUILD_DIRECTORY h); discriminate. }
  split; [|split].
  - unfold Fs.exists_. rewrite (proj2 (lookupNode_Some _ _ _ Hnonroot) Hafter). reflexivity.
  - intros Hhad. unfold backedUp in Hbackup. rewrite Hhad in Hbackup.
    split; [congruence|].
    eexists. split; [exact Hlog|]. rewrite Hhad. unfold rebuildEvents.
    intros src Hin. simpl in Hin.
    apply elem_of_cons in Hin as [?|Hin]; [discriminate|].
    apply elem_of_cons in Hin as [?|Hin]; [discriminate|].
    apply elem_of_cons in Hin as [?|Hin]; [discriminate|].
    apply elem_of_cons in Hin as [?|Hin]; [discriminate|].
    apply elem_of_app in Hin as [Hin|Hin].
    + apply loopEvents_in in Hin as (copy & Hcopy & [?|Heq]); [discriminate|].
      injection Heq as _ Hdst.
      unfold tidy in Htidy. rewrite Forall_forall in Htidy.
      specialize (Htidy copy Hcopy). unfold tidyCopy in Htidy.
      apply andb_true_iff in Htidy as [Hin _]. apply inside_true in Hin.
      apply backup_not_in_juggler. rewrite Hdst. exact Hin.
    + apply elem_of_cons in Hin as [?|Hin]; [discriminate|].
      apply elem_of_cons in Hin as [?|Hin]; [discriminate|].
      inversion Hin.
  - intros Hnone. unfold backedUp in Hbackup. rewrite Hnone in Hbackup.
    destruct (Fs.lookupNode (fs w) target) as [[|c]|] eqn:E.
    + exfalso. unfold Fs.exists_ in Hnone.
      rewrite (proj2 (lookupNode_Some _ _ _ Hnonroot) Hbackup) in Hnone. discriminate.
    + rewrite lookup_insert_eq in Hbackup. exists c. split; [reflexivity|]. congruence.
    + exfalso. unfold Fs.exists_ in Hnone.
      rewrite (proj2 (lookupNode_Some _ _ _ Hnonroot) Hbackup) in Hnone. discriminate.
Qed.

(** X1 (lines 166-194): after a rebuild, the archive that is written at the
    target holds, below [chrome/juggler], exactly the files that the manifest
    maps there, each with what the source of the last line for it holds;
    nothing that the backup had there is left. *)
Theorem rebuild_marker_files (target : path) (w w' : world) (manifest : content) :
  rebuild h name target w = (Ok tt, w') ->
  fs w !! JARMN_PATH h name = Some (File manifest) ->
  Path.inside (BUILD_DIRECTORY h) (JARMN_PATH h name) = false ->
  tidy h (copiesOf h name (utf8 manifest)) ->
  Path.inside (OMNI_JUGGLER_DIR h) target = false ->
  exists nodes,
    fs w' !! target =
      Some (File (Zip (zipBytes h (map (Archive.entryOf (OMNI_EXTRACT_DIR h)) nodes))
                      (map (Archive.entryOf (OMNI_EXTRACT_DIR h)) nodes))) /\
    (forall q n, (q, n) ∈ nodes ->
       OMNI_EXTRACT_DIR h `prefix_of` q /\ q <> OMNI_EXTRACT_DIR h) /\
    (forall q c, OMNI_JUGGLER_DIR h `prefix_of` q ->
       ((q, File c) ∈ nodes <->
        exists src, lastCopy q (copiesOf h name (utf8 manifest)) = Some src /\
                    fs w !! src = Some (File c))).
Proof. apply rebuild_marker. Qed.

(** X2 (lines 162-164): the backup is written only when there is none.  For
    a manifest outside the stage directory whose lines copy into the Juggler
    directory from outside the stage directory, and an archive named
    [*omni.ja]: a rebuild that finds a backup leaves it as it is and copies
    nothing onto it; a rebuild that finds none leaves there the archive it
    was given; the backup exists after either. *)
Theorem rebuild_backup_once (target : path) (w w' : world) (manifest : content) :
  rebuild h name target w = (Ok tt, w') ->
  fs w !! JARMN_PATH h name = Some (File manifest) ->
  Path.inside (BUILD_DIRECTORY h) (JARMN_PATH h name) = false ->
  tidy h (copiesOf h name (utf8 manifest)) ->
  nameEndsWith "omni.ja" target = true ->
  Fs.exists_ (fs w') (OMNI_BACKUP_PATH h) = true /\
  (Fs.exists_ (fs w) (OMNI_BACKUP_PATH h) = true ->
   fs w' !! OMNI_BACKUP_PATH h = fs w !! OMNI_BACKUP_PATH h /\
   exists added, log w' = log w ++ added /\
     forall src, EvCopyFile src (OMNI_BACKUP_PATH h) ∉ added) /\
  (Fs.exists_ (fs w) (OMNI_BACKUP_PATH h) = false ->
   exists c, Fs.lookupNode (fs w) target = Some (File c) /\
             fs w' !! OMNI_BACKUP_PATH h = Some (File c)).
Proof. apply rebuild_backup. Qed.

(** X3 (lines 166-174): a rebuild extracts one archive only, the backup,
    into the scratch directory, with overwriting disabled and the original
    permissions kept; the archive it was given is never extracted. *)
Theorem rebuild_extracts_backup_only (target : path) (w w' : world) :
  rebuild h name target w = (Ok tt, w') ->
  exists added,
    log w' = log w ++ added /\
    EvExtractAll (OMNI_BACKUP_PATH h) (OMNI_EXTRACT_DIR h) false true ∈ added /\
    forall archive dest overwrite keep,
      EvExtractAll archive dest overwrite keep ∈ added ->
      archive = OMNI_BACKUP_PATH h /\ dest = OMNI_EXTRACT_DIR h /\
      overwrite = false /\ keep = true.
Proof.
  intros Hrun.
  apply rebuild_inv in Hrun
    as (raw & entries & f3 & manifest & f5 & _ & _ & _ & _ & _ & _ & _ & _ & Hlog).
  eexists. split; [exact Hlog|]. unfold rebuildEvents. split.
  - apply elem_of_app. right. do 2 right. left.
  - intros archive dest overwrite keep Hin.
    apply elem_of_app in Hin as [Hin|Hin].
    { destruct (Fs.exists_ _ _); [inversion Hin|].
      apply list_elem_of_singleton in Hin. discriminate. }
    simpl in Hin.
    apply elem_of_cons in Hin as [?|Hin]; [discriminate|].
    apply elem_of_cons in Hin as [?|Hin]; [discriminate|].
    apply elem_of_cons in Hin as [Heq|Hin]; [injection Heq; auto|].
    apply elem_of_cons in Hin as [?|Hin]; [discriminate|].
    apply elem_of_app in Hin as [Hin|Hin].
    + apply loopEvents_in in Hin as (copy & _ & [?|?]); discriminate.
    + apply elem_of_cons in Hin as [?|Hin]; [discriminate|].
      apply elem_of_cons in Hin as [?|Hin]; [discriminate|].
      inversion Hin.
Qed.

Lemma rebuild_frame (target : path) (w w' : world) (manifest : content) :
  rebuild h name target w = (Ok tt, w') ->
  fs w !! JARMN_PATH h name = Some (File manifest) ->
  Path.inside (BUILD_DIRECTORY h) (JARMN_PATH h name) = false ->
  tidy h (copiesOf h name (utf8 manifest)) ->
  Path.inside (BUILD_DIRECTORY h) target = true ->
  forall q c, ~ BUILD_DIRECTORY h `prefix_of` q ->
    (fs w' !! q = Some (File c) <-> fs w !! q = Some (File c)).
Proof.
  intros Hrun Hmanifest HoutM Htidy Htarget q c Hout.
  destruct (rebuild_core target w w' manifest Hrun Hmanifest HoutM Htidy)
    as (f5 & raw & entries & _ & Hfs & _ & Hframe & _).
  apply inside_true in Htarget.
  assert (target <> q) as Hne by (intros ->; contradiction).
  rewrite Hfs, lookup_insert_ne, lookup_delete_ne by exact Hne.
  apply Hframe, Hout.
Qed.

(** X4 (lines 140-194): for a manifest outside the stage directory whose
    lines copy into the Juggler directory from outside the stage directory,
    the rebuild of an archive inside the stage directory changes no file
    outside the stage directory: the manifest, the sources and everything
    else there hold after it what they held before. *)
Theorem rebuild_outside_stage (target : path) (w w' : world) (manifest : content) :
  rebuild h name target w = (Ok tt, w') ->
  fs w !! JARMN_PATH h name = Some (File manifest) ->
  Path.inside (BUILD_DIRECTORY h) (JARMN_PATH h name) = false ->
  tidy h (copiesOf h name (utf8 manifest)) ->
  Path.inside (BUILD_DIRECTORY h) target = true ->
  forall q c, ~ BUILD_DIRECTORY h `prefix_of` q ->
    (fs w' !! q = Some (File c) <-> fs w !! q = Some (File c)).
Proof. apply rebuild_frame. Qed.

(** X5 (lines 140-194): two rebuilds in a row give the same Juggler files,
    for a manifest outside the stage directory whose lines copy into the
    Juggler directory from outside the stage directory, and archives named
    [*omni.ja] outside the Juggler directory, the first one inside the stage
    directory.  The files below [chrome/juggler] of the archive that the
    second rebuild writes are those of the archive that the first one wrote;
    the second rebuild leaves the backup of the first as it is and copies
    nothing onto it. *)
Theorem rebuild_twice (t1 t2 : path) (w w1 w2 : world) (manifest : content) :
  rebuild h name t1 w = (Ok tt, w1) ->
  rebuild h name t2 w1 = (Ok tt, w2) ->
  fs w !! JARMN_PATH h name = Some (File manifest) ->
  Path.inside (BUILD_DIRECTORY h) (JARMN_PATH h name) = false ->
  tidy h (copiesOf h name (utf8 manifest)) ->
  Path.inside (BUILD_DIRECTORY h) t1 = true ->
  Path.inside (OMNI_JUGGLER_DIR h) t1 = false ->
  Path.inside (OMNI_JUGGLER_DIR h) t2 = false ->
  nameEndsWith "omni.ja" t1 = true ->
  nameEndsWith "omni.ja" t2 = true ->
  exists nodes1 nodes2,
    fs w1 !! t1 =
      Some (File (Zip (zipBytes h (map (Archive.entryOf (OMNI_EXTRACT_DIR h)) nodes1))
                      (map (Archive.entryOf (OMNI_EXTRACT_DIR h)) nodes1))) /\
    fs w2 !! t2 =
      Some (File (Zip (zipBytes h (map (Archive.entryOf (OMNI_EXTRACT_DIR h)) nodes2))
                      (map (Archive.entryOf (OMNI_EXTRACT_DIR h)) nodes2))) /\
    (forall q c, OMNI_JUGGLER_DIR h `prefix_of` q ->
       ((q, File c) ∈ nodes1 <-> (q, File c) ∈ nodes2)) /\
    fs w2 !! OMNI_BACKUP_PATH h = fs w1 !! OMNI_BACKUP_PATH h /\
    exists added, log w2 = log w1 ++ added /\
      forall src, EvCopyFile src (OMNI_BACKUP_PATH h) ∉ added.
Proof.
  intros Hrun1 Hrun2 Hmanifest HoutM Htidy Hstage Hout1 Hout2 Hname1 Hname2.
  pose proof (rebuild_frame t1 w w1 manifest Hrun1 Hmanifest HoutM Htidy Hstage)
    as Hframe.
  assert (fs w1 !! JARMN_PATH h name = Some (File manifest)) as Hmanifest1.
  { apply Hframe; [apply inside_false, HoutM | exact Hmanifest]. }
  destruct (rebuild_marker t1 w w1 manifest Hrun1 Hmanifest HoutM Htidy Hout1)
    as (nodes1 & Hzip1 & _ & Hmarker1).
  destruct (rebuild_marker t2 w1 w2 manifest Hrun2 Hmanifest1 HoutM Htidy Hout2)
    as (nodes2 & Hzip2 & _ & Hmarker2).
  destruct (rebuild_backup t1 w w1 manifest Hrun1 Hmanifest HoutM Htidy Hname1)
    as (Hhas & _).
  destruct (rebuild_backup t2 w1 w2 manifest Hrun2 Hmanifest1 HoutM Htidy Hname2)
    as (_ & Hkeep & _).
  destruct (Hkeep Hhas) as (Hsame & Hlog).
  exists nodes1, nodes2. repeat split; try assumption.
  - intros Hin. apply (Hmarker2 q c H). apply (Hmarker1 q c H) in Hin as (src & Hlast & Hsrc).
    exists src. split; [exact Hlast|]. apply Hframe; [|exact Hsrc].
    apply lastCopy_In in Hlast. unfold tidy in Htidy. rewrite Forall_forall in Htidy.
    specialize (Htidy _ Hlast). unfold tidyCopy in Htidy.
    apply andb_true_iff in Htidy as [_ Hs]. apply negb_true_iff, inside_false in Hs. exact Hs.
  - intros Hin. apply (Hmarker1 q c H). apply (Hmarker2 q c H) in Hin as (src & Hlast & Hsrc).
    exists src. split; [exact Hlast|]. apply Hframe; [|exact Hsrc].
    apply lastCopy_In in Hlast. unfold tidy in Htidy. rewrite Forall_forall in Htidy.
    specialize (Htidy _ Hlast). unfold tidyCopy in Htidy.
    apply andb_true_iff in Htidy as [_ Hs]. apply negb_true_iff, inside_false in Hs. exact Hs.
Qed.

Lemma rebuildEvents_copy (target : path) (had : bool)
    (copies : list (path * path)) (src : path) :
  tidy h copies ->
  EvCopyFile src (OMNI_BACKUP_PATH h) ∈ rebuildEvents h target had (loopEvents copies) ->
  had = false /\ src = target.
Proof.
  intros Htidy Hin. unfold rebuildEvents in Hin.
  apply elem_of_app in Hin as [Hin|Hin].
  { destruct had; [inversion Hin|].
    apply list_elem_of_singleton in Hin. injection Hin as ->. auto. }
  exfalso. simpl in Hin.
  apply elem_of_cons in Hin as [?|Hin]; [discriminate|].
  apply elem_of_cons in Hin as [?|Hin]; [discriminate|].
  apply elem_of_cons in Hin as [?|Hin]; [discriminate|].
  apply elem_of_cons in Hin as [?|Hin]; [discriminate|].
  apply elem_of_app in Hin as [Hin|Hin].
  - apply loopEvents_in in Hin as (copy & Hcopy & [?|Heq]); [discriminate|].
    injection Heq as _ Hdst.
    unfold tidy in Htidy. rewrite Forall_forall in Htidy.
    specialize (Htidy copy Hcopy). unfold tidyCopy in Htidy.
    apply andb_true_iff in Htidy as [Hin _]. apply inside_true in Hin.
    apply backup_not_in_juggler. rewrite Hdst. exact Hin.
  - apply elem_of_cons in Hin as [?|Hin]; [discriminate|].
    apply elem_of_cons in Hin as [?|Hin]; [discriminate|].
    inversion Hin.
Qed.

Lemma rebuildEvents_extract (target : path) (had : bool)
    (copies : list (path * path)) (archive dest : path) (overwrite keep : bool) :
  EvExtractAll archive dest overwrite keep
    ∈ rebuildEvents h target had (loopEvents copies) ->
  archive = OMNI_BACKUP_PATH h /\ dest = OMNI_EXTRACT_DIR h /\
  overwrite = false /\ keep = true.
Proof.
  intros Hin. unfold rebuildEvents in Hin.
  apply elem_of_app in Hin as [Hin|Hin].
  { destruct had; [inversion Hin|].
    apply list_elem_of_singleton in Hin. discriminate. }
  simpl in Hin.
  apply elem_of_cons in Hin as [?|Hin]; [discriminate|].
  apply elem_of_cons in Hin as [?|Hin]; [discriminate|].
  apply elem_of_cons in Hin as [Heq|Hin]; [injection Heq; auto|].
  apply elem_of_cons in Hin as [?|Hin]; [discriminate|].
  apply elem_of_app in Hin as [Hin|Hin].
  - apply loopEvents_in in Hin as (copy & _ & [?|?]); discriminate.
  - apply elem_of_cons in Hin as [?|Hin]; [discriminate|].
    apply elem_of_cons in Hin as [?|Hin]; [discriminate|].
    inversion Hin.
Qed.

(** C2, amended: two rebuilds of the staged build, one after the other, with
    nothing in between that changes the backup or a file outside the stage
    directory, for a manifest outside the stage directory whose lines copy
    into the Juggler directory from outside the stage directory, and archives
    named [*omni.ja] outside the Juggler directory, the first one inside the
    stage directory.  The backup is written at most once, by the first
    rebuild when it finds none, from the archive it was given; a backup that
    is there is left as it is by both rebuilds.  Each rebuild extracts the
    backup into the scratch directory and nothing else.  After each, the
    files below [chrome/juggler] of the archive that was written are exactly
    the destinations of the manifest, each with what the source of its last
    line holds: nothing of an earlier run is left. *)
Theorem patch_idempotent (t1 t2 : path) (w w1 between w2 : world)
    (manifest : content) :
  rebuild h name t1 w = (Ok tt, w1) ->
  (forall q, ~ BUILD_DIRECTORY h `prefix_of` q -> fs between !! q = fs w1 !! q) ->
  fs between !! OMNI_BACKUP_PATH h = fs w1 !! OMNI_BACKUP_PATH h ->
  rebuild h name t2 between = (Ok tt, w2) ->
  fs w !! JARMN_PATH h name = Some (File manifest) ->
  Path.inside (BUILD_DIRECTORY h) (JARMN_PATH h name) = false ->
  tidy h (copiesOf h name (utf8 manifest)) ->
  Path.inside (BUILD_DIRECTORY h) t1 = true ->
  Path.inside (OMNI_JUGGLER_DIR h) t1 = false ->
  Path.inside (OMNI_JUGGLER_DIR h) t2 = false ->
  nameEndsWith "omni.ja" t1 = true ->
  nameEndsWith "omni.ja" t2 = true ->
  let copies := copiesOf h name (utf8 manifest) in
  let hadBackup := Fs.exists_ (fs w) (OMNI_BACKUP_PATH h) in
  let first := rebuildEvents h t1 hadBackup (loopEvents copies) in
  let second := rebuildEvents h t2 true (loopEvents copies) in
  let mapped := fun (nodes : list (path * node)) =>
    forall q c, OMNI_JUGGLER_DIR h `prefix_of` q ->
      ((q, File c) ∈ nodes <->
       exists src, lastCopy q copies = Some src /\ fs w !! src = Some (File c)) in
  (hadBackup = true -> fs w1 !! OMNI_BACKUP_PATH h = fs w !! OMNI_BACKUP_PATH h) /\
  (hadBackup = false ->
   exists c, Fs.lookupNode (fs w) t1 = Some (File c) /\
             fs w1 !! OMNI_BACKUP_PATH h = Some (File c)) /\
  fs w2 !! OMNI_BACKUP_PATH h = fs w1 !! OMNI_BACKUP_PATH h /\
  log w1 = log w ++ first /\
  log w2 = log between ++ second /\
  (forall src, EvCopyFile src (OMNI_BACKUP_PATH h) ∈ first ->
     hadBackup = false /\ src = t1) /\
  (forall src, EvCopyFile src (OMNI_BACKUP_PATH h) ∉ second) /\
  (forall archive dest overwrite keep,
     EvExtractAll archive dest overwrite keep ∈ first ++ second ->
     archive = OMNI_BACKUP_PATH h /\ dest = OMNI_EXTRACT_DIR h /\
     overwrite = false /\ keep = true) /\
  EvExtractAll (OMNI_BACKUP_PATH h) (OMNI_EXTRACT_DIR h) false true ∈ first /\
  EvExtractAll (OMNI_BACKUP_PATH h) (OMNI_EXTRACT_DIR h) false true ∈ second /\
  exists nodes1 nodes2,
    fs w1 !! t1 =
      Some (File (Zip (zipBytes h (map (Archive.entryOf (OMNI_EXTRACT_DIR h)) nodes1))
                      (map (Archive.entryOf (OMNI_EXTRACT_DIR h)) nodes1))) /\
    fs w2 !! t2 =
      Some (File (Zip (zipBytes h (map (Archive.entryOf (OMNI_EXTRACT_DIR h)) nodes2))
                      (map (Archive.entryOf (OMNI_EXTRACT_DIR h)) nodes2))) /\
    mapped nodes1 /\ mapped nodes2.
Proof.
  intros Hrun1 Hsame Hbackup Hrun2 Hmanifest HoutM Htidy Hstage Hout1 Hout2
    Hname1 Hname2 copies hadBackup first second mapped.
  pose proof (rebuild_frame t1 w w1 manifest Hrun1 Hmanifest HoutM Htidy Hstage)
    as Hframe.
  assert (fs between !! JARMN_PATH h name = Some (File manifest)) as Hmanifest1.
  { rewrite Hsame by (apply inside_false, HoutM).
    apply Hframe; [apply inside_false, HoutM | exact Hmanifest]. }
  destruct (rebuild_marker t1 w w1 manifest Hrun1 Hmanifest HoutM Htidy Hout1)
    as (nodes1 & Hzip1 & _ & Hmarker1).
  destruct (rebuild_marker t2 between w2 manifest Hrun2 Hmanifest1 HoutM Htidy Hout2)
    as (nodes2 & Hzip2 & _ & Hmarker2).
  destruct (rebuild_backup t1 w w1 manifest Hrun1 Hmanifest HoutM Htidy Hname1)
    as (Hhas & Hkeep1 & Hnew1).
  assert (Fs.exists_ (fs between) (OMNI_BACKUP_PATH h) = true) as Hhas'.
  { unfold Fs.exists_ in *. rewrite OMNI_BACKUP_PATH_eq in *.
    rewrite lookupNode_snoc in *. rewrite Hbackup. exact Hhas. }
  destruct (rebuild_backup t2 between w2 manifest Hrun2 Hmanifest1 HoutM Htidy Hname2)
    as (_ & Hkeep2 & _).
  destruct (rebuild_core t1 w w1 manifest Hrun1 Hmanifest HoutM Htidy)
    as (_ & _ & _ & _ & _ & _ & _ & _ & _ & Hlog1).
  destruct (rebuild_core t2 between w2 manifest Hrun2 Hmanifest1 HoutM Htidy)
    as (_ & _ & _ & _ & _ & _ & _ & _ & _ & Hlog2).
  rewrite Hhas' in Hlog2.
  assert (forall src c, (exists q, lastCopy q copies = Some src) ->
            (fs between !! src = Some (File c) <-> fs w !! src = Some (File c)))
    as Hsources.
  { intros src c (q & Hlast).
    apply lastCopy_In in Hlast. unfold tidy in Htidy. rewrite Forall_forall in Htidy.
    specialize (Htidy _ Hlast). unfold tidyCopy in Htidy.
    apply andb_true_iff in Htidy as [_ Hs]. apply negb_true_iff, inside_false in Hs.
    simpl in Hs. rewrite (Hsame src Hs). apply Hframe, Hs. }
  split; [intros Hhad; apply (Hkeep1 Hhad)|].
  split; [exact Hnew1|].
  split; [rewrite <- Hbackup; apply (Hkeep2 Hhas')|].
  split; [exact Hlog1|].
  split; [exact Hlog2|].
  split; [intros src; apply (rebuildEvents_copy t1 hadBackup copies src Htidy)|].
  split.
  { intros src Hin. apply (rebuildEvents_copy t2 true copies src Htidy) in Hin as [? _].
    discriminate. }
  split.
  { intros archive dest overwrite keep [Hin|Hin]%elem_of_app.
    - exact (rebuildEvents_extract t1 hadBackup copies _ _ _ _ Hin).
    - exact (rebuildEvents_extract t2 true copies _ _ _ _ Hin). }
  split; [apply elem_of_app; right; do 2 right; left|].
  split; [apply elem_of_app; right; do 2 right; left|].
  exists nodes1, nodes2. split; [exact Hzip1|]. split; [exact Hzip2|].
  split; [exact Hmarker1|].
  intros q c Hq. rewrite (Hmarker2 q c Hq). split.
  - intros (src & Hlast & Hsrc). exists src. split; [exact Hlast|].
    apply (Hsources src c); eauto.
  - intros (src & Hlast & Hsrc). exists src. split; [exact Hlast|].
    apply (Hsources src c); eauto.
Qed.

End PatchFacts.

(** ** The loop over the manifest *)

Section ManifestLoop.
Import Patcher.
Variable h : host.

Lemma forEach_app {A} (f : A -> M unit) (a b : list A) (w : world) :
  forEach f (a ++ b) w = (forEach f a ;; forEach f b) w.
Proof.
  revert w. induction a as [|x a IH]; intros w; [reflexivity|].
  simpl. unfold mbind. destruct (f x w) as [[[]| | |] w1]; try reflexivity.
  rewrite IH. reflexivity.
Qed.

Lemma copyLine_copy (name line to src : string) :
  copyLine line to src ->
  jarCopy h name line =
    Ok (pathJoin h (OMNI_JUGGLER_DIR h) [to],
        pathJoin h (scriptDir h) [name; "juggler"; src]).
Proof.
  intros Hline. unfold jarCopy. rewrite (copyLine_entry _ _ _ Hline). reflexivity.
Qed.

Lemma copies_determined (name : string) (lines : list string)
    (copies copies' : list (path * path)) :
  Forall2 (fun line copy =>
             exists to src,
               copyLine line to src /\
               copy = (pathJoin h (OMNI_JUGGLER_DIR h) [to],
                       pathJoin h (scriptDir h) [name; "juggler"; src]))
          lines copies ->
  Forall2 (fun line copy => jarCopy h name line = Ok copy) lines copies' ->
  copies' = copies.
Proof.
  intros Hspec. revert copies'.
  induction Hspec as [|line copy lines copies (to & src & Hline & ->) _ IH];
    intros copies' Hrun; inversion Hrun as [|? copy' ? rest Hcopy Hrest]; subst;
    [reflexivity|].
  rewrite (copyLine_copy name _ _ _ Hline) in Hcopy. injection Hcopy as <-.
  f_equal. apply IH, Hrest.
Qed.

(** C4, amended: of the trimmed lines of the manifest, the loop runs over
    those that start with [content/] and end with a closing parenthesis, in
    their order, and over no other.  A line that is written as a destination,
    white space and a source between parentheses is applied: the directory of
    the destination is made and the source is copied to it, the destination
    being the first token below the Juggler directory and the source the
    second token without its first and last code unit, below the juggler
    directory of the browser.  When every kept line is so written and the
    loop returns, it has applied them all, in order.  A kept line without
    white space has no second token: the loop fails there with a type error,
    having applied the lines before it and none after.  The line
    [content/foo/bar.js (./foo/bar.js)] names [content/foo/bar.js] and
    [./foo/bar.js]. *)
Theorem manifest_parsing (name : string) (raws : list string) (w : world) :
  raws <> [] ->
  Forall (fun raw => occurs "010" raw = false) raws ->
  let jarmn := Js.join (String "010" "") raws in
  let kept :=
    filter (fun line => startsWith "content/" line = true /\ endsWith ")" line = true)
           (map trim raws) in
  let copyOf := fun (line : string) (copy : path * path) =>
    exists to src,
      copyLine line to src /\
      copy = (pathJoin h (OMNI_JUGGLER_DIR h) [to],
              pathJoin h (scriptDir h) [name; "juggler"; src]) in
  jarLines jarmn = kept /\
  (forall copies w',
     Forall2 copyOf kept copies ->
     forEach (copyJarLine h name) (jarLines jarmn) w = (Ok tt, w') ->
     log w' = log w ++ loopEvents copies /\ copied copies (fs w) (fs w')) /\
  (forall applied line rest copies w1,
     kept = applied ++ line :: rest ->
     Forall2 copyOf applied copies ->
     Forall (fun c => isWhiteSpace c = false) (list_ascii_of_string line) ->
     forEach (copyJarLine h name) applied w = (Ok tt, w1) ->
     exists message,
       forEach (copyJarLine h name) (jarLines jarmn) w = (Throw (TypeError message), w1) /\
       log w1 = log w ++ loopEvents copies /\ copied copies (fs w) (fs w1)) /\
  copyLine "content/foo/bar.js (./foo/bar.js)" "content/foo/bar.js" "./foo/bar.js".
Proof.
  intros Hne Hlines jarmn kept copyOf.
  assert (jarLines jarmn = kept) as Hkept.
  { unfold jarLines, jarmn, kept. rewrite (split_join _ _ Hne Hlines).
    apply list_filter_iff. intros line.
    rewrite Is_true_true, andb_true_iff. tauto. }
  split; [exact Hkept|]. rewrite Hkept. split; [|split].
  - intros copies w' Hcopies Hrun.
    destruct (forEach_copy h name kept w w' Hrun) as (copies' & Hall & Hcopied & Hlog).
    rewrite (copies_determined name kept copies copies' Hcopies Hall) in *.
    split; assumption.
  - intros applied line rest copies w1 Hsplit Hcopies Hline Hrun.
    destruct (forEach_copy h name applied w w1 Hrun) as (copies' & Hall & Hcopied & Hlog).
    rewrite (copies_determined name applied copies copies' Hcopies Hall) in *.
    eexists. split; [|split; eassumption].
    rewrite Hsplit, forEach_app. rewrite (bind_ok _ _ _ _ _ Hrun).
    simpl. unfold copyJarLine, jarCopy, jarEntry.
    rewrite (splitWs_one_token line Hline). reflexivity.
  - exists " ", "("%char, ")"%char, "".
    split; [reflexivity|].
    split; [apply Forall_test; reflexivity|].
    split; [discriminate|].
    split; [apply Forall_test; reflexivity|].
    split; [reflexivity|].
    split; [apply Forall_test; reflexivity|].
    split; [reflexivity|]. left. reflexivity.
Qed.

End ManifestLoop.

Lemma manifest_parsing_witness :
  Patcher.jarLines
    (Js.join (String "010" "")
       [ "juggler.jar:"; "% content juggler %content/";
         "  content/foo/bar.js (./foo/bar.js)"; "  content/a.js (a.js)" ])
  = filter (fun line => startsWith "content/" line = true /\ endsWith ")" line = true)
      (map trim
         [ "juggler.jar:"; "% content juggler %content/";
           "  content/foo/bar.js (./foo/bar.js)"; "  content/a.js (a.js)" ]).
Proof.
  apply (proj1 (manifest_parsing (Sample.linux Sample.offline) "firefox"
                  [ "juggler.jar:"; "% content juggler %content/";
                    "  content/foo/bar.js (./foo/bar.js)"; "  content/a.js (a.js)" ]
                  Sample.staged ltac:(discriminate)
                  ltac:(apply Forall_test; reflexivity))).
Defined.

(** A kept line without a source: the loop stops at it, and the kept line
    after it is not applied. *)
Lemma manifest_line_not_applied :
  Patcher.jarLines
    (Js.join (String "010" "") [ "content/a.js(a.js)"; "content/b.js (b.js)" ])
  = [ "content/a.js(a.js)"; "content/b.js (b.js)" ] /\
  forEach (Patcher.copyJarLine (Sample.linux Sample.offline) "firefox")
    (Patcher.jarLines
       (Js.join (String "010" "") [ "content/a.js(a.js)"; "content/b.js (b.js)" ]))
    Sample.staged
  = (Throw (TypeError "Cannot read properties of undefined (reading 'slice')"),
     Sample.staged).
Proof. split; reflexivity. Qed.

(** Witnesses of the rebuild properties, on the staged sample build. *)

Lemma sample_rebuild :
  Patcher.rebuild (Sample.linux Sample.offline) "firefox" Sample.target Sample.staged =
  (Ok tt,
   (Patcher.rebuild (Sample.linux Sample.offline) "firefox" Sample.target Sample.staged).2).
Proof. apply run_ok. vm_compute. reflexivity. Qed.

Lemma sample_rebuild_again :
  Patcher.rebuild (Sample.linux Sample.offline) "firefox" Sample.target
    (Patcher.rebuild (Sample.linux Sample.offline) "firefox" Sample.target Sample.staged).2 =
  (Ok tt,
   (Patcher.rebuild (Sample.linux Sample.offline) "firefox" Sample.target
      (Patcher.rebuild (Sample.linux Sample.offline) "firefox" Sample.target
         Sample.staged).2).2).
Proof. apply run_ok. vm_compute. reflexivity. Qed.

Lemma sample_manifest :
  fs Sample.staged !! JARMN_PATH (Sample.linux Sample.offline) "firefox"
  = Some (File Sample.manifest).
Proof. vm_compute. reflexivity. Qed.

Lemma sample_tidy :
  Patcher.tidy (Sample.linux Sample.offline)
    (Patcher.copiesOf (Sample.linux Sample.offline) "firefox" (utf8 Sample.manifest)).
Proof. apply Forall_test. vm_compute. reflexivity. Qed.

Lemma rebuild_marker_files_witness :
  exists nodes,
    fs (Patcher.rebuild (Sample.linux Sample.offline) "firefox" Sample.target
          Sample.staged).2 !! Sample.target =
      Some (File (Zip (zipBytes (Sample.linux Sample.offline)
                         (map (Archive.entryOf
                                 (OMNI_EXTRACT_DIR (Sample.linux Sample.offline))) nodes))
                      (map (Archive.entryOf
                              (OMNI_EXTRACT_DIR (Sample.linux Sample.offline))) nodes))) /\
    (["tmp"; "repackaged-firefox"; "omni"; "chrome"; "juggler"; "content"; "a.js"],
     File (Text "A")) ∈ nodes /\
    (["tmp"; "repackaged-firefox"; "omni"; "chrome"; "juggler"; "content"; "old.js"],
     File (Text "old")) ∉ nodes.
Proof.
  destruct (rebuild_marker_files (Sample.linux Sample.offline) "firefox" Sample.target
              Sample.staged _ Sample.manifest sample_rebuild sample_manifest
              ltac:(vm_compute; reflexivity) sample_tidy ltac:(vm_compute; reflexivity))
    as (nodes & Hzip & _ & Hmarker).
  exists nodes. split; [exact Hzip|]. split.
  - apply Hmarker.
    + exists ["content"; "a.js"]. reflexivity.
    + exists ["repo"; "browser_patches"; "firefox"; "juggler"; "a.js"].
      split; vm_compute; reflexivity.
  - intros Hin. apply Hmarker in Hin as (src & Hlast & _).
    + vm_compute in Hlast. discriminate.
    + exists ["content"; "old.js"]. reflexivity.
Defined.

Lemma rebuild_backup_once_witness :
  fs (Patcher.rebuild (Sample.linux Sample.offline) "firefox" Sample.target
        Sample.staged).2 !! OMNI_BACKUP_PATH (Sample.linux Sample.offline)
  = Some (File Sample.omni).
Proof.
  destruct (rebuild_backup_once (Sample.linux Sample.offline) "firefox" Sample.target
              Sample.staged _ Sample.manifest sample_rebuild sample_manifest
              ltac:(vm_compute; reflexivity) sample_tidy ltac:(vm_compute; reflexivity))
    as (_ & _ & Hfresh).
  destruct (Hfresh ltac:(vm_compute; reflexivity)) as (c & Hc & Hbackup).
  vm_compute in Hc. injection Hc as <-. exact Hbackup.
Defined.

Lemma rebuild_extracts_backup_only_witness :
  exists added,
    log (Patcher.rebuild (Sample.linux Sample.offline) "firefox" Sample.target
           Sample.staged).2 = log Sample.staged ++ added /\
    EvExtractAll (OMNI_BACKUP_PATH (Sample.linux Sample.offline))
      (OMNI_EXTRACT_DIR (Sample.linux Sample.offline)) false true ∈ added.
Proof.
  destruct (rebuild_extracts_backup_only (Sample.linux Sample.offline) "firefox"
              Sample.target Sample.staged _ sample_rebuild)
    as (added & Hlog & Hin & _).
  exists added. split; assumption.
Defined.

Lemma rebuild_outside_stage_witness :
  fs (Patcher.rebuild (Sample.linux Sample.offline) "firefox" Sample.target
        Sample.staged).2 !! ["repo"; "browser_patches"; "firefox"; "juggler"; "a.js"]
  = Some (File (Text "A")).
Proof.
  apply (rebuild_outside_stage (Sample.linux Sample.offline) "firefox" Sample.target
           Sample.staged _ Sample.manifest sample_rebuild sample_manifest
           ltac:(vm_compute; reflexivity) sample_tidy ltac:(vm_compute; reflexivity)).
  - apply inside_false. vm_compute. reflexivity.
  - vm_compute. reflexivity.
Defined.

Lemma rebuild_twice_witness :
  fs (Patcher.rebuild (Sample.linux Sample.offline) "firefox" Sample.target
        (Patcher.rebuild (Sample.linux Sample.offline) "firefox" Sample.target
           Sample.staged).2).2 !! OMNI_BACKUP_PATH (Sample.linux Sample.offline)
  = fs (Patcher.rebuild (Sample.linux Sample.offline) "firefox" Sample.target
          Sample.staged).2 !! OMNI_BACKUP_PATH (Sample.linux Sample.offline).
Proof.
  destruct (rebuild_twice (Sample.linux Sample.offline) "firefox" Sample.target
              Sample.target Sample.staged _ _ Sample.manifest
              sample_rebuild sample_rebuild_again sample_manifest
              ltac:(vm_compute; reflexivity) sample_tidy
              ltac:(vm_compute; reflexivity) ltac:(vm_compute; reflexivity)
              ltac:(vm_compute; reflexivity) ltac:(vm_compute; reflexivity)
              ltac:(vm_compute; reflexivity))
    as (nodes1 & nodes2 & _ & _ & _ & Hbackup & _).
  exact Hbackup.
Defined.

Lemma patch_idempotent_witness :
  fs (Patcher.rebuild (Sample.linux Sample.offline) "firefox" Sample.target
        (Patcher.rebuild (Sample.linux Sample.offline) "firefox" Sample.target
           Sample.staged).2).2 !! OMNI_BACKUP_PATH (Sample.linux Sample.offline)
  = Some (File Sample.omni).
Proof.
  destruct (patch_idempotent (Sample.linux Sample.offline) "firefox" Sample.target
              Sample.target Sample.staged _ _ _ Sample.manifest
              sample_rebuild (fun _ _ => eq_refl) eq_refl
              sample_rebuild_again sample_manifest
              ltac:(vm_compute; reflexivity) sample_tidy
              ltac:(vm_compute; reflexivity) ltac:(vm_compute; reflexivity)
              ltac:(vm_compute; reflexivity) ltac:(vm_compute; reflexivity)
              ltac:(vm_compute; reflexivity))
    as (_ & Hnew & Hbackup & _).
  destruct (Hnew ltac:(vm_compute; reflexivity)) as (c & Hc & Hfirst).
  vm_compute in Hc. injection Hc as <-.
  rewrite Hbackup. exact Hfirst.
Defined.

(** C2 as stated fails for a manifest whose line leaves the Juggler
    directory: the rebuild succeeds, it has written the source of that line
    over the backup that it had just made, and the archive it wrote has no
    entry below [chrome/juggler]; the next rebuild finds a backup that is no
    archive, and fails. *)
Lemma backup_overwritten :
  (Patcher.rebuild (Sample.linux Sample.offline) "firefox" Sample.target
     Sample.escaping).1 = Ok tt /\
  fs (Patcher.rebuild (Sample.linux Sample.offline) "firefox" Sample.target
        Sample.escaping).2 !! ["tmp"; "repackaged-firefox"; "omni.ja.backup"]
  = Some (File (Text "A")) /\
  existsb (fun ev => match ev with
                     | EvCopyFile src dst =>
                         bool_decide
                           (src = ["repo"; "browser_patches"; "firefox"; "juggler"; "a.js"]) &&
                         bool_decide (dst = ["tmp"; "repackaged-firefox"; "omni.ja.backup"])
                     | _ => false
                     end)
    (log (Patcher.rebuild (Sample.linux Sample.offline) "firefox" Sample.target
            Sample.escaping).2) = true /\
  match fs (Patcher.rebuild (Sample.linux Sample.offline) "firefox" Sample.target
              Sample.escaping).2 !! Sample.target with
  | Some (File (Zip _ entries)) =>
      existsb (fun e => includes "chrome/juggler" e.1) entries
  | _ => true
  end = false /\
  (Patcher.rebuild (Sample.linux Sample.offline) "firefox" Sample.target
     (Patcher.rebuild (Sample.linux Sample.offline) "firefox" Sample.target
        Sample.escaping).2).1
  = Throw (Error "Invalid or unsupported zip format").
Proof.
  split; [vm_compute; reflexivity|].
  split; [vm_compute; reflexivity|].
  split; [vm_compute; reflexivity|].
  split; vm_compute; reflexivity.
Qed.

(** ** More on the download *)

Section HttpMore.
Import Http.
Variable h : host.



(** X6 (lines 209-224): there is no bound on the redirects that are
    followed.  When every response on the way is a redirect, the request is
    still pending after any number of hops, and each hop has issued one more
    request. *)
Theorem redirects_without_end (along : string -> Prop) :
  (forall u, along u ->
     exists res l, httpGet h u = Answer res /\ redirectTarget res = Some l /\ along l) ->
  forall (fuel : nat) (first : bool) (url : string) (w : world),
    along url ->
    (httpRequest fuel h first url w).1 = Pending /\
    length (log (httpRequest fuel h first url w).2) = (length (log w) + fuel)%nat.
Proof.
  intros Hclosed. induction fuel as [|fuel IH]; intros first url w Hurl.
  - simpl. split; [reflexivity|lia].
  - destruct (Hclosed url Hurl) as (res & l & Hget & Hnext & Hl).
    simpl. rewrite seq_emit, Hget, Hnext.
    destruct (IH false l (World (fs w) (log w ++ [EvHttpRequest (isHttps url) url])) Hl)
      as [Hres Hlen].
    split; [exact Hres|]. rewrite Hlen. simpl. rewrite length_app. simpl. lia.
Qed.




Lemma downloadFile_not_200 (url : string) (hops : list string)
    (res : response) (destinationPath : path) (fuel : nat) (w : world) :
  reaches h url hops res ->
  redirectTarget res = None ->
  statusCode res <> 200 ->
  (length hops < fuel)%nat ->
  downloadFile fuel h url destinationPath w =
    (Throw (Error (failureMessage (statusCode res) url)),
     World (fs w) (log w ++ requests (url :: hops) ++ [EvResume url])).
Proof.
  intros Hchain Hend Hst Hfuel.
  unfold downloadFile, mbind at 1.
  rewrite (httpRequest_reaches h _ _ _ Hchain Hend fuel true w Hfuel).
  cbv beta zeta. cbn [fst snd].
  destruct (Z.eqb_spec (statusCode res) 200); [contradiction|].
  change (negb false) with true. cbv iota. rewrite seq_emit. unfold throw.
  simpl fs. simpl log. rewrite <- app_assoc. reflexivity.
Qed.

End HttpMore.

Lemma redirects_without_end_witness :
  (Http.httpRequest 7 (Sample.linux Sample.looping) true "http://loop/" Sample.tmpWorld).1
  = Pending.
Proof.
  apply (redirects_without_end (Sample.linux Sample.looping)
           (fun u => u = "http://loop/")).
  - intros u ->. exists (Response 302 (Some "http://loop/") None (Text "")), "http://loop/".
    repeat split.
  - reflexivity.
Defined.

(** ** More on the build cache *)

Section BuildCacheMore.
Import BuildCache.
Variable h : host.

Lemma persisted_wiped (f : gmap path node) :
  Fs.wellFormed f -> persisted h (wiped h f) = None.
Proof.
  intros Hwf. unfold persisted.
  rewrite BUILD_INFO_PATH_eq, lookupNode_snoc, (wiped_child h _ _ Hwf). reflexivity.
Qed.

(** X8 (lines 103-110): a request for a platform that the table of the
    browser does not have is handled only after the wipe.  When the name of
    the platform is no member of [Object.prototype] either, the call fails
    with the message that the platform is not supported: the stage directory
    has been emptied, nothing has been requested, and no descriptor is left,
    so that the next call cannot be a cache hit.  When it is such a member
    ([constructor], [toString], ...), the guard lets it pass: what
    [util.format] makes of the member and the build number is requested as
    the address of the download. *)
Theorem unsupported_platform_after_wipe (fuel : nat) (name n p : string)
    (urls : list (string * string)) (w : world) :
  default noBuild (persisted h (fs w)) <> JNull ->
  ~ fieldsEqual (default noBuild (persisted h (fs w))) n p name ->
  Fs.wellFormed (fs w) ->
  Fs.isDir (fs w) (dirname (BUILD_DIRECTORY h)) = true ->
  property DOWNLOAD_URLS name = Some urls ->
  property urls p = None ->
  (p ∉ OBJECT_PROTOTYPE_KEYS ->
   ensureResolved fuel h name n p w =
     (Throw (Error ("ERROR: repack-juggler does not support " +:+ p)),
      World (wiped h (fs w))
            (log w ++ [EvRm (BUILD_DIRECTORY h); EvMkdir (BUILD_DIRECTORY h)])) /\
   persisted h (wiped h (fs w)) = None) /\
  (p ∈ OBJECT_PROTOTYPE_KEYS ->
   let url := inspectMember h p +:+ " " +:+ n in
   ensureResolved fuel h name n p w =
     (Http.downloadFile fuel h url (BUILD_DIRECTORY h ++ ["firefox.zip"]) ;;
      Archive.extractAllTo (BUILD_DIRECTORY h ++ ["firefox.zip"]) (BUILD_DIRECTORY h) ;;
      Fs.writeFile (BUILD_INFO_PATH h)
        (Json (stringify n p name) (descriptor n p name)) ;;
      ret (descriptor n p name))
       (World (wiped h (fs w))
              (log w ++ [EvRm (BUILD_DIRECTORY h); EvMkdir (BUILD_DIRECTORY h)])) /\
   (forall msg rest, fuel = S rest -> httpGet h url = NetworkError msg ->
      ensureResolved fuel h name n p w =
        (Throw (Error msg),
         World (wiped h (fs w))
               (log w ++ [EvRm (BUILD_DIRECTORY h); EvMkdir (BUILD_DIRECTORY h);
                          EvHttpRequest (Http.isHttps url) url])))).
Proof.
  intros Hnull Hne Hwf Hparent Hurls Hnone.
  pose proof (ensure_miss h fuel name n p w (sameBuild_false _ _ _ _ Hnull Hne)) as Hmiss.
  rewrite (bind_ok _ _ _ _ _ (wipe_spec h w Hparent)) in Hmiss. fold (wiped h (fs w)) in Hmiss.
  split.
  - intros Hout. split; [|apply persisted_wiped, Hwf].
    rewrite Hmiss. apply fetch_refused, (downloadUrl_absent h _ _ _ _ Hurls).
    unfold get. rewrite Hnone, bool_decide_eq_false_2 by exact Hout. reflexivity.
  - intros Hin url.
    assert (downloadUrl h name n p = Ok url) as Hurl.
    { apply (downloadUrl_inherited h _ _ _ _ Hurls).
      unfold get. rewrite Hnone, bool_decide_eq_true_2 by exact Hin. reflexivity. }
    rewrite Hmiss, (fetch_url h fuel _ _ _ _ _ Hurl). split; [reflexivity|].
    intros msg rest -> Hget.
    apply bind_throw. unfold Http.downloadFile. apply bind_throw.
    simpl. rewrite seq_emit, Hget. unfold throw. cbn [fs log].
    rewrite <- app_assoc. reflexivity.
Qed.

(** X9 (lines 103-119, 233-240): when the download ends in a status other
    than 200, [ensureFirefoxBuild] fails with the download error after the
    wipe: the stage directory is empty, nothing was extracted and no
    descriptor is left. *)
Theorem failed_download_leaves_empty_stage (fuel : nat) (name n p : string)
    (urls : list (string * string)) (template : string) (hops : list string)
    (res : response) (w : world) :
  default noBuild (persisted h (fs w)) <> JNull ->
  ~ fieldsEqual (default noBuild (persisted h (fs w))) n p name ->
  Fs.wellFormed (fs w) ->
  Fs.isDir (fs w) (dirname (BUILD_DIRECTORY h)) = true ->
  property DOWNLOAD_URLS name = Some urls ->
  property urls p = Some template ->
  isEmpty template = false ->
  Http.reaches h (format template n) hops res ->
  Http.redirectTarget res = None ->
  statusCode res <> 200 ->
  (length hops < fuel)%nat ->
  ensureResolved fuel h name n p w =
    (Throw (Error (Http.failureMessage (statusCode res) (format template n))),
     World (wiped h (fs w))
           (log w ++ [EvRm (BUILD_DIRECTORY h); EvMkdir (BUILD_DIRECTORY h)] ++
            Http.requests (format template n :: hops) ++
            [EvResume (format template n)])) /\
  persisted h (wiped h (fs w)) = None /\
  (forall q, BUILD_DIRECTORY h `prefix_of` q -> q <> BUILD_DIRECTORY h ->
             wiped h (fs w) !! q = None).
Proof.
  intros Hnull Hne Hwf Hparent Hurls Htemplate Hnonempty Hchain Hend Hst Hfuel.
  split; [|split; [apply persisted_wiped, Hwf | intros q; apply wiped_empty, Hwf]].
  rewrite (ensure_miss h fuel name n p w (sameBuild_false _ _ _ _ Hnull Hne)).
  rewrite (bind_ok _ _ _ _ _ (wipe_spec h w Hparent)).
  rewrite (fetch_url h fuel _ _ _ _ _ (downloadUrl_own h _ n _ _ _ Hurls Htemplate Hnonempty)).
  erewrite bind_throw; cycle 1.
  { apply (downloadFile_not_200 h _ _ _ _ _ _ Hchain Hend Hst Hfuel). }
  cbn [fs log]. rewrite <- !app_assoc. reflexivity.
Qed.

(** X10 (lines 99-102): a descriptor file that holds JSON but no object.
    For [null] the comparison throws a [TypeError] and nothing is wiped or
    fetched; for a number, a string, a boolean or an array the three fields
    are undefined and the call is a miss. *)
Theorem descriptor_not_an_object (fuel : nat) (name n p : string) (w : world)
    (v : json) :
  persisted h (fs w) = Some v ->
  (forall fields, v <> JObj fields) ->
  (v = JNull ->
   exists msg, ensureResolved fuel h name n p w = (Throw (TypeError msg), w)) /\
  (v <> JNull ->
   ensureResolved fuel h name n p w = (wipe h ;; fetch fuel h name n p) w).
Proof.
  intros Hv Hobj. split.
  - intros ->. unfold ensureResolved.
    rewrite (bind_ok _ _ _ _ _ (readBuildInfo_spec h w)), Hv.
    unfold mbind, liftResult. simpl. eauto.
  - intros Hnull. apply ensure_miss. rewrite Hv. simpl.
    destruct v; try contradiction; try reflexivity.
    exfalso. apply (Hobj fields). reflexivity.
Qed.

End BuildCacheMore.

Lemma sample_persisted :
  BuildCache.persisted (Sample.linux (Sample.mirror (Text "zip"))) (fs Sample.staged)
  = Some (BuildCache.descriptor "1234" "ubuntu20.04" "firefox").
Proof. vm_compute. reflexivity. Qed.

Lemma sample_wellFormed : Fs.wellFormed (fs Sample.staged).
Proof. apply wellFormed_decide. vm_compute. reflexivity. Qed.

Lemma sample_parent :
  Fs.isDir (fs Sample.staged)
    (dirname (BUILD_DIRECTORY (Sample.linux (Sample.mirror (Text "zip"))))) = true.
Proof. vm_compute. reflexivity. Qed.

Lemma unsupported_platform_after_wipe_witness :
  (BuildCache.ensureResolved 3 (Sample.linux (Sample.mirror (Text "zip"))) "firefox"
     "1234" "ubuntu22.04" Sample.staged).1
  = Throw (Error "ERROR: repack-juggler does not support ubuntu22.04").
Proof.
  assert (default BuildCache.noBuild
            (BuildCache.persisted (Sample.linux (Sample.mirror (Text "zip")))
               (fs Sample.staged)) <> JNull) as Hnull
    by (rewrite sample_persisted; discriminate).
  assert (~ BuildCache.fieldsEqual
              (default BuildCache.noBuild
                 (BuildCache.persisted (Sample.linux (Sample.mirror (Text "zip")))
                    (fs Sample.staged))) "1234" "ubuntu22.04" "firefox") as Hne
    by (rewrite sample_persisted; intros (H & _); discriminate H).
  assert ("ubuntu22.04" ∉ OBJECT_PROTOTYPE_KEYS) as Hout
    by (apply (bool_decide_eq_false_1 _); reflexivity).
  rewrite (proj1 (proj1 (unsupported_platform_after_wipe
                    (Sample.linux (Sample.mirror (Text "zip"))) 3 "firefox" "1234"
                    "ubuntu22.04" _ Sample.staged Hnull Hne sample_wellFormed
                    sample_parent eq_refl eq_refl) Hout)).
  reflexivity.
Defined.

Lemma failed_download_leaves_empty_stage_witness :
  (BuildCache.ensureResolved 3 (Sample.linux (Sample.mirror (Text "zip"))) "firefox"
     "1235" "ubuntu20.04" Sample.staged).1
  = Throw (Error
      "Download failed: server returned code 404. URL: https://playwright.azureedge.net/builds/firefox/1235/firefox-ubuntu-20.04.zip").
Proof.
  assert (default BuildCache.noBuild
            (BuildCache.persisted (Sample.linux (Sample.mirror (Text "zip")))
               (fs Sample.staged)) <> JNull) as Hnull
    by (rewrite sample_persisted; discriminate).
  assert (~ BuildCache.fieldsEqual
              (default BuildCache.noBuild
                 (BuildCache.persisted (Sample.linux (Sample.mirror (Text "zip")))
                    (fs Sample.staged))) "1235" "ubuntu20.04" "firefox") as Hne
    by (rewrite sample_persisted; intros (_ & H & _); discriminate H).
  assert (Http.reaches (Sample.linux (Sample.mirror (Text "zip")))
            (format "https://playwright.azureedge.net/builds/firefox/%s/firefox-ubuntu-20.04.zip"
                    "1235")
            [] (Response 404 None None (Text "not found"))) as Hchain
    by (apply Http.reaches_here; reflexivity).
  rewrite (proj1 (failed_download_leaves_empty_stage
                    (Sample.linux (Sample.mirror (Text "zip"))) 3 "firefox" "1235"
                    "ubuntu20.04" _ _ [] (Response 404 None None (Text "not found"))
                    Sample.staged Hnull Hne sample_wellFormed sample_parent
                    eq_refl eq_refl eq_refl Hchain eq_refl
                    ltac:(discriminate) ltac:(simpl; lia))).
  reflexivity.
Defined.

Lemma descriptor_not_an_object_witness :
  BuildCache.ensureResolved 3 (Sample.linux Sample.cdn) "firefox" "1234" "ubuntu20.04"
    Sample.numbered =
  (let* _ := BuildCache.wipe (Sample.linux Sample.cdn) in
   BuildCache.fetch 3 (Sample.linux Sample.cdn) "firefox" "1234" "ubuntu20.04")
    Sample.numbered.
Proof.
  apply (proj2 (descriptor_not_an_object (Sample.linux Sample.cdn) 3 "firefox" "1234"
                  "ubuntu20.04" Sample.numbered (JNum 42)
                  ltac:(vm_compute; reflexivity) ltac:(discriminate))).
  discriminate.
Defined.

(** ** More on the host platform *)

Section PlatformMore.
Import Platform.
Variable h : host.

(** X11 (lines 295-330): [getHostPlatform] leaves the file system alone and
    runs nothing but the two version queries; away from darwin it runs
    nothing at all. *)
Theorem getHostPlatform_effects (w : world) :
  exists added,
    log (getHostPlatform h w).2 = log w ++ added /\
    fs (getHostPlatform h w).2 = fs w /\
    (forall e, e ∈ added -> e = EvExec SW_VERS \/ e = EvExec SYSCTL_ARM64) /\
    (os_platform h <> "darwin" -> added = []).
Proof.
  assert (exists added,
            log (getHostPlatform h w).2 = log w ++ added /\
            (forall e, e ∈ added -> e = EvExec SW_VERS \/ e = EvExec SYSCTL_ARM64) /\
            (os_platform h <> "darwin" -> added = []))
    as (added & Hlog & Hin & Hnone).
  { unfold getHostPlatform.
    destruct (bool_decide (os_platform h = "darwin")) eqn:Hos.
    - apply bool_decide_eq_true_1 in Hos.
      unfold mbind at 1. unfold exec at 1. rewrite seq_emit.
      destruct (execSync h SW_VERS) as [out|e|n|].
      2,3,4: (exists [EvExec SW_VERS]; split; [reflexivity|];
              split; [intros e' He; apply list_elem_of_singleton in He; auto
                     | congruence]).
      destruct (numGe _ 11).
      + unfold mbind, exec. rewrite seq_emit.
        exists [EvExec SW_VERS; EvExec SYSCTL_ARM64].
        split; [|split; [|congruence]].
        * destruct (execSync h SYSCTL_ARM64); cbn [fst snd fs log ret];
            rewrite <- app_assoc; reflexivity.
        * intros e' He. apply elem_of_cons in He as [->|He]; [auto|].
          apply list_elem_of_singleton in He. auto.
      + exists [EvExec SW_VERS]. unfold mbind, ret.
        split; [reflexivity|]. split; [|congruence].
        intros e' He. apply list_elem_of_singleton in He. auto.
    - exists []. rewrite app_nil_r.
      split; [|split; [intros e He; inversion He|reflexivity]].
      destruct (bool_decide (os_platform h = "linux")) eqn:Hlinux.
      + apply bool_decide_eq_true_1 in Hlinux. unfold mbind.
        rewrite (getUbuntuVersionSync_linux h w Hlinux).
        destruct (numLe _ 19); reflexivity.
      + destruct (bool_decide (os_platform h = "win32")); reflexivity. }
  exists added. split; [exact Hlog|]. split; [apply getHostPlatform_fs|].
  split; assumption.
Qed.

Lemma darwin_other (out : string) (major : jsnum) (w : world) :
  os_platform h = "darwin" ->
  execSync h SW_VERS = Ok out ->
  productVersion out !! 0%nat = Some major ->
  numGe major 11 = false -> numEq major 10 = false ->
  getHostPlatform h w =
    (Ok ("mac" +:+ showNum (showDouble h) major),
     World (fs w) (log w ++ [EvExec SW_VERS])).
Proof.
  intros Hos Hout Hmajor Hge Heq. unfold getHostPlatform. rewrite Hos.
  rewrite bool_decide_eq_true_2 by reflexivity.
  unfold mbind at 1. rewrite (exec_ok h _ _ _ Hout). rewrite Hmajor.
  simpl default. rewrite Hge, Heq. unfold LAST_STABLE_MAC_MAJOR_VERSION.
  assert (numGt major 11 = false) as ->.
  { destruct major as [|z]; [reflexivity|]. simpl in *.
    apply Z.ltb_ge. apply Z.leb_gt in Hge. lia. }
  unfold mbind, ret. rewrite append_empty_r. reflexivity.
Qed.

Lemma untabled_digit (d : nat) :
  (d < 10)%nat ->
  property EXECUTABLE_PATHS ("mac" +:+ String (digitChar d) "") = None /\
  (forall name urls, property DOWNLOAD_URLS name = Some urls ->
                     get urls ("mac" +:+ String (digitChar d) "") = Absent).
Proof.
  intros Hd.
  do 10 (destruct d as [|d];
         [split; [reflexivity|];
          intros name urls; unfold DOWNLOAD_URLS, property;
          repeat case_bool_decide; intros Hurls; try discriminate;
          injection Hurls as <-; reflexivity|]).
  lia.
Qed.

(** X12 (lines 63-92, 296-320): a darwin version whose major number is
    written with the single digit [d], or whose first component is no number,
    is not clamped and is not probed for arm64: the tag is [mac<d>], or
    [macNaN].  Neither table has such a tag, and it is no member of
    [Object.prototype]: there is no executable path and no download URL for
    it. *)
Theorem darwin_below_ten (out : string) (w : world) :
  os_platform h = "darwin" ->
  execSync h SW_VERS = Ok out ->
  (forall (d : nat) (tail : string),
     (d < 10)%nat ->
     trim out = String (digitChar d) tail ->
     tail = "" \/ (exists rest, tail = String "." rest) ->
     let tag := "mac" +:+ String (digitChar d) "" in
     getHostPlatform h w = (Ok tag, World (fs w) (log w ++ [EvExec SW_VERS])) /\
     property EXECUTABLE_PATHS tag = None /\
     (forall name urls, property DOWNLOAD_URLS name = Some urls ->
                        get urls tag = Absent)) /\
  (productVersion out !! 0%nat = Some NaN ->
   getHostPlatform h w = (Ok "macNaN", World (fs w) (log w ++ [EvExec SW_VERS])) /\
   property EXECUTABLE_PATHS "macNaN" = None /\
   (forall name urls, property DOWNLOAD_URLS name = Some urls ->
                      get urls "macNaN" = Absent)).
Proof.
  intros Hos Hout. split.
  - intros d tail Hd Htext Htail tag. split; [|apply untabled_digit, Hd].
    assert (productVersion out !! 0%nat = Some (Num (Z.of_nat d))) as Hmajor.
    { unfold productVersion. rewrite Htext.
      assert (exists more, Js.split "." (String (digitChar d) tail)
                           = digitString [d] :: more) as [more ->].
      { destruct Htail as [-> | [rest ->]].
        - rewrite split_no_separator; [eauto|].
          apply (occurs_digits "." [d]); [apply Forall_singleton, Hd|].
          apply digit_not_dot.
        - change (String (digitChar d) (String "." rest))
            with (digitString [d] +:+ String "." rest).
          rewrite split_first; [eauto|].
          apply (occurs_digits "." [d]); [apply Forall_singleton, Hd|].
          apply digit_not_dot. }
      change (map parseInt (digitString [d] :: more) !! 0%nat)
        with (Some (parseInt (digitString [d]))).
      rewrite parseInt_digits by (discriminate || apply Forall_singleton, Hd).
      unfold digitsValue. simpl. reflexivity. }
    rewrite (darwin_other out _ w Hos Hout Hmajor).
    + replace (Z.of_nat d) with (digitsValue [d]) by (unfold digitsValue; simpl; lia).
      rewrite showNum_digits; [reflexivity| |simpl; lia].
      split; [discriminate|]. split; [apply Forall_singleton, Hd|].
      simpl. intros [= ->]. reflexivity.
    + simpl. apply Z.leb_gt. lia.
    + simpl. apply Z.eqb_neq. lia.
  - intros Hnan. split; [apply (darwin_other out NaN w Hos Hout Hnan); reflexivity|].
    split; [reflexivity|].
    intros name urls. unfold DOWNLOAD_URLS, property.
    repeat case_bool_decide; intros Hurls; try discriminate;
      injection Hurls as <-; reflexivity.
Qed.

(** X13 (lines 63-92, 295-330): on linux, on win32 and on darwin from major
    version 11 on, the tag that [getHostPlatform] returns has a download URL
    for both browsers and an executable path. *)
Theorem host_tag_supported (tag : string) (w w' : world) :
  getHostPlatform h w = (Ok tag, w') ->
  os_platform h = "linux" \/ os_platform h = "win32" \/
  (os_platform h = "darwin" /\
   exists out m, execSync h SW_VERS = Ok out /\
                 productVersion out !! 0%nat = Some (Num m) /\ 11 <= m) ->
  supported tag = true.
Proof.
  intros Hrun [Hos | [Hos | (Hos & out & m & Hout & Hm & Hge)]].
  - unfold getHostPlatform in Hrun. rewrite Hos in Hrun.
    rewrite bool_decide_eq_false_2, bool_decide_eq_true_2 in Hrun by done.
    unfold mbind in Hrun. rewrite (getUbuntuVersionSync_linux h w Hos) in Hrun.
    destruct (numLe _ 19); injection Hrun as <- _; reflexivity.
  - unfold getHostPlatform in Hrun. rewrite Hos in Hrun.
    rewrite !bool_decide_eq_false_2, bool_decide_eq_true_2 in Hrun by done.
    injection Hrun as <- _. reflexivity.
  - destruct (execSync h SYSCTL_ARM64) as [probe|e|n|] eqn:Hprobe.
    + rewrite (darwin_major h out m w Hos Hout Hm Hge probe Hprobe) in Hrun.
      injection Hrun as <- _. destruct (bool_decide _); reflexivity.
    + exfalso. revert Hrun. unfold getHostPlatform. rewrite Hos.
      rewrite bool_decide_eq_true_2 by reflexivity.
      unfold mbind at 1. rewrite (exec_ok h _ _ _ Hout), Hm. simpl default.
      assert (numGe (Num m) 11 = true) as -> by (apply Z.leb_le; lia).
      unfold mbind, exec. rewrite seq_emit, Hprobe. discriminate.
    + exfalso. revert Hrun. unfold getHostPlatform. rewrite Hos.
      rewrite bool_decide_eq_true_2 by reflexivity.
      unfold mbind at 1. rewrite (exec_ok h _ _ _ Hout), Hm. simpl default.
      assert (numGe (Num m) 11 = true) as -> by (apply Z.leb_le; lia).
      unfold mbind, exec. rewrite seq_emit, Hprobe. discriminate.
    + exfalso. revert Hrun. unfold getHostPlatform. rewrite Hos.
      rewrite bool_decide_eq_true_2 by reflexivity.
      unfold mbind at 1. rewrite (exec_ok h _ _ _ Hout), Hm. simpl default.
      assert (numGe (Num m) 11 = true) as -> by (apply Z.leb_le; lia).
      unfold mbind, exec. rewrite seq_emit, Hprobe. discriminate.
Qed.

End PlatformMore.

(** X14 (lines 63-92): the two tables agree.  A platform that has a download
    URL for one browser has one for the other, and has an executable path, so
    that a build that could be downloaded can be launched. *)
Theorem downloadable_is_launchable (name tag template : string)
    (urls : list (string * string)) :
  property DOWNLOAD_URLS name = Some urls ->
  property urls tag = Some template ->
  supported tag = true.
Proof.
  unfold DOWNLOAD_URLS, property.
  repeat case_bool_decide; intros Hurls; try discriminate; injection Hurls as <-;
    repeat case_bool_decide; intros Htag; try discriminate; subst; reflexivity.
Qed.

Lemma darwin_below_ten_witness :
  Platform.getHostPlatform (Sample.mac "9.3" "1") Sample.emptyWorld
  = (Ok "mac9", World ∅ [EvExec Platform.SW_VERS]) /\
  Platform.getHostPlatform (Sample.mac "beta" "1") Sample.emptyWorld
  = (Ok "macNaN", World ∅ [EvExec Platform.SW_VERS]).
Proof.
  split.
  - apply (proj1 (darwin_below_ten (Sample.mac "9.3" "1") "9.3" Sample.emptyWorld
                    eq_refl eq_refl) 9%nat ".3" ltac:(lia) eq_refl).
    right. eauto.
  - apply (proj2 (darwin_below_ten (Sample.mac "beta" "1") "beta" Sample.emptyWorld
                    eq_refl eq_refl) eq_refl).
Defined.

Lemma host_tag_supported_witness : supported "mac11-arm64" = true.
Proof.
  apply (host_tag_supported (Sample.mac "12.1" "1") "mac11-arm64" Sample.emptyWorld
           (World ∅ [EvExec Platform.SW_VERS; EvExec Platform.SYSCTL_ARM64])
           eq_refl).
  right. right. split; [reflexivity|].
  exists "12.1", 12. repeat split. lia.
Defined.

Lemma downloadable_is_launchable_witness : supported "win64" = true.
Proof.
  apply (downloadable_is_launchable "firefox-beta" "win64" _ _ eq_refl eq_refl).
Defined.

(** ** The download address *)

(** X15 (lines 73-92, 107-110): the address that is requested for a browser
    and a platform of the table is the builds address followed by the
    browser's name, the build number, and a zip file named after the
    browser. *)
Theorem download_url_shape (name tag template buildNumber : string)
    (urls : list (string * string)) :
  property DOWNLOAD_URLS name = Some urls ->
  property urls tag = Some template ->
  exists file,
    format template buildNumber =
      "https://playwright.azureedge.net/builds/" +:+ name +:+ "/" +:+ buildNumber
        +:+ "/" +:+ file /\
    startsWith (name +:+ "-") file = true /\ endsWith ".zip" file = true.
Proof.
  unfold DOWNLOAD_URLS, property.
  repeat case_bool_decide; intros Hurls; try discriminate; injection Hurls as <-;
    repeat case_bool_decide; intros Htag; try discriminate; injection Htag as <-; subst;
    match goal with
    | |- exists file, format ?T _ = ?pre +:+ ?name +:+ _ /\ _ =>
        let file := eval vm_compute in
          (substring (String.length pre + String.length name + 4)
                     (String.length T) T) in
        exists file; split; [|split; reflexivity];
        apply (format_substitutes (pre +:+ name +:+ "/") (String "/" file) buildNumber);
        reflexivity
    end.
Qed.

(** ** The release file *)

Section ReleaseFacts.
Import Platform.

(** X16 (lines 277-286): a line of the release file is cut at its first
    equals sign only: what follows is the value, later equals signs
    included, trimmed and without a pair of enclosing double quotes; the name
    is entered in lower case.  A line without an equals sign enters the
    empty value, and a line that starts with one enters nothing. *)
Theorem release_line_cut_once (fields : gmap string string) (name value : string) :
  occurs "=" name = false ->
  name <> "" ->
  setField fields (name +:+ String "=" value) =
    <[toLowerCase name :=
        if startsWith (String dquote "") (trim value) && endsWith (String dquote "") (trim value)
        then jsSubstring 1 (Z.of_nat (String.length (trim value)) - 1) (trim value)
        else trim value]> fields /\
  setField fields name = <[toLowerCase name := ""]> fields /\
  setField fields (String "=" value) = fields.
Proof.
  intros Hfree Hname. unfold setField. split; [|split].
  - rewrite (split_first "=" name value Hfree), join_split.
    destruct name; [contradiction|]. reflexivity.
  - rewrite (split_no_separator "=" name Hfree).
    destruct name; [contradiction|]. reflexivity.
  - simpl. destruct (ascii_dec "=" "="); [reflexivity|congruence].
Qed.

End ReleaseFacts.

(** ** The script as a whole *)

Section ScriptFacts.
Import BuildCache Patcher.
Variable h : host.

(** X17 (lines 33-48): when the first argument is not one of the four
    browser names, [--help] and [-h] and no argument at all included, the
    script exits with status 1 and does nothing else. *)
Theorem main_usage (fuel : nat) (args : list string) (w : world) :
  args !! 0%nat <> Some "firefox" -> args !! 0%nat <> Some "ff" ->
  args !! 0%nat <> Some "firefox-beta" -> args !! 0%nat <> Some "ff-beta" ->
  main fuel h args w = (Exit 1, w).
Proof.
  intros H1 H2 H3 H4. unfold main, browserName.
  rewrite (bool_decide_eq_false_2 _ H1), (bool_decide_eq_false_2 _ H2),
    (bool_decide_eq_false_2 _ H3), (bool_decide_eq_false_2 _ H4).
  destruct (_ || _); reflexivity.
Qed.

(** X18 (lines 40-44): [ff] stands for [firefox] and [ff-beta] for
    [firefox-beta]: the script does the same for either. *)
Theorem main_aliases (fuel : nat) (rest : list string) (w : world) :
  main fuel h ("ff" :: rest) w = main fuel h ("firefox" :: rest) w /\
  main fuel h ("ff-beta" :: rest) w = main fuel h ("firefox-beta" :: rest) w.
Proof. split; reflexivity. Qed.

(** X19 (lines 332-337): an error of [ensureFirefoxBuild] ends the script
    with status 1 in the world the error left; nothing is repackaged. *)
Theorem main_reports_failure (fuel : nat) (name : string) (args : list string)
    (e : error) (w w' : world) :
  browserName (args !! 0%nat) = Some name ->
  ensureFirefoxBuild fuel h name (args !! 1%nat) (args !! 2%nat) w = (Throw e, w') ->
  main fuel h args w = (Exit 1, w').
Proof.
  intros Hname Hensure. unfold main. rewrite Hname.
  assert (bool_decide (args !! 0%nat = Some "--help") || bool_decide (args !! 0%nat = Some "-h")
          = false) as ->.
  { unfold browserName in Hname.
    apply orb_false_iff. split; apply bool_decide_eq_false_2; intros Harg;
      rewrite Harg in Hname; discriminate. }
  unfold mbind. rewrite (catch_throw _ _ _ _ _ Hensure). reflexivity.
Qed.

(** X20 (lines 95-96): without a build number on the command line the
    number is read from the [BUILD_NUMBER] file of the browser; when that
    file cannot be read, [ensureFirefoxBuild] fails at once: the staged build
    is not touched and nothing is requested. *)
Theorem build_number_file_required (fuel : nat) (name : string)
    (buildNumber buildPlatform : option string) (w : world) :
  given buildNumber = None ->
  (forall c, Fs.lookupNode (fs w) (pathJoin h (scriptDir h) [name; "BUILD_NUMBER"])
             <> Some (File c)) ->
  exists code,
    ensureFirefoxBuild fuel h name buildNumber buildPlatform w =
      (Throw (IOError code (Js.join "/" (pathJoin h (scriptDir h) [name; "BUILD_NUMBER"]))), w).
Proof.
  intros Hgiven Hfile. unfold ensureFirefoxBuild, resolve. rewrite Hgiven.
  unfold Platform.readFileSync, Fs.readFile, mbind, getFs, throw.
  destruct (Fs.lookupNode (fs w) _) as [[|c]|] eqn:E.
  - exists "EISDIR". reflexivity.
  - destruct (Hfile c eq_refl).
  - exists "ENOENT". reflexivity.
Qed.

(** X21 (lines 95-98): a missing build number is the first line of the
    [BUILD_NUMBER] file, whatever follows it; the read changes nothing. *)
Theorem build_number_first_line (name number rest tag : string)
    (buildNumber : option string) (c : content) (w : world) :
  given buildNumber = None ->
  Fs.lookupNode (fs w) (pathJoin h (scriptDir h) [name; "BUILD_NUMBER"]) = Some (File c) ->
  utf8 c = number \/ utf8 c = number +:+ String "010" rest ->
  occurs "010" number = false ->
  tag <> "" ->
  resolve h name buildNumber (Some tag) w = (Ok (number, tag), w).
Proof.
  intros Hgiven Hfile Htext Hline Htag.
  unfold resolve. rewrite Hgiven.
  unfold Platform.readFileSync, Fs.readFile, mbind, getFs, ret. rewrite Hfile.
  assert (head (Js.split "010" (utf8 c)) = Some number) as ->.
  { destruct Htext as [-> | ->].
    - rewrite split_no_separator by assumption. reflexivity.
    - rewrite split_first by assumption. reflexivity. }
  destruct tag; [contradiction|]. reflexivity.
Qed.

(** X22 (lines 147-156): the search opens the candidates in order; one that
    is not a zip archive ends it with an error, whatever comes after. *)
Theorem search_stops_at_broken_archive (before after : list path) (bad : path)
    (w : world) :
  Forall (fun p => isArchive (fs w) p = true) before ->
  Forall (fun p => jugglerIn h (fs w) p = false) before ->
  isArchive (fs w) bad = false ->
  exists e, findOmniWithJuggler h (before ++ bad :: after) w = (Throw e, w).
Proof.
  intros Hzip Hno Hbad. induction before as [|p before IH].
  - clear Hzip Hno. simpl. unfold isArchive in Hbad.
    unfold Archive.open, Fs.readFile, mbind, getFs, throw.
    destruct (Fs.lookupNode (fs w) bad) as [[|[t|t v|s entries]]|];
      try discriminate; eauto.
  - inversion Hzip; inversion Hno; subst.
    change ((p :: before) ++ bad :: after) with (p :: before ++ bad :: after).
    rewrite findOmni_skip by assumption. apply IH; assumption.
Qed.

End ScriptFacts.

(** ** The enumeration of the staged files *)

Section ListFacts.
Import Patcher.

Lemma children_spec (f : gmap path node) (p c : path) :
  c ∈ children f p <-> (exists x n, c = p ++ [x] /\ f !! c = Some n).
Proof.
  unfold children. rewrite list_elem_of_filter, list_elem_of_fmap. split.
  - intros [[Hne Hdir] ([c' n] & -> & Hin)]. simpl in *.
    apply elem_of_map_to_list in Hin.
    exists (List.last c' ""), n. split; [|assumption].
    rewrite <- Hdir. apply app_removelast_last, Hne.
  - intros (x & n & -> & Hc). split.
    + split; [intros Hnil; destruct p; discriminate | apply dirname_snoc].
    + exists (p ++ [x], n). split; [reflexivity|]. apply elem_of_map_to_list, Hc.
Qed.

Lemma walk_fold_elem (g : path -> option (list path)) (cs files : list path) :
  foldr (fun child acc =>
           match g child, acc with
           | Some l, Some r => Some (l ++ r)
           | _, _ => None
           end) (Some []) cs = Some files ->
  forall q, q ∈ files <-> exists c l, c ∈ cs /\ g c = Some l /\ q ∈ l.
Proof.
  revert files. induction cs as [|c cs IH]; intros files; simpl.
  - intros [= <-] q. split; [intros H; inversion H|].
    intros (c & l & Hc & _). inversion Hc.
  - destruct (g c) as [l|] eqn:Hgc; [|discriminate].
    destruct (foldr _ _ cs) as [r|]; [|discriminate].
    intros [= <-] q. rewrite elem_of_app, (IH r eq_refl). split.
    + intros [Hq | (c' & l' & Hc' & Hg & Hq)].
      * exists c, l. split; [left|]; auto.
      * exists c', l'. split; [right|]; auto.
    + intros (c' & l' & Hc' & Hg & Hq). apply elem_of_cons in Hc' as [-> | Hc'].
      * left. congruence.
      * right. eauto.
Qed.

Lemma walk_fold_total (g : path -> option (list path)) (cs : list path) :
  (forall c, c ∈ cs -> is_Some (g c)) ->
  is_Some (foldr (fun child acc =>
                    match g child, acc with
                    | Some l, Some r => Some (l ++ r)
                    | _, _ => None
                    end) (Some []) cs).
Proof.
  induction cs as [|c cs IH]; intros Hall; simpl; [eauto|].
  destruct (Hall c) as [l ->]; [left|].
  destruct IH as [r ->]; [|eauto]. intros c' Hc'. apply Hall. right. assumption.
Qed.

Lemma walk_total (f : gmap path node) (fuel : nat) :
  forall p, is_Some (Fs.lookupNode f p) -> is_Some (walk fuel f p).
Proof.
  induction fuel as [|fuel IH]; intros p [[|c] Hp]; simpl; rewrite Hp; eauto.
  apply walk_fold_total. intros c (x & n & -> & Hc)%children_spec.
  apply IH. rewrite lookupNode_snoc. eauto.
Qed.

Lemma walk_sound (f : gmap path node) (fuel : nat) :
  forall p files q,
    walk fuel f p = Some files -> q ∈ files ->
    p `prefix_of` q /\ exists c, Fs.lookupNode f q = Some (File c).
Proof.
  induction fuel as [|fuel IH]; intros p files q; simpl;
    destruct (Fs.lookupNode f p) as [[|c]|] eqn:Hp; try discriminate.
  - intros [= <-] Hq. inversion Hq.
  - intros [= <-] ->%list_elem_of_singleton. split; [reflexivity|eauto].
  - intros Hfold Hq.
    apply (walk_fold_elem _ _ _ Hfold) in Hq as (child & l & Hchild & Hwalk & Hq).
    apply children_spec in Hchild as (x & n & -> & _).
    destruct (IH _ _ _ Hwalk Hq) as [Hpre Hfile]. split; [|assumption].
    etransitivity; [|exact Hpre]. apply prefix_app_r. reflexivity.
  - intros [= <-] ->%list_elem_of_singleton. split; [reflexivity|eauto].
Qed.

Lemma wellFormed_ancestor (f : gmap path node) (p k : path) (n : node) :
  Fs.wellFormed f -> k <> [] -> f !! (p ++ k) = Some n -> Fs.lookupNode f p = Some Dir.
Proof.
  intros Hwf. revert n. induction k as [|x k IH] using rev_ind; intros n Hne Hk;
    [contradiction|].
  rewrite app_assoc in Hk. destruct (Hwf _ _ Hk) as [_ Hdir].
  rewrite dirname_snoc in Hdir. unfold Fs.isDir in Hdir.
  destruct (Fs.lookupNode f (p ++ k)) as [[|c]|] eqn:E; try discriminate.
  destruct k as [|y k]; [rewrite app_nil_r in E; exact E|].
  apply (IH Dir); [discriminate|].
  rewrite <- E. destruct p; reflexivity.
Qed.

Lemma depth_bound (f : gmap path node) (p k : path) (n : node) :
  Fs.wellFormed f -> f !! (p ++ k) = Some n -> (length k <= size f)%nat.
Proof.
  intros Hwf Hk.
  set (ancestors := (fun i => p ++ take (S i) k) <$> seq 0 (length k)).
  assert (length ancestors = length k) as <-.
  { unfold ancestors. rewrite length_fmap, length_seq. reflexivity. }
  rewrite <- length_map_to_list, <- (length_fmap fst).
  apply submseteq_length, NoDup_submseteq.
  - apply NoDup_fmap_2_strong; [|apply NoDup_seq].
    intros i j Hi%elem_of_seq Hj%elem_of_seq Heq.
    apply app_inv_head, (f_equal length) in Heq.
    rewrite !length_take_le in Heq by lia. lia.
  - intros q (i & -> & Hi%elem_of_seq)%list_elem_of_fmap.
    assert (is_Some (f !! (p ++ take (S i) k))) as [m Hm].
    { destruct (decide (drop (S i) k = [])) as [Hlast|Hmore].
      - rewrite <- (take_drop (S i) k) in Hk at 1. rewrite Hlast, app_nil_r in Hk. eauto.
      - rewrite <- (take_drop (S i) k), app_assoc in Hk.
        pose proof (wellFormed_ancestor f _ _ _ Hwf Hmore Hk) as Hdir.
        destruct k as [|x k]; [simpl in Hi; lia|]. simpl in Hdir.
        rewrite lookupNode_Some in Hdir by (destruct p; discriminate). eauto. }
    apply list_elem_of_fmap. exists (p ++ take (S i) k, m).
    split; [reflexivity|]. apply elem_of_map_to_list, Hm.
Qed.

Lemma walk_complete (f : gmap path node) (c : content) :
  Fs.wellFormed f ->
  forall k fuel p files,
    (length k <= fuel)%nat ->
    Fs.lookupNode f (p ++ k) = Some (File c) ->
    walk fuel f p = Some files ->
    p ++ k ∈ files.
Proof.
  intros Hwf. induction k as [|x k IH]; intros fuel p files Hfuel Hfile Hwalk.
  - rewrite app_nil_r in *. destruct fuel; simpl in Hwalk; rewrite Hfile in Hwalk;
      injection Hwalk as <-; left.
  - assert (f !! (p ++ x :: k) = Some (File c)) as Hk.
    { apply lookupNode_Some; [destruct p; discriminate|assumption]. }
    pose proof (wellFormed_ancestor f p (x :: k) _ Hwf ltac:(discriminate) Hk) as Hdir.
    destruct fuel as [|fuel]; [simpl in Hfuel; lia|].
    simpl in Hwalk. rewrite Hdir in Hwalk.
    assert (is_Some (f !! (p ++ [x]))) as [n Hx].
    { destruct k as [|y k]; [eauto|].
      change (p ++ x :: y :: k) with (p ++ [x] ++ y :: k) in Hk. rewrite app_assoc in Hk.
      pose proof (wellFormed_ancestor f (p ++ [x]) (y :: k) _ Hwf ltac:(discriminate) Hk)
        as Hd.
      rewrite lookupNode_snoc in Hd. eauto. }
    destruct (walk_total f fuel (p ++ [x])) as [l Hl].
    { rewrite lookupNode_snoc. eauto. }
    apply (walk_fold_elem _ _ _ Hwalk). exists (p ++ [x]), l.
    split; [apply children_spec; eauto|]. split; [assumption|].
    change (p ++ x :: k) with (p ++ [x] ++ k). rewrite app_assoc.
    apply (IH fuel); [simpl in Hfuel; lia| |assumption].
    rewrite <- app_assoc. exact Hfile.
Qed.

Variable h : host.

(** X23 (lines 129-138): on a file system where every entry lies in a
    directory, [listFiles] of a path that exists changes nothing and hands
    to the completion order exactly the files at or below the path; on a
    path that does not exist it fails. *)
Theorem listFiles_exact (aPath : path) (w : world) :
  Fs.wellFormed (fs w) ->
  (Fs.exists_ (fs w) aPath = true ->
   exists files,
     listFiles h aPath w = (Ok (walkOrder h files), w) /\
     forall q, q ∈ files <->
               aPath `prefix_of` q /\ exists c, Fs.lookupNode (fs w) q = Some (File c)) /\
  (Fs.exists_ (fs w) aPath = false ->
   exists e, listFiles h aPath w = (Throw e, w)).
Proof.
  intros Hwf. split.
  - intros Hexists.
    destruct (walk_total (fs w) (size (fs w)) aPath) as [files Hwalk].
    { unfold Fs.exists_ in Hexists. destruct (Fs.lookupNode (fs w) aPath); [eauto|discriminate]. }
    exists files. split; [apply listFiles_walk, Hwalk|].
    intros q. split; [apply (walk_sound _ _ _ _ _ Hwalk)|].
    intros [[k ->] [c Hc]].
    refine (walk_complete _ c Hwf k _ _ _ _ Hc Hwalk).
    destruct k as [|x k]; [simpl; lia|].
    apply (depth_bound (fs w) aPath (x :: k) (File c) Hwf).
    apply lookupNode_Some; [destruct aPath; discriminate|assumption].
  - intros Hmissing. unfold listFiles, mbind, getFs.
    unfold Fs.exists_ in Hmissing.
    destruct (size (fs w)); simpl; destruct (Fs.lookupNode (fs w) aPath);
      try discriminate; unfold throw; eauto.
Qed.

End ListFacts.

(** ** What a successful call of [ensureFirefoxBuild] leaves *)

Section SettledFacts.
Import BuildCache.
Variable h : host.

Lemma fetch_persisted (fuel : nat) (name n p : string) (w w' : world) (d : json) :
  fetch fuel h name n p w = (Ok d, w') -> persisted h (fs w') = Some d.
Proof.
  intros Hfetch. pose proof (fetch_returns h _ _ _ _ _ _ _ Hfetch) as ->.
  unfold fetch in Hfetch.
  apply bind_inv_ok in Hfetch as (url & w0 & _ & Hfetch).
  apply seq_inv_ok in Hfetch as (w1 & _ & H).
  apply seq_inv_ok in H as (w2 & _ & H).
  apply seq_inv_ok in H as (w3 & Hwrite & H).
  unfold ret in H. injection H as <-.
  unfold Fs.writeFile in Hwrite. apply seq_inv_ok in Hwrite as (w4 & _ & Hput).
  apply putFile_inv in Hput as [-> _]. apply persisted_written.
Qed.

(** X24 (lines 99-126): whenever [ensureFirefoxBuild] returns, on a hit or
    after a download, the descriptor it returns carries the three strings of
    the request, it is the descriptor that is persisted, and the same request
    is from then on a cache hit that changes nothing. *)
Theorem ensure_returns_settled (fuel : nat) (name n p : string) (d : json)
    (w w' : world) :
  name <> "" ->
  ensureResolved fuel h name n p w = (Ok d, w') ->
  fieldsEqual d n p name /\
  persisted h (fs w') = Some d /\
  forall fuel', ensureResolved fuel' h name n p w' = (Ok d, w').
Proof.
  intros Hname Hrun.
  assert (fieldsEqual d n p name /\ persisted h (fs w') = Some d) as [Hfields Hpersisted].
  { unfold ensureResolved in Hrun.
    rewrite (bind_ok _ _ _ _ _ (readBuildInfo_spec h w)) in Hrun.
    unfold mbind at 1 in Hrun. unfold liftResult in Hrun.
    destruct (sameBuild (default noBuild (persisted h (fs w))) n p name)
      as [[|]| | |] eqn:Hsame; try discriminate.
    - unfold ret in Hrun. injection Hrun as <- <-.
      apply sameBuild_true in Hsame. split; [assumption|].
      destruct (persisted h (fs w)) as [v|]; [reflexivity|].
      destruct Hsame as (_ & _ & Hb). simpl in Hb. congruence.
    - apply seq_inv_ok in Hrun as (w1 & _ & Hfetch).
      pose proof (fetch_persisted _ _ _ _ _ _ _ Hfetch) as Hp.
      pose proof (fetch_returns h _ _ _ _ _ _ _ Hfetch) as ->.
      split; [repeat split|assumption]. }
  split; [exact Hfields|]. split; [exact Hpersisted|].
  intros fuel'. pose proof (ensure_hit h fuel' name n p w') as Hhit.
  rewrite Hpersisted in Hhit. apply Hhit, sameBuild_true, Hfields.
Qed.

End SettledFacts.

(** ** A manifest line without a source *)

Section ManifestMore.
Import Patcher.
Variable h : host.

(** X25 (lines 180-187): a manifest line without white space has no second
    token: the loop fails on it with a type error before it makes a directory
    or copies a file, and the lines after it are not copied. *)
Theorem line_without_source (browserName line : string) (rest : list string)
    (w : world) :
  Forall (fun c => isWhiteSpace c = false) (list_ascii_of_string line) ->
  exists message,
    jarEntry line = Throw (TypeError message) /\
    forEach (copyJarLine h browserName) (line :: rest) w = (Throw (TypeError message), w).
Proof.
  intros Hall. unfold jarEntry. rewrite (splitWs_one_token line Hall).
  eexists. split; [reflexivity|].
  simpl. unfold copyJarLine, jarCopy, jarEntry. rewrite (splitWs_one_token line Hall).
  reflexivity.
Qed.

End ManifestMore.

(** ** The properties above on the sample hosts and worlds *)

Lemma download_url_shape_witness :
  exists file,
    format "https://playwright.azureedge.net/builds/firefox/%s/firefox-win64.zip" "1234" =
      "https://playwright.azureedge.net/builds/" +:+ "firefox" +:+ "/" +:+ "1234"
        +:+ "/" +:+ file /\
    startsWith ("firefox" +:+ "-") file = true /\ endsWith ".zip" file = true.
Proof.
  apply (download_url_shape "firefox" "win64" _ "1234" _ eq_refl eq_refl).
Defined.

Lemma release_line_cut_once_witness :
  Platform.setField ∅ "PRETTY=a=b" !! "pretty" = Some "a=b".
Proof.
  change "PRETTY=a=b" with ("PRETTY" +:+ String "=" "a=b").
  rewrite (proj1 (release_line_cut_once ∅ "PRETTY" "a=b" eq_refl ltac:(discriminate))).
  apply lookup_insert_eq.
Defined.

Lemma main_usage_witness :
  main 0 (Sample.mac "12.1" "1") ["--help"] Sample.emptyWorld = (Exit 1, Sample.emptyWorld).
Proof.
  apply main_usage; discriminate.
Defined.

Lemma main_reports_failure_witness :
  main 0 (Sample.mac "12.1" "1") ["ff"] Sample.emptyWorld = (Exit 1, Sample.emptyWorld).
Proof.
  apply (main_reports_failure (Sample.mac "12.1" "1") 0 "firefox" ["ff"]
           (IOError "ENOENT" "repo/browser_patches/firefox/BUILD_NUMBER")
           Sample.emptyWorld Sample.emptyWorld eq_refl eq_refl).
Defined.

Lemma build_number_file_required_witness :
  exists code,
    BuildCache.ensureFirefoxBuild 0 (Sample.mac "12.1" "1") "firefox" (Some "") None
      Sample.emptyWorld =
    (Throw (IOError code
              (Js.join "/" (pathJoin (Sample.mac "12.1" "1") (scriptDir (Sample.mac "12.1" "1"))
                              ["firefox"; "BUILD_NUMBER"]))),
     Sample.emptyWorld).
Proof.
  apply (build_number_file_required (Sample.mac "12.1" "1") 0 "firefox" (Some "") None
           Sample.emptyWorld eq_refl).
  intros c. discriminate.
Defined.

Lemma build_number_first_line_witness :
  BuildCache.resolve (Sample.linux Sample.offline) "firefox" None (Some "ubuntu20.04")
    Sample.fresh = (Ok ("1234", "ubuntu20.04"), Sample.fresh).
Proof.
  apply (build_number_first_line (Sample.linux Sample.offline) "firefox" "1234" ""
           "ubuntu20.04" None (Text "1234") Sample.fresh eq_refl).
  - vm_compute. reflexivity.
  - left. reflexivity.
  - reflexivity.
  - discriminate.
Defined.

Lemma search_stops_at_broken_archive_witness :
  exists e,
    Patcher.findOmniWithJuggler (Sample.linux Sample.offline)
      ([ ["tmp"; "repackaged-firefox"; "firefox"; "browser"; "omni.ja"] ] ++
       ["tmp"; "repackaged-firefox"; "firefox"; "firefox"] :: [ Sample.target ])
      Sample.staged = (Throw e, Sample.staged).
Proof.
  apply search_stops_at_broken_archive.
  - apply Forall_test. vm_compute. reflexivity.
  - apply Forall_test. vm_compute. reflexivity.
  - vm_compute. reflexivity.
Defined.

Lemma listFiles_exact_witness :
  exists files,
    Patcher.listFiles (Sample.linux Sample.offline) ["tmp"; "repackaged-firefox"]
      Sample.staged = (Ok (walkOrder (Sample.linux Sample.offline) files), Sample.staged) /\
    forall q, q ∈ files <->
              ["tmp"; "repackaged-firefox"] `prefix_of` q /\
              exists c, Fs.lookupNode (fs Sample.staged) q = Some (File c).
Proof.
  apply (proj1 (listFiles_exact (Sample.linux Sample.offline) ["tmp"; "repackaged-firefox"]
                  Sample.staged sample_wellFormed)).
  vm_compute. reflexivity.
Defined.

Lemma ensure_returns_settled_witness :
  BuildCache.persisted (Sample.linux Sample.offline) (fs Sample.staged)
  = Some (default BuildCache.noBuild
            (BuildCache.persisted (Sample.linux Sample.offline) (fs Sample.staged))).
Proof.
  apply (ensure_returns_settled (Sample.linux Sample.offline) 0 "firefox" "1234"
           "ubuntu20.04" _ Sample.staged Sample.staged ltac:(discriminate)).
  apply ensure_hit. vm_compute. reflexivity.
Defined.

Lemma line_without_source_witness :
  exists message,
    Patcher.jarEntry "content/a.js(a.js)" = Throw (TypeError message) /\
    forEach (Patcher.copyJarLine (Sample.linux Sample.offline) "firefox")
      ["content/a.js(a.js)"; "content/b.js (b.js)"] Sample.staged
    = (Throw (TypeError message), Sample.staged).
Proof.
  apply line_without_source. apply Forall_test. vm_compute. reflexivity.
Defined.
